(** * python-javabridge-windows: locating or downloading a Java runtime

    A shallow embedding of [javabridge/download_java.py] and
    [javabridge/locate.py], and the properties of their specification.

    The Python functions are embedded as functions of a small state and
    exception monad.  What the interpreter and the operating system provide
    (the platform name, the environment, the home directory, the remote
    server, the zip decoder) is the record [Host]; what the program changes
    (the file system, the supply of temporary names) is the record [State],
    which also carries the trace of observable events: the GET requests,
    the emissions to the progress sink and the changes of the file system.

    The library functions the program calls are modelled after their
    documentation and their CPython source: [os.path] ([posixpath] and
    [ntpath], without UNC roots), [os.makedirs], [tempfile.mkdtemp],
    [shutil.move] and [shutil.rmtree], [zipfile.ZipFile.extractall] with
    the sanitising of member names.  The file system maps path strings to
    nodes: it has no links, no current directory, and compares paths as
    they are written. *)

From Stdlib Require Import ZArith Ascii String List Lia Bool.
From Stdlib Require Strings.Byte.
From stdpp Require Import base option gmap strings list fin_maps.

Import ListNotations.
Local Open Scope string_scope.
Local Open Scope Z_scope.

(** ** Python strings *)

Module PyStr.

(** [s.startswith(p)] *)
Definition startswith (s p : string) : bool := String.prefix p s.

(** [s.endswith(suf)]: [s] is [suf], or its tail ends with [suf]. *)
Fixpoint endswith (s suf : string) : bool :=
  String.eqb s suf ||
  match s with
  | EmptyString => false
  | String _ s' => endswith s' suf
  end.

(** [s.rfind(sub)]: the highest index at which [sub] occurs, or [-1]. *)
Fixpoint rfind (s sub : string) : Z :=
  match s with
  | EmptyString => if String.eqb sub "" then 0 else -1
  | String _ s' =>
      let r := rfind s' sub in
      if 0 <=? r then r + 1
      else if String.prefix sub s then 0 else -1
  end.

(** [s[:i]], with Python's reading of a negative bound. *)
Definition slice_to (s : string) (i : Z) : string :=
  let n := Z.of_nat (String.length s) in
  let j := if i <? 0 then Z.max 0 (n + i) else i in
  String.substring 0 (Z.to_nat j) s.

Definition last_char (s : string) : option ascii :=
  String.get (Nat.pred (String.length s)) s.

Definition first_char (s : string) : option ascii := String.get 0 s.

Definition nonempty (s : string) : bool :=
  match s with EmptyString => false | _ => true end.

Definition lower_ascii (c : ascii) : ascii :=
  let n := nat_of_ascii c in
  if (Nat.leb 65 n && Nat.leb n 90)%bool then ascii_of_nat (n + 32) else c.

Fixpoint lower (s : string) : string :=
  match s with
  | EmptyString => EmptyString
  | String c s' => String (lower_ascii c) (lower s')
  end.

(** [s.split(c)] *)
Fixpoint split_on (c : ascii) (s : string) : list string :=
  match s with
  | EmptyString => [""]
  | String x s' =>
      let parts := split_on c s' in
      if Ascii.eqb x c then "" :: parts
      else match parts with
           | p :: ps => String x p :: ps
           | [] => [String x ""]
           end
  end.

(** [c.join(parts)] *)
Fixpoint join_with (c : ascii) (parts : list string) : string :=
  match parts with
  | [] => ""
  | [p] => p
  | p :: ps => p ++ String c (join_with c ps)
  end.

End PyStr.

(** ** The two implementations of [os.path]

    [posixpath] has one separator and no drives; [ntpath] has the separator
    [\], the alternative separator [/] and drive letters.  UNC roots
    ([\\server\share]) are not modelled: [splitdrive] only knows [X:]. *)

Module OsPath.

Record Flavour := {
  sep : ascii;
  altsep : option ascii;
  drives : bool
}.

Definition posixpath : Flavour :=
  {| sep := "/"%char; altsep := None; drives := false |}.

Definition ntpath : Flavour :=
  {| sep := "\"%char; altsep := Some "/"%char; drives := true |}.

Section WithFlavour.
Variable fl : Flavour.

Definition is_sep (c : ascii) : bool :=
  Ascii.eqb c (sep fl) ||
  match altsep fl with Some a => Ascii.eqb c a | None => false end.

Definition opt_is_sep (o : option ascii) : bool :=
  match o with Some c => is_sep c | None => false end.

(** [splitdrive(p)] *)
Definition splitdrive (p : string) : string * string :=
  if drives fl then
    match p with
    | String c (String d rest) =>
        if Ascii.eqb d ":" then (String c (String d ""), rest) else ("", p)
    | _ => ("", p)
    end
  else ("", p).

(** The step of [join] that appends the relative path [b] to the path
    part [p]: a separator is inserted unless [p] is empty or already
    ends with one. *)
Definition add_sep (p : string) : string :=
  if PyStr.nonempty p && negb (opt_is_sep (PyStr.last_char p))
  then p ++ String (sep fl) ""
  else p.

(** [os.path.join(a, b)] *)
Definition join (a b : string) : string :=
  let '(ad, ap) := splitdrive a in
  let '(bd, bp) := splitdrive b in
  if opt_is_sep (PyStr.first_char bp) then
    (* the second path is absolute *)
    (if PyStr.nonempty bd || negb (PyStr.nonempty ad) then bd else ad) ++ bp
  else if PyStr.nonempty bd && negb (String.eqb bd ad) then
    if negb (String.eqb (PyStr.lower bd) (PyStr.lower ad))
    then bd ++ bp                       (* another drive *)
    else bd ++ add_sep ap ++ bp         (* same drive, other case *)
  else ad ++ add_sep ap ++ bp.

(** [os.path.join(a, b, c)] *)
Definition join3 (a b c : string) : string := join (join a b) c.

(** Cuts a path after its last separator: [(p[:i], p[i:])]. *)
Fixpoint cut_last_sep (p : string) : string * string :=
  match p with
  | EmptyString => ("", "")
  | String c p' =>
      let '(h, t) := cut_last_sep p' in
      if PyStr.nonempty h then (String c h, t)
      else if is_sep c then (String c "", t)
      else ("", String c t)
  end.

(** [head.rstrip(seps)] *)
Fixpoint rstrip_seps (s : string) : string :=
  match s with
  | EmptyString => ""
  | String c s' =>
      let r := rstrip_seps s' in
      if negb (PyStr.nonempty r) && is_sep c then "" else String c r
  end.

(** [os.path.split(p)] *)
Definition split (p : string) : string * string :=
  let '(d, rest) := splitdrive p in
  let '(h, t) := cut_last_sep rest in
  let h' := rstrip_seps h in
  (d ++ (if PyStr.nonempty h' then h' else h), t).

Definition dirname (p : string) : string := fst (split p).
Definition basename (p : string) : string := snd (split p).

(** [p] is [d] itself or lies below it. *)
Definition under (d p : string) : bool :=
  String.eqb p d ||
  (String.prefix d p &&
   opt_is_sep (String.get (String.length d) p)).

(** [path.replace(altsep, sep)] *)
Fixpoint to_sep (p : string) : string :=
  match p with
  | EmptyString => ""
  | String c p' => String (if is_sep c then sep fl else c) (to_sep p')
  end.

(** [path.lstrip(sep)] *)
Fixpoint lstrip_sep (p : string) : string :=
  match p with
  | EmptyString => ""
  | String c p' => if Ascii.eqb c (sep fl) then lstrip_sep p' else p
  end.

(** One round of the loop of [normpath] over the components; [new_comps]
    holds the components kept so far, the last one first.  An empty
    component and [.] are dropped; [..] removes the component before it,
    is dropped at a root, and is kept at the start of a relative path and
    after another [..]. *)
Definition norm_step (rooted : bool) (new_comps : list string) (comp : string)
  : list string :=
  if String.eqb comp "" || String.eqb comp "." then new_comps
  else if String.eqb comp ".." then
    match new_comps with
    | [] => if rooted then [] else [comp]
    | last :: before =>
        if String.eqb last ".." then comp :: new_comps else before
    end
  else comp :: new_comps.

Definition norm_comps (rooted : bool) (comps : list string) : list string :=
  rev (fold_left (norm_step rooted) comps []).

(** [os.path.normpath(path)]: that of [ntpath] for the flavour with
    drives, that of [posixpath] for the other. *)
Definition normpath (path : string) : string :=
  let sep1 := String (sep fl) "" in
  if drives fl then
    let path := to_sep path in
    let '(prefix, path) := splitdrive path in
    let '(prefix, path) :=
      if PyStr.startswith path sep1
      then (prefix ++ sep1, lstrip_sep path) else (prefix, path) in
    let comps :=
      norm_comps (PyStr.endswith prefix sep1) (PyStr.split_on (sep fl) path) in
    let comps :=
      match comps with
      | [] => if PyStr.nonempty prefix then comps else ["."]
      | _ => comps
      end in
    prefix ++ PyStr.join_with (sep fl) comps
  else
    if String.eqb path "" then "." else
    let initial_slashes :=
      if PyStr.startswith path sep1 then
        if PyStr.startswith path (sep1 ++ sep1) &&
           negb (PyStr.startswith path (sep1 ++ sep1 ++ sep1))
        then sep1 ++ sep1 else sep1
      else "" in
    let comps := norm_comps (PyStr.nonempty initial_slashes)
                            (PyStr.split_on (sep fl) path) in
    let path := initial_slashes ++ PyStr.join_with (sep fl) comps in
    if PyStr.nonempty path then path else ".".

End WithFlavour.

End OsPath.

(** ** Exceptions, the host and the state *)

Inductive Exn :=
| KeyError (key : string)
| TypeError
| UnboundLocalError (name : string)
| RuntimeError (msg : string)
| FileNotFoundError (p : string)
| FileExistsError (p : string)
| NotADirectoryError (p : string)
| IsADirectoryError (p : string)
| ShutilError (p : string)
| ConnectionError
| ChunkedEncodingError
| BadZipFile.

Abbreviation bytes := (list Byte.byte).

Inductive Node :=
| Dir
| File (content : bytes).

(** A response of the download endpoint: its cookies in the order of the
    cookie jar, the chunks [iter_content] yields, and whether the stream
    breaks after them. *)
Record Response := {
  cookies : list (string * string);
  chunks : list bytes;
  broken : bool
}.

(** A member of a zip archive: its stored name and its data. *)
Record ZipMember := {
  filename : string;
  data : bytes
}.

Record Host := {
  platform : string;                      (* sys.platform *)
  environ : gmap string string;           (* os.environ *)
  home : string;                          (* str(Path.home()) *)
  server : string -> option string -> option Response;
                                          (* GET with id and confirm *)
  unzip : bytes -> option (list ZipMember)   (* zipfile.ZipFile(...) *)
}.

Inductive Event :=
| EvGet (id : string) (confirm : option string)
| EvEmit (total : Z) (done : Z)
| EvMkdir (p : string)
| EvCreate (p : string)
| EvWrite (p : string) (chunk : bytes)
| EvRename (src dst : string)
| EvUnlink (p : string)
| EvRmtree (p : string)
| EvProbe (p : string).     (* tempfile's probe file: created, written, unlinked *)

Record State := {
  fs : gmap string Node;
  tmp_names : list string;     (* the names tempfile.mkdtemp will try *)
  probe_names : list string;   (* the probe files tempfile would try before
                                  it has chosen its directory; none after *)
  trace : list Event           (* oldest event first *)
}.

Definition is_linux (h : Host) : bool := PyStr.startswith (platform h) "linux".
Definition is_mac (h : Host) : bool := String.eqb (platform h) "darwin".
Definition is_win (h : Host) : bool := PyStr.startswith (platform h) "win".

(** [os.path] is [ntpath] on Windows and [posixpath] elsewhere. *)
Definition os_path (h : Host) : OsPath.Flavour :=
  if is_win h then OsPath.ntpath else OsPath.posixpath.

(** ** The monad: state and exceptions *)

Definition M (A : Type) : Type := State -> (Exn + A) * State.

Definition ret {A} (a : A) : M A := fun s => (inr a, s).
Definition raise {A} (e : Exn) : M A := fun s => (inl e, s).
Definition bind {A B} (m : M A) (k : A -> M B) : M B :=
  fun s => match m s with
           | (inl e, s') => (inl e, s')
           | (inr a, s') => k a s'
           end.
Definition gets {A} (f : State -> A) : M A := fun s => (inr (f s), s).
Definition modify (f : State -> State) : M unit := fun s => (inr tt, f s).

Notation "x <- m ;; k" := (bind m (fun x => k))
  (at level 100, m at next level, right associativity).
Notation "m ;;; k" := (bind m (fun _ => k))
  (at level 100, right associativity).

Definition when (b : bool) (m : M unit) : M unit := if b then m else ret tt.

(** [for x in xs: body(x)] *)
Fixpoint for_each {X} (xs : list X) (body : X -> M unit) : M unit :=
  match xs with
  | [] => ret tt
  | x :: xs' => body x ;;; for_each xs' body
  end.

Definition log (e : Event) : M unit :=
  modify (fun s => {| fs := fs s; tmp_names := tmp_names s;
                      probe_names := probe_names s;
                      trace := trace s ++ [e] |}).

Definition set_fs (f : gmap string Node) : M unit :=
  modify (fun s => {| fs := f; tmp_names := tmp_names s;
                      probe_names := probe_names s; trace := trace s |}).

(** [try: m except FileExistsError: pass] *)
Definition except_file_exists (m : M unit) : M unit :=
  fun s => match m s with
           | (inl (FileExistsError _), s') => (inr tt, s')
           | r => r
           end.

(** ** The file system

    A path is looked up as the string it is: the model has no links, no
    current directory and no normalisation, and a root directory exists
    when the map has it.  The parent of a path is its [dirname]; a path
    with an empty [dirname] is taken to lie in an existing directory. *)

Module Fs.
Section WithHost.
Variable h : Host.
Local Abbreviation fl := (os_path h).

Definition is_some_node (o : option Node) : bool :=
  match o with Some _ => true | None => false end.
Definition is_dir_node (o : option Node) : bool :=
  match o with Some Dir => true | _ => false end.
Definition is_file_node (o : option Node) : bool :=
  match o with Some (File _) => true | _ => false end.

Definition parent_ok (f : gmap string Node) (p : string) : bool :=
  let d := OsPath.dirname fl p in
  negb (PyStr.nonempty d) || is_dir_node (f !! d).

(** [os.path.exists], [os.path.isdir], [os.path.isfile] *)
Definition exists_ (p : string) : M bool :=
  gets (fun s => is_some_node (fs s !! p)).
Definition isdir (p : string) : M bool :=
  gets (fun s => is_dir_node (fs s !! p)).
Definition isfile (p : string) : M bool :=
  gets (fun s => is_file_node (fs s !! p)).

(** The error for a path that has no entry or whose directory is
    missing.  On POSIX a regular file in the place of one of the
    directories of the path gives [NotADirectoryError] (ENOTDIR), a
    missing directory [FileNotFoundError] (ENOENT); Windows reports both
    as [FileNotFoundError].  [below_file] looks at the directories above
    [p], the nearest first, up to the first that has an entry. *)
Fixpoint below_file (fuel : nat) (f : gmap string Node) (p : string) : bool :=
  match fuel with
  | O => false
  | S fuel' =>
      let d := OsPath.dirname fl p in
      match f !! d with
      | Some (File _) => true
      | Some Dir => false
      | None => below_file fuel' f d
      end
  end.

Definition no_entry (f : gmap string Node) (p : string) : Exn :=
  if negb (is_win h) && below_file (String.length p) f p
  then NotADirectoryError p
  else FileNotFoundError p.

(** [os.mkdir(p)] *)
Definition mkdir (p : string) : M unit :=
  f <- gets fs ;;
  if negb (PyStr.nonempty p) then raise (FileNotFoundError p)
  else if is_some_node (f !! p) then raise (FileExistsError p)
  else if negb (parent_ok f p) then raise (no_entry f p)
  else set_fs (<[p := Dir]> f) ;;; log (EvMkdir p).

(** [os.makedirs(name)], with [exist_ok=False].  The recursion is on the
    head of the path, which is shorter than the path; [fuel] bounds its
    depth. *)
Fixpoint makedirs_go (fuel : nat) (name : string) : M unit :=
  let '(head0, tail0) := OsPath.split fl name in
  let '(head, tail) :=
    if PyStr.nonempty tail0 then (head0, tail0) else OsPath.split fl head0 in
  ex <- exists_ head ;;
  if PyStr.nonempty head && PyStr.nonempty tail && negb ex then
    match fuel with
    | O => raise (RuntimeError "maximum recursion depth exceeded")
    | S fuel' =>
        except_file_exists (makedirs_go fuel' head) ;;;
        if String.eqb tail "." then ret tt else mkdir name
    end
  else mkdir name.

Definition makedirs (name : string) : M unit :=
  makedirs_go (String.length name) name.

(** [tempfile.mkdtemp()].  The first time [tempfile] is used in a
    process it chooses its directory ([_get_default_tempdir]) by creating
    a probe file in it, writing to it and unlinking it: [probe_names] are
    the names it would try, a name that exists is skipped, and no name is
    left once the directory is chosen.  Then the first candidate name
    that does not exist yet is created. *)
Fixpoint first_free (f : gmap string Node) (names : list string)
  : option (string * list string) :=
  match names with
  | [] => None
  | n :: rest =>
      if is_some_node (f !! n) then first_free f rest else Some (n, rest)
  end.

Definition gettempdir : M unit :=
  fun s =>
    match probe_names s with
    | [] => (inr tt, s)
    | names =>
        match first_free (fs s) names with
        | None =>
            (inl (FileNotFoundError "No usable temporary directory found"), s)
        | Some (p, _) =>
            (inr tt, {| fs := fs s; tmp_names := tmp_names s;
                        probe_names := []; trace := trace s ++ [EvProbe p] |})
        end
    end.

Definition mkdtemp : M string :=
  gettempdir ;;;
  fun s =>
    match first_free (fs s) (tmp_names s) with
    | None =>
        (inl (FileExistsError "No usable temporary directory name found"), s)
    | Some (n, rest) =>
        (inr n, {| fs := <[n := Dir]> (fs s); tmp_names := rest;
                   probe_names := probe_names s;
                   trace := trace s ++ [EvMkdir n] |})
    end.

(** [open(p, "wb")]: the file is created or truncated. *)
Definition open_wb (p : string) : M unit :=
  f <- gets fs ;;
  if negb (PyStr.nonempty (OsPath.basename fl p)) then
    raise (IsADirectoryError p)
  else if is_dir_node (f !! p) then raise (IsADirectoryError p)
  else if negb (parent_ok f p) then raise (no_entry f p)
  else set_fs (<[p := File []]> f) ;;; log (EvCreate p).

(** [f.write(chunk)] on the file opened at [p] *)
Definition write (p : string) (chunk : bytes) : M unit :=
  f <- gets fs ;;
  match f !! p with
  | Some (File c) => set_fs (<[p := File (c ++ chunk)]> f) ;;; log (EvWrite p chunk)
  | _ => raise (FileNotFoundError p)
  end.

(** [shutil.move(src, dst)] for a source that is a file: into [dst] when
    [dst] is an existing directory, onto [dst] otherwise.  The program
    never moves a directory.  The move is the one of [os.rename]:
    [shutil.move] copies the file and unlinks the source instead when the
    two paths are on different file systems, which changes the same two
    paths, and is not modelled; nor is a copy that fails half-way. *)
Definition move (src dst : string) : M unit :=
  dst_is_dir <- isdir dst ;;
  real_dst <-
    (if dst_is_dir then
       let r := OsPath.join fl dst (OsPath.basename fl src) in
       ex <- exists_ r ;;
       if ex then raise (ShutilError r) else ret r
     else ret dst) ;;
  f <- gets fs ;;
  match f !! src with
  | Some (File c) =>
      if parent_ok f real_dst
      then set_fs (<[real_dst := File c]> (delete src f)) ;;;
           log (EvRename src real_dst)
      else raise (no_entry f real_dst)
  | Some Dir => raise (IsADirectoryError src)
  | None => raise (no_entry f src)
  end.

(** [shutil.rmtree(t)] *)
Definition rmtree (t : string) : M unit :=
  f <- gets fs ;;
  match f !! t with
  | Some Dir =>
      set_fs (filter (fun kv => OsPath.under fl t kv.1 = false) f) ;;;
      log (EvRmtree t)
  | Some (File _) => raise (NotADirectoryError t)
  | None => raise (no_entry f t)
  end.

(** [os.remove(p)] *)
Definition remove (p : string) : M unit :=
  f <- gets fs ;;
  match f !! p with
  | Some (File _) => set_fs (delete p f) ;;; log (EvUnlink p)
  | Some Dir => raise (IsADirectoryError p)
  | None => raise (no_entry f p)
  end.

(** Reading a whole file. *)
Definition read (p : string) : M bytes :=
  f <- gets fs ;;
  match f !! p with
  | Some (File c) => ret c
  | Some Dir => raise (IsADirectoryError p)
  | None => raise (no_entry f p)
  end.

End WithHost.
End Fs.

(** ** Extraction of a zip archive ([zipfile.ZipFile.extractall]) *)

Module Zip.

(** [s.replace(a, b)] for single characters *)
Fixpoint replace_char (a b : ascii) (s : string) : string :=
  match s with
  | EmptyString => ""
  | String c s' =>
      String (if Ascii.eqb c a then b else c) (replace_char a b s')
  end.

(** [x.rstrip('.')] *)
Fixpoint rstrip_dots (s : string) : string :=
  match s with
  | EmptyString => ""
  | String c s' =>
      let r := rstrip_dots s' in
      if negb (PyStr.nonempty r) && Ascii.eqb c "." then "" else String c r
  end.

Definition windows_illegal (c : ascii) : bool :=
  existsb (Ascii.eqb c)
    [":"; "<"; ">"; "|"; "034"; "?"; "*"]%char.

(** [arcname.translate(table)]: the illegal characters become [_]. *)
Fixpoint translate_illegal (s : string) : string :=
  match s with
  | EmptyString => ""
  | String c s' =>
      String (if windows_illegal c then "_"%char else c) (translate_illegal s')
  end.

(** [ZipFile._sanitize_windows_name] *)
Definition sanitize_windows_name (arcname : string) (pathsep : ascii) : string :=
  let parts :=
    List.map rstrip_dots (PyStr.split_on pathsep (translate_illegal arcname)) in
  PyStr.join_with pathsep (List.filter PyStr.nonempty parts).

Definition invalid_path_part (x : string) : bool :=
  String.eqb x "" || String.eqb x "." || String.eqb x "..".

(** The name under which a member is extracted: separators are those of
    the platform, a drive is dropped, and empty, [.] and [..] components
    are removed. *)
Definition arcname (fl : OsPath.Flavour) (name : string) : string :=
  let a := replace_char "/" (OsPath.sep fl) name in
  let a := match OsPath.altsep fl with
           | Some alt => replace_char alt (OsPath.sep fl) a
           | None => a
           end in
  let a := snd (OsPath.splitdrive fl a) in
  let a := PyStr.join_with (OsPath.sep fl)
             (List.filter (fun x => negb (invalid_path_part x))
                          (PyStr.split_on (OsPath.sep fl) a)) in
  if Ascii.eqb (OsPath.sep fl) "\"%char then sanitize_windows_name a (OsPath.sep fl)
  else a.

(** [ZipInfo.is_dir()] *)
Definition is_dir (m : ZipMember) : bool := PyStr.endswith (filename m) "/".

Section WithHost.
Variable h : Host.
Local Abbreviation fl := (os_path h).

(** [ZipFile._extract_member] *)
Definition extract_member (targetpath : string) (m : ZipMember) : M unit :=
  let arcname := arcname fl (filename m) in
  let targetpath := OsPath.join fl targetpath arcname in
  let targetpath := OsPath.normpath fl targetpath in
  let upperdirs := OsPath.dirname fl targetpath in
  ex <- Fs.exists_ upperdirs ;;
  when (PyStr.nonempty upperdirs && negb ex) (Fs.makedirs h upperdirs) ;;;
  if is_dir m then
    d <- Fs.isdir targetpath ;;
    when (negb d) (Fs.mkdir h targetpath)
  else
    Fs.open_wb h targetpath ;;;
    Fs.write targetpath (data m).

(** [extract_zip(zip_path, extract_to_path)] *)
Definition extract_zip (zip_path extract_to_path : string) : M unit :=
  content <- Fs.read h zip_path ;;
  match unzip h content with
  | None => raise BadZipFile
  | Some members => for_each members (extract_member extract_to_path)
  end.

End WithHost.
End Zip.

(** ** download_java.py

    The messages printed on the console and the optional [tqdm] progress
    bar are left out; [model_name] only occurs in a message. *)

Definition extract_zip := Zip.extract_zip.

(** [session.get(URL, params = {'id': id, 'confirm': token}, stream = True)] *)
Definition session_get (h : Host) (id : string) (confirm : option string)
  : M Response :=
  log (EvGet id confirm) ;;;
  match server h id confirm with
  | Some r => ret r
  | None => raise ConnectionError
  end.

Fixpoint first_warning (cs : list (string * string)) : option string :=
  match cs with
  | [] => None
  | (key, value) :: cs' =>
      if PyStr.startswith key "download_warning" then Some value
      else first_warning cs'
  end.

Definition get_confirm_token (response : Response) : option string :=
  first_warning (cookies response).

(** [progress.emit(a, b)] *)
Definition emit (a b : Z) : M unit := log (EvEmit a b).

Definition nonempty_bytes (c : bytes) : bool :=
  match c with [] => false | _ => true end.

Definition is_some {A} (o : option A) : bool :=
  match o with Some _ => true | None => false end.

Definition save_response_content (h : Host) (response : Response)
    (destination : string) (file_size : option Z) (progress : bool) : M unit :=
  let fl := os_path h in
  temp_folder <- Fs.mkdtemp ;;
  ex <- Fs.exists_ temp_folder ;;
  when (negb ex) (Fs.mkdir h temp_folder) ;;;
  let temp_dst := OsPath.join fl temp_folder (OsPath.basename fl destination) in
  match file_size with
  | Some size => when progress (emit size (-1))
  | None => ret tt
  end ;;;
  Fs.open_wb h temp_dst ;;;
  for_each (chunks response) (fun chunk =>
    if nonempty_bytes chunk then
      Fs.write temp_dst chunk ;;;
      when progress (emit (-1) (Z.of_nat (length chunk)))
    else ret tt) ;;;
  when (broken response) (raise ChunkedEncodingError) ;;;
  let destination_dir := OsPath.dirname fl destination in
  ex <- Fs.exists_ destination_dir ;;
  when (negb ex) (Fs.makedirs h destination_dir) ;;;
  Fs.move h temp_dst destination ;;;
  Fs.rmtree h temp_folder.

Definition download_from_gdrive (h : Host) (id destination : string)
    (file_size : option Z) (progress : bool) : M unit :=
  response <- session_get h id None ;;
  let token := get_confirm_token response in
  response <-
    match token with
    | Some t =>
        if PyStr.nonempty t then session_get h id (Some t) else ret response
    | None => ret response
    end ;;
  save_response_content h response destination file_size progress.

Definition get_acdc_java_path (h : Host) : string * string :=
  let user_path := home h in
  (OsPath.join (os_path h) user_path "acdc-java",
   OsPath.join (os_path h) user_path ".acdc-java").

Definition get_jdk_info (h : Host) : string * string * string * Z :=
  let file_id := "1G6SNk5vESqgdxob5UQv87PgVpIJa_dTe" in
  let file_size := 135524352 in
  let foldername := "win64" in
  let jdk_name := "jdk1.8.0_321" in
  let '(acdc_java_path, dot_acdc_java_path) := get_acdc_java_path h in
  let java_path := OsPath.join (os_path h) acdc_java_path foldername in
  let jdk_path := OsPath.join (os_path h) java_path jdk_name in
  (java_path, jdk_path, file_id, file_size).

Definition download_jdk (h : Host) : M string :=
  let fl := os_path h in
  let '(java_path, jdk_path, file_id, file_size) := get_jdk_info h in
  let zip_dst := OsPath.join fl java_path "jdk_temp.zip" in
  ex <- Fs.exists_ jdk_path ;;
  if ex then ret jdk_path else
  (* Also check the older .acdc-java *)
  let jdk_name := OsPath.basename fl jdk_path in
  let os_foldername := OsPath.basename fl (OsPath.dirname fl jdk_path) in
  let '(_, dot_acdc_java_path) := get_acdc_java_path h in
  let jdk_old_path := OsPath.join3 fl dot_acdc_java_path os_foldername jdk_name in
  ex <- Fs.exists_ jdk_old_path ;;
  if ex then ret jdk_old_path else
  download_from_gdrive h file_id zip_dst (Some file_size) false ;;;
  let exctract_to := java_path in
  extract_zip h zip_dst exctract_to ;;;
  (* Remove downloaded zip archive *)
  Fs.remove h zip_dst ;;;
  ret jdk_path.

(** What the branches of [get_java_info] leave behind: the four locals, a
    [return] without a value, or no assignment at all. *)
Inductive JavaProfile :=
| Assigned (foldername jre_name file_id : string) (file_size : Z)
| ReturnsNone
| Unassigned.

(** The platform test and the [if]/[elif] chain of [get_java_info]. *)
Definition java_profile (h : Host) : Exn + JavaProfile :=
  let is_linux := PyStr.startswith (platform h) "linux" in
  let is_mac := String.eqb (platform h) "darwin" in
  let is_win := PyStr.startswith (platform h) "win" in
  match (if is_win then
           match environ h !! "PROCESSOR_ARCHITECTURE" with
           | Some a => inr (String.eqb a "AMD64")
           | None => inl (KeyError "PROCESSOR_ARCHITECTURE")
           end
         else inr false) with
  | inl e => inl e
  | inr is_win64 =>
      inr (if is_win64 then
             Assigned "win64" "jre1.8.0_301" "1G5zsMusJsB6to_bA-8wT5FHJ6yoS2oCu" 78397719
           else if is_mac then
             Assigned "macOS" "jre1.8.0_301" "1G487QwDlEUJVFLfJkuxvTkFPY_I0XTb8" 108796810
           else if is_linux then
             Assigned "linux" "jre1.8.0_301" "1Fz8krhOS8JsX-GhkRDeMiEnAIWqZmCfP" 92145253
           else if is_win then ReturnsNone
           else Unassigned)
  end.

Definition get_java_info (h : Host)
  : Exn + option (string * string * string * Z) :=
  match java_profile h with
  | inl e => inl e
  | inr ReturnsNone => inr None
  | inr Unassigned => inl (UnboundLocalError "foldername")
  | inr (Assigned foldername jre_name file_id file_size) =>
      let '(acdc_java_path, dot_acdc_java_path) := get_acdc_java_path h in
      let java_path := OsPath.join (os_path h) acdc_java_path foldername in
      let jre_path := OsPath.join (os_path h) java_path jre_name in
      inr (Some (java_path, jre_path, file_id, file_size))
  end.

Definition lift {A} (r : Exn + A) : M A := fun s => (r, s).

Definition download_java (h : Host) : M string :=
  let fl := os_path h in
  info <- lift (get_java_info h) ;;
  match info with
  | None => raise TypeError    (* cannot unpack non-iterable NoneType object *)
  | Some (java_path, jre_path, file_id, file_size) =>
      let zip_dst := OsPath.join fl java_path "java_temp.zip" in
      ex <- Fs.exists_ jre_path ;;
      if ex then ret jre_path else
      (* Also check the older .acdc-java *)
      let jre_name := OsPath.basename fl jre_path in
      let os_foldername := OsPath.basename fl (OsPath.dirname fl jre_path) in
      let '(_, dot_acdc_java_path) := get_acdc_java_path h in
      let jre_old_path := OsPath.join3 fl dot_acdc_java_path os_foldername jre_name in
      ex <- Fs.exists_ jre_old_path ;;
      if ex then ret jre_old_path else
      ex <- Fs.exists_ java_path ;;
      when (negb ex) (Fs.makedirs h java_path) ;;;
      download_from_gdrive h file_id zip_dst (Some file_size) false ;;;
      let exctract_to := java_path in
      extract_zip h zip_dst exctract_to ;;;
      (* Remove downloaded zip archive *)
      Fs.remove h zip_dst ;;;
      ret jre_path
  end.

(** ** locate.py

    The module computes [is_linux], [is_mac] and [is_win] once, from
    [sys.platform]; the functions below read them.  ([is_win64], [is_msvc]
    and [is_mingw] are computed as well and read by no function of the
    module; on Windows the import itself fails with a [KeyError] when
    PROCESSOR_ARCHITECTURE is not set.)  [sys.path.append] only serves the
    import of [download_java] and is left out. *)

Definition find_javahome (h : Host) : M string :=
  match environ h !! "JAVA_HOME" with
  | Some v => ret v
  | None =>
      jre_path <- download_java h ;;
      ret jre_path
  end.

(** [find_jdk] returns [None] by falling off its end on a platform that is
    neither Linux, macOS nor Windows. *)
Definition find_jdk (h : Host) : M (option string) :=
  match environ h !! "JDK_HOME" with
  | Some v => ret (Some v)
  | None =>
      if is_linux h then
        jdk_home <- find_javahome h ;;
        let jdk_home :=
          if PyStr.endswith jdk_home "jre" || PyStr.endswith jdk_home "jre/"
          then PyStr.slice_to jdk_home (PyStr.rfind jdk_home "jre")
          else jdk_home in
        ret (Some jdk_home)
      else if is_mac h then
        r <- find_javahome h ;; ret (Some r)
      else if is_win h then
        jdk_path <- download_jdk h ;;
        ret (Some jdk_path)
      else ret None
  end.

Definition find_javac_cmd (h : Host) : M string :=
  if is_win h then
    jdk_base <- find_jdk h ;;
    match jdk_base with
    | None => raise TypeError
    | Some jdk_base =>
        let javac := OsPath.join3 (os_path h) jdk_base "bin" "javac.exe" in
        isf <- Fs.isfile javac ;;
        if isf then ret javac
        else raise (RuntimeError
          ("Failed to find javac.exe in its usual location under the JDK (" ++ javac ++ ")"))
    end
  else ret "javac".

Definition find_jar_cmd (h : Host) : M string :=
  if is_win h then
    jdk_base <- find_jdk h ;;
    match jdk_base with
    | None => raise TypeError
    | Some jdk_base =>
        let javac := OsPath.join3 (os_path h) jdk_base "bin" "jar.exe" in
        isf <- Fs.isfile javac ;;
        if isf then ret javac
        else raise (RuntimeError
          ("Failed to find jar.exe in its usual location under the JDK (" ++ javac ++ ")"))
    end
  else ret "jar".

(** A [for] loop whose body may [return]: the body maps the locals [S] to
    either the returned value or the locals after the iteration. *)
Inductive Flow (R S : Type) :=
| Return (r : R)
| Next (s : S).
Arguments Return {R S} r.
Arguments Next {R S} s.

Fixpoint for_loop {X R S} (xs : list X) (body : X -> S -> Flow R S) (s : S)
  : Flow R S :=
  match xs with
  | [] => Next s
  | x :: xs' =>
      match body x s with
      | Return r => Return r
      | Next s' => for_loop xs' body s'
      end
  end.

(** The locals of [find_jre_bin_jdk_so] that the loops assign. *)
Record Locals := {
  jvm_dir : option string;
  jre_bin : option string
}.

Definition jre_homes (h : Host) (java_home : string) : list string :=
  [java_home;
   OsPath.join (os_path h) java_home "jre";
   OsPath.join (os_path h) java_home "default-java";
   OsPath.join (os_path h) java_home "default-runtime"].

Definition arches (h : Host) : list string :=
  if is_linux h then ["amd64"; "i386"; ""] else [""].

Definition lib_prefix (h : Host) : string := if is_win h then "" else "lib".
Definition lib_suffix (h : Host) : string :=
  if is_win h then ".dll" else if is_mac h then ".dylib" else ".so".

(** [java_home] is a string in every run ([find_javahome] returns one or
    raises), so the test [java_home is not None] always succeeds. *)
Definition find_jre_bin_jdk_so (h : Host) : M (string * option string) :=
  let fl := os_path h in
  java_home <- find_javahome h ;;
  f <- gets fs ;;
  let searched :=
    for_loop (jre_homes h java_home) (fun jre_home locals =>
      let jre_bin := OsPath.join fl jre_home "bin" in
      let jre_libexec := OsPath.join fl jre_home (if is_win h then "bin" else "lib") in
      for_loop (arches h) (fun arch locals =>
        for_loop ["client"; "server"] (fun place_to_look locals =>
          let jvm_dir := OsPath.join3 fl jre_libexec arch place_to_look in
          let jvm_so := OsPath.join fl jvm_dir (lib_prefix h ++ "jvm" ++ lib_suffix h) in
          if Fs.is_file_node (f !! jvm_so) then Return (jre_bin, Some jvm_so)
          else Next {| jvm_dir := Some jvm_dir; jre_bin := Some jre_bin |})
          locals)
        {| jvm_dir := jvm_dir locals; jre_bin := Some jre_bin |})
      {| jvm_dir := None; jre_bin := None |} in
  match searched with
  | Return r => ret r
  | Next locals =>
      match jre_bin locals with
      | Some b => ret (b, None)
      | None => raise (UnboundLocalError "jre_bin")
      end
  end.

(** ** locate.py: the compiler test and the module-level flags

    What [is_mingw] and the assignments at the top of the module read
    besides the host: [os.name], [sys.version_info], and the exit status
    of [os.system], which may depend on the commands run before. *)
Record Interpreter := {
  os_name : string;
  version_major : Z;
  version_minor : Z;
  system : list string -> string -> Z
}.

(** [os.getenv(k)] *)
Definition getenv (h : Host) (k : string) : option string := environ h !! k.

(** The truth value of the result of [os.getenv] *)
Definition truthy (o : option string) : bool :=
  match o with Some v => PyStr.nonempty v | None => false end.

Definition gcc_test : string := "gcc --version > NUL 2>&1".

(** [is_mingw()], with the commands it runs, in order.  The operands of
    [or] are evaluated from the left until one is true. *)
Definition is_mingw (py : Interpreter) (h : Host) : bool * list string :=
  if negb (String.eqb (os_name py) "nt") then (false, []) else
  if is_some (getenv h "DISTUTILS_USE_SDK") || is_some (getenv h "MSSdk")
  then (false, []) else
  let mingw32 := "" in
  let mingw64 := "" in
  let mingw32 :=
    if truthy (getenv h "MINGW32_PREFIX")
    then default "" (getenv h "MINGW32_PREFIX") else mingw32 in
  let mingw64 :=
    if truthy (getenv h "MINGW64_PREFIX")
    then default "" (getenv h "MINGW64_PREFIX") else mingw64 in
  let test := gcc_test in
  if system py [] test =? 0 then (true, [test])
  else if system py [test] (mingw32 ++ test) =? 0
  then (true, [test; mingw32 ++ test])
  else if system py [test; mingw32 ++ test] (mingw64 ++ test) =? 0
  then (true, [test; mingw32 ++ test; mingw64 ++ test])
  else (false, [test; mingw32 ++ test; mingw64 ++ test]).

(** The flags the module computes when it is imported. *)
Record Flags := {
  flag_linux : bool;
  flag_mac : bool;
  flag_win : bool;
  flag_win64 : bool;
  flag_msvc : bool;
  flag_mingw : bool
}.

(** The assignments [is_linux = ...] to [is_mingw = is_mingw()], in the
    order of the module, with the commands run. *)
Definition module_flags (py : Interpreter) (h : Host)
  : Exn + Flags * list string :=
  let is_linux := PyStr.startswith (platform h) "linux" in
  let is_mac := String.eqb (platform h) "darwin" in
  let is_win := PyStr.startswith (platform h) "win" in
  match (if is_win then
           match environ h !! "PROCESSOR_ARCHITECTURE" with
           | Some a => inr (String.eqb a "AMD64")
           | None => inl (KeyError "PROCESSOR_ARCHITECTURE")
           end
         else inr false) with
  | inl e => inl e
  | inr is_win64 =>
      let is_msvc :=
        is_win &&
        ((version_major py =? 2) && (version_minor py >=? 6)
         || (version_major py =? 3)) in
      let '(mingw, commands) := is_mingw py h in
      inr ({| flag_linux := is_linux; flag_mac := is_mac; flag_win := is_win;
              flag_win64 := is_win64; flag_msvc := is_msvc;
              flag_mingw := mingw |}, commands)
  end.

(** ** Vocabulary of the statements *)

Fixpoint string_forall (P : ascii -> bool) (s : string) : bool :=
  match s with
  | EmptyString => true
  | String c s' => P c && string_forall P s'
  end.

(** A plain name: not empty, without a separator and without a colon.
    Every literal the program joins to a path is one. *)
Definition plain (fl : OsPath.Flavour) (n : string) : bool :=
  PyStr.nonempty n &&
  string_forall (fun c => negb (OsPath.is_sep fl c) && negb (Ascii.eqb c ":")) n.

(** [s] has no separator. *)
Definition no_sep (fl : OsPath.Flavour) (s : string) : bool :=
  string_forall (fun c => negb (OsPath.is_sep fl c)) s.

(** The path part of [a] is not empty and does not end with a separator. *)
Definition tail_ok (fl : OsPath.Flavour) (a : string) : Prop :=
  exists c, PyStr.last_char (snd (OsPath.splitdrive fl a)) = Some c /\
            OsPath.is_sep fl c = false.

(** The colon is not a separator (true of both flavours). *)
Definition colon_free (fl : OsPath.Flavour) : Prop :=
  OsPath.is_sep fl ":" = false.

(** The GET requests of a trace, in order. *)
Fixpoint requests (evs : list Event) : list (string * option string) :=
  match evs with
  | [] => []
  | EvGet id confirm :: evs' => (id, confirm) :: requests evs'
  | _ :: evs' => requests evs'
  end.

(** The directory in which the download functions look for an older
    installation of the runtime installed at [p]. *)
Definition old_path (h : Host) (p : string) : string :=
  let fl := os_path h in
  OsPath.join3 fl (snd (get_acdc_java_path h))
    (OsPath.basename fl (OsPath.dirname fl p)) (OsPath.basename fl p).

(** The candidate locations of the JVM library in search order, as the
    specification lists them: the JRE root, then its [jre], [default-java]
    and [default-runtime] subdirectories; in each, the library directory
    with each architecture folder; in each of these, [client] then
    [server].  A candidate is the [bin] directory of its JRE root paired
    with the path of the library file. *)
Definition candidates (h : Host) (java_home : string) : list (string * string) :=
  let fl := os_path h in
  flat_map (fun jre_home =>
    flat_map (fun arch =>
      List.map (fun place =>
        (OsPath.join fl jre_home "bin",
         OsPath.join fl
           (OsPath.join3 fl
              (OsPath.join fl jre_home (if is_win h then "bin" else "lib"))
              arch place)
           (lib_prefix h ++ "jvm" ++ lib_suffix h)))
        ["client"; "server"])
      (arches h))
    (jre_homes h java_home).

(** *** Frames: what a computation may change

    [TP] is what is known of the names [mkdtemp] may use and [PP] of the
    names of the probe file of [tempfile]; [ok] holds of the paths whose
    entry may change, and [E] of the events that may occur. *)

Definition inv (TP PP : string -> Prop) (s : State) : Prop :=
  Forall TP (tmp_names s) /\ Forall PP (probe_names s).

Definition frame (ok : string -> Prop) (E : Event -> Prop) (s s' : State)
  : Prop :=
  (forall p, ~ ok p -> fs s' !! p = fs s !! p) /\
  (exists evs, trace s' = (trace s ++ evs)%list /\ Forall E evs).

(** [m] respects the frame, keeps the temporary names within [TP] and the
    probe names within [PP], and the value it returns satisfies [Q]. *)
Definition sat (TP PP ok : string -> Prop) (E : Event -> Prop) {A}
    (m : M A) (Q : A -> Prop) : Prop :=
  forall s, inv TP PP s ->
    frame ok E s (m s).2 /\ inv TP PP (m s).2 /\
    forall a, (m s).1 = inr a -> Q a.

(** The state [s] after the events [evs]. *)
Definition add_events (s : State) (evs : list Event) : State :=
  {| fs := fs s; tmp_names := tmp_names s; probe_names := probe_names s;
     trace := (trace s ++ evs)%list |}.

Definition is_get (e : Event) : bool :=
  match e with EvGet _ _ => true | _ => false end.

(** What a progress sink and the temporary file see of a trace: the
    emissions and the chunks written, in order. *)
Inductive Progress :=
| Emitted (total : Z) (done : Z)
| Wrote (chunk : bytes).

Fixpoint progress_view (evs : list Event) : list Progress :=
  match evs with
  | [] => []
  | EvEmit a b :: evs' => Emitted a b :: progress_view evs'
  | EvWrite _ c :: evs' => Wrote c :: progress_view evs'
  | _ :: evs' => progress_view evs'
  end.

(** The emissions and writes of [save_response_content] for a body. *)
Definition start_progress (file_size : option Z) (progress : bool)
  : list Progress :=
  match file_size with
  | Some size => if progress then [Emitted size (-1)] else []
  | None => []
  end.

Definition chunk_progress (progress : bool) (chunk : bytes) : list Progress :=
  if nonempty_bytes chunk then
    Wrote chunk ::
    (if progress then [Emitted (-1) (Z.of_nat (length chunk))] else [])
  else [].

Definition stream_progress (progress : bool) (body : list bytes)
  : list Progress :=
  flat_map (chunk_progress progress) body.

(** A computation whose progress view is [full] when it returns, and a
    beginning of [full] when it fails. *)
Definition emits {A} (m : M A) (full : list Progress) : Prop :=
  forall s, exists evs,
    trace (m s).2 = (trace s ++ evs)%list /\
    (exists rest, full = (progress_view evs ++ rest)%list) /\
    (forall a, (m s).1 = inr a -> progress_view evs = full).

(** Computations that only add entries to the file system. *)
Definition grows {A} (m : M A) : Prop :=
  forall s p n, fs s !! p = Some n -> fs (m s).2 !! p = Some n.

(** A relative name: it does not start with a separator and has no
    drive. *)
Definition relative (fl : OsPath.Flavour) (n : string) : Prop :=
  OsPath.opt_is_sep fl (PyStr.first_char n) = false /\
  OsPath.splitdrive fl n = ("", n).

(** Neither string is a prefix of the other. *)
Definition apart (a b : string) : Prop :=
  String.prefix a b = false /\ String.prefix b a = false.

(** [k] is [p] or one of the directories above it: [dirname p],
    [dirname (dirname p)], and so on. *)
Inductive above (fl : OsPath.Flavour) : string -> string -> Prop :=
| above_self (p : string) : above fl p p
| above_parent (k p : string) :
    above fl k (OsPath.dirname fl p) -> above fl k p.

(** The event changes nothing at [L] or below it: the paths it names are
    not under [L], and the tree it removes does not contain [L]. *)
Definition ev_outside (fl : OsPath.Flavour) (L : string) (e : Event) : Prop :=
  match e with
  | EvGet _ _ | EvEmit _ _ => True
  | EvMkdir p | EvCreate p | EvWrite p _ | EvUnlink p | EvProbe p =>
      OsPath.under fl L p = false
  | EvRename a b => OsPath.under fl L a = false /\ OsPath.under fl L b = false
  | EvRmtree t => OsPath.under fl L t = false /\ OsPath.under fl t L = false
  end.

(** What [save_response_content] needs of a temporary directory [t] when
    it saves to [destination], for the frame [ok], [E]. *)
Definition temp_allowed (ok : string -> Prop) (E : Event -> Prop)
    (h : Host) (destination t : string) : Prop :=
  let temp_dst :=
    OsPath.join (os_path h) t (OsPath.basename (os_path h) destination) in
  let inside :=
    OsPath.join (os_path h) destination (OsPath.basename (os_path h) temp_dst) in
  ok t /\ E (EvMkdir t) /\ E (EvRmtree t) /\
  (forall k, OsPath.under (os_path h) t k = true -> ok k) /\
  ok temp_dst /\ E (EvCreate temp_dst) /\
  (forall c, E (EvWrite temp_dst c)) /\
  E (EvRename temp_dst destination) /\ E (EvRename temp_dst inside) /\
  ok inside.

(** [k] is in the installation directory [Y] (it is [Y] or lies below
    it) or in a directory named by a temporary name of [T]. *)
Definition inside (fl : OsPath.Flavour) (Y : string) (T : list string)
    (k : string) : Prop :=
  OsPath.under fl Y k = true \/
  exists t, In t T /\ OsPath.under fl t k = true.

(** The region the download functions write to: what is inside, and the
    directories above the installation directory. *)
Definition within (fl : OsPath.Flavour) (Y : string) (T : list string)
    (k : string) : Prop :=
  inside fl Y T k \/ above fl k Y.

(** The events of a download to [Y] with the temporary names [T] and the
    probe names [P]: directories are made in the region, files are
    created, written, renamed and unlinked inside, the tree removed is
    that of a temporary name, and the probe is one of [P]. *)
Definition ev_within (fl : OsPath.Flavour) (Y : string) (T P : list string)
    (e : Event) : Prop :=
  match e with
  | EvGet _ _ | EvEmit _ _ => True
  | EvMkdir k => within fl Y T k
  | EvCreate p | EvWrite p _ | EvUnlink p => inside fl Y T p
  | EvRename a b => inside fl Y T a /\ inside fl Y T b
  | EvRmtree t => In t T
  | EvProbe p => In p P
  end.

(** The temporary names [T] and the probe names [P] keep clear of the
    older base directory [L]: no name is under [L], and [L] is under no
    temporary name. *)
Definition clear_of (fl : OsPath.Flavour) (L : string) (T P : list string)
  : Prop :=
  Forall (fun t => OsPath.under fl L t = false /\ OsPath.under fl t L = false) T /\
  Forall (fun p => OsPath.under fl L p = false) P.

(** The summary of a run of [m] from [s]: only entries of the region
    change, every event is one of [ev_within], and when the temporary
    names and the probe names keep clear of the older base directory [L],
    no entry at [L] or below it changes and no event touches one. *)
Definition writes_only_within (fl : OsPath.Flavour) (L Y : string) {A}
    (m : M A) (s : State) : Prop :=
  let T := tmp_names s in
  let P := probe_names s in
  (forall p, ~ within fl Y T p -> fs (m s).2 !! p = fs s !! p) /\
  (exists evs, trace (m s).2 = (trace s ++ evs)%list /\
               Forall (ev_within fl Y T P) evs) /\
  (clear_of fl L T P ->
   (forall p, OsPath.under fl L p = true -> fs (m s).2 !! p = fs s !! p) /\
   (exists evs, trace (m s).2 = (trace s ++ evs)%list /\
                Forall (ev_outside fl L) evs)).


(** A component as [normpath] keeps it: not empty, not [.] or [..],
    without a separator. *)
Definition component (fl : OsPath.Flavour) (p : string) : Prop :=
  PyStr.nonempty p = true /\ p <> "." /\ p <> ".." /\ no_sep fl p = true.

(** The parts [normpath] works on: the prefix it keeps in front (the
    initial slashes, or the drive and one separator), whether the path is
    rooted, and the part it splits into components. *)
Definition norm_prefix (fl : OsPath.Flavour) (path : string) : string :=
  let sep1 := String (OsPath.sep fl) "" in
  if OsPath.drives fl then
    let '(prefix, rest) := OsPath.splitdrive fl (OsPath.to_sep fl path) in
    if PyStr.startswith rest sep1 then prefix ++ sep1 else prefix
  else
    if PyStr.startswith path sep1 then
      if PyStr.startswith path (sep1 ++ sep1) &&
         negb (PyStr.startswith path (sep1 ++ sep1 ++ sep1))
      then sep1 ++ sep1 else sep1
    else "".

Definition norm_rooted (fl : OsPath.Flavour) (path : string) : bool :=
  if OsPath.drives fl
  then PyStr.endswith (norm_prefix fl path) (String (OsPath.sep fl) "")
  else PyStr.nonempty (norm_prefix fl path).

Definition norm_body (fl : OsPath.Flavour) (path : string) : string :=
  if OsPath.drives fl
  then OsPath.lstrip_sep fl (snd (OsPath.splitdrive fl (OsPath.to_sep fl path)))
  else path.

(** Every separator in [s] is the separator [sep], not the alternative
    one. *)
Definition no_alt (fl : OsPath.Flavour) (s : string) : bool :=
  string_forall
    (fun x => negb (OsPath.is_sep fl x) || Ascii.eqb x (OsPath.sep fl)) s.

(** Computations that remove no entry and change the kind of none: a
    directory stays one, and a regular file stays one, possibly with
    another content. *)
Definition keeps_entries {A} (m : M A) : Prop :=
  forall s,
    (forall p, fs s !! p = Some Dir -> fs (m s).2 !! p = Some Dir) /\
    (forall p c, fs s !! p = Some (File c) ->
                 exists c', fs (m s).2 !! p = Some (File c')).

(** ** Concrete hosts and states used in examples *)

Definition empty_state : State :=
  {| fs := ∅; tmp_names := []; probe_names := []; trace := [] |}.

Definition no_server (id : string) (confirm : option string) : option Response :=
  None.

Definition no_unzip (b : bytes) : option (list ZipMember) := None.

Definition host_win32 : Host :=
  {| platform := "win32";
     environ := {[ "PROCESSOR_ARCHITECTURE" := "x86" ]};
     home := "C:\Users\u";
     server := no_server; unzip := no_unzip |}.

Definition host_mac_with_java_home : Host :=
  {| platform := "darwin";
     environ := {[ "JAVA_HOME" := "/opt/java/jre" ]};
     home := "/Users/u";
     server := no_server; unzip := no_unzip |}.

Definition host_linux_with_java_home : Host :=
  {| platform := "linux";
     environ := {[ "JAVA_HOME" := "/opt/java/jre" ]};
     home := "/home/u";
     server := no_server; unzip := no_unzip |}.

(** Three chunks, one of them empty: the first five bytes of a zip
    archive. *)
Definition example_chunks : list bytes :=
  [[Byte.x50; Byte.x4b]; []; [Byte.x03; Byte.x04; Byte.x14]].

(** The rest of that archive, which stores the directory [jre1.8.0_301/]
    and the file [jre1.8.0_301/bin/java] with the one byte [7f]: 243 bytes
    with the two local headers, the central directory and its end
    record. *)
Definition example_archive_rest : bytes :=
  [
   Byte.x00; Byte.x00; Byte.x00; Byte.x00; Byte.x00; Byte.x00; Byte.x00; Byte.x21;
   Byte.x00; Byte.x00; Byte.x00; Byte.x00; Byte.x00; Byte.x00; Byte.x00; Byte.x00;
   Byte.x00; Byte.x00; Byte.x00; Byte.x00; Byte.x00; Byte.x0d; Byte.x00; Byte.x00;
   Byte.x00; Byte.x6a; Byte.x72; Byte.x65; Byte.x31; Byte.x2e; Byte.x38; Byte.x2e;
   Byte.x30; Byte.x5f; Byte.x33; Byte.x30; Byte.x31; Byte.x2f; Byte.x50; Byte.x4b;
   Byte.x03; Byte.x04; Byte.x14; Byte.x00; Byte.x00; Byte.x00; Byte.x00; Byte.x00;
   Byte.x00; Byte.x00; Byte.x21; Byte.x00; Byte.x20; Byte.x83; Byte.xb8; Byte.x12;
   Byte.x01; Byte.x00; Byte.x00; Byte.x00; Byte.x01; Byte.x00; Byte.x00; Byte.x00;
   Byte.x15; Byte.x00; Byte.x00; Byte.x00; Byte.x6a; Byte.x72; Byte.x65; Byte.x31;
   Byte.x2e; Byte.x38; Byte.x2e; Byte.x30; Byte.x5f; Byte.x33; Byte.x30; Byte.x31;
   Byte.x2f; Byte.x62; Byte.x69; Byte.x6e; Byte.x2f; Byte.x6a; Byte.x61; Byte.x76;
   Byte.x61; Byte.x7f; Byte.x50; Byte.x4b; Byte.x01; Byte.x02; Byte.x14; Byte.x03;
   Byte.x14; Byte.x00; Byte.x00; Byte.x00; Byte.x00; Byte.x00; Byte.x00; Byte.x00;
   Byte.x21; Byte.x00; Byte.x00; Byte.x00; Byte.x00; Byte.x00; Byte.x00; Byte.x00;
   Byte.x00; Byte.x00; Byte.x00; Byte.x00; Byte.x00; Byte.x00; Byte.x0d; Byte.x00;
   Byte.x00; Byte.x00; Byte.x00; Byte.x00; Byte.x00; Byte.x00; Byte.x00; Byte.x00;
   Byte.x10; Byte.x00; Byte.xed; Byte.x41; Byte.x00; Byte.x00; Byte.x00; Byte.x00;
   Byte.x6a; Byte.x72; Byte.x65; Byte.x31; Byte.x2e; Byte.x38; Byte.x2e; Byte.x30;
   Byte.x5f; Byte.x33; Byte.x30; Byte.x31; Byte.x2f; Byte.x50; Byte.x4b; Byte.x01;
   Byte.x02; Byte.x14; Byte.x03; Byte.x14; Byte.x00; Byte.x00; Byte.x00; Byte.x00;
   Byte.x00; Byte.x00; Byte.x00; Byte.x21; Byte.x00; Byte.x20; Byte.x83; Byte.xb8;
   Byte.x12; Byte.x01; Byte.x00; Byte.x00; Byte.x00; Byte.x01; Byte.x00; Byte.x00;
   Byte.x00; Byte.x15; Byte.x00; Byte.x00; Byte.x00; Byte.x00; Byte.x00; Byte.x00;
   Byte.x00; Byte.x00; Byte.x00; Byte.x00; Byte.x00; Byte.xed; Byte.x81; Byte.x2b;
   Byte.x00; Byte.x00; Byte.x00; Byte.x6a; Byte.x72; Byte.x65; Byte.x31; Byte.x2e;
   Byte.x38; Byte.x2e; Byte.x30; Byte.x5f; Byte.x33; Byte.x30; Byte.x31; Byte.x2f;
   Byte.x62; Byte.x69; Byte.x6e; Byte.x2f; Byte.x6a; Byte.x61; Byte.x76; Byte.x61;
   Byte.x50; Byte.x4b; Byte.x05; Byte.x06; Byte.x00; Byte.x00; Byte.x00; Byte.x00;
   Byte.x02; Byte.x00; Byte.x02; Byte.x00; Byte.x7e; Byte.x00; Byte.x00; Byte.x00;
   Byte.x5f; Byte.x00; Byte.x00; Byte.x00; Byte.x00; Byte.x00].

Definition example_archive : bytes :=
  concat example_chunks ++ example_archive_rest.

(** The archive in four chunks, one of them empty. *)
Definition archive_response : Response :=
  {| cookies := []; chunks := example_chunks ++ [example_archive_rest];
     broken := false |}.

(** A Linux host without JAVA_HOME, whose server answers the first GET
    with a warning cookie and the confirmed GET with the archive. *)
Definition example_server (id : string) (confirm : option string)
  : option Response :=
  match confirm with
  | None =>
      Some {| cookies := [("NID", "511"); ("download_warning_13058", "t0k3n")];
              chunks := [[Byte.x3c]]; broken := false |}
  | Some _ => Some archive_response
  end.

Fixpoint bytes_eqb (a b : bytes) : bool :=
  match a, b with
  | [], [] => true
  | x :: a', y :: b' => Byte.eqb x y && bytes_eqb a' b'
  | _, _ => false
  end.

(** The decoder of the example hosts knows this one archive; other
    bytes, among them the five bytes of [example_chunks], are no zip
    file to it. *)
Definition example_unzip (b : bytes) : option (list ZipMember) :=
  if bytes_eqb b example_archive then
    Some [ {| filename := "jre1.8.0_301/"; data := [] |};
           {| filename := "jre1.8.0_301/bin/java"; data := [Byte.x7f] |} ]
  else None.

Definition host_linux : Host :=
  {| platform := "linux"; environ := ∅; home := "/home/u";
     server := example_server; unzip := example_unzip |}.

Definition root_dirs : gmap string Node :=
  list_to_map [("/", Dir); ("/home", Dir); ("/home/u", Dir); ("/tmp", Dir)].

(** Nothing installed yet. *)
Definition state_fresh : State :=
  {| fs := root_dirs; tmp_names := ["/tmp/tmpk3x9"; "/tmp/tmpq0aa"];
     probe_names := ["/tmp/q7h2p0xv"]; trace := [] |}.

(** The runtimes are installed at the primary location. *)
Definition state_installed : State :=
  {| fs := <["/home/u/acdc-java/linux/jre1.8.0_301" := Dir]>
             (<["/home/u/acdc-java/win64/jdk1.8.0_321" := Dir]> root_dirs);
     tmp_names := ["/tmp/tmpk3x9"]; probe_names := []; trace := [] |}.

(** The runtimes are installed at the older location only. *)
Definition state_legacy : State :=
  {| fs := <["/home/u/.acdc-java/linux/jre1.8.0_301" := Dir]>
             (<["/home/u/.acdc-java/win64/jdk1.8.0_321" := Dir]> root_dirs);
     tmp_names := ["/tmp/tmpk3x9"]; probe_names := []; trace := [] |}.

(** A Linux host whose server sends a warning cookie with an empty value. *)
Definition empty_token_server (id : string) (confirm : option string)
  : option Response :=
  Some {| cookies := [("download_warning_13058", "")];
          chunks := example_chunks; broken := false |}.

Definition host_empty_token : Host :=
  {| platform := "linux"; environ := ∅; home := "/home/u";
     server := empty_token_server; unzip := example_unzip |}.

Definition example_response : Response :=
  {| cookies := []; chunks := example_chunks; broken := false |}.

(** A JRE with its JVM library in two of the candidate places. *)
Definition state_with_jvm : State :=
  {| fs := <["/opt/java/jre/lib/amd64/server/libjvm.so" := File [Byte.x7f]]>
             (<["/opt/java/jre/lib/server/libjvm.so" := File [Byte.x7f]]> root_dirs);
     tmp_names := []; probe_names := []; trace := [] |}.

(** Nothing installed yet, an older base directory, and the temporary
    directory inside it (as with TMPDIR set to it). *)
Definition state_tmp_in_legacy : State :=
  {| fs := <["/home/u/.acdc-java" := Dir]> root_dirs;
     tmp_names := ["/home/u/.acdc-java/tmp0"];
     probe_names := ["/home/u/.acdc-java/q7h2p0xv"];
     trace := [] |}.

(** Applies [f] to the value of a run that returned. *)
Definition on_result {A B} (f : A -> B) (r : (Exn + A) * State)
  : (Exn + B) * State :=
  match r with
  | (inl e, s) => (inl e, s)
  | (inr a, s) => (inr (f a), s)
  end.

(** [a] ends where a path segment starts: it is empty or ends with [/]. *)
Definition segment_boundary (a : string) : Prop :=
  a = "" \/ PyStr.endswith a "/" = true.

(** ** Further hosts and states used in examples *)

(** A platform that is neither Linux, macOS nor Windows. *)
Definition host_freebsd : Host :=
  {| platform := "freebsd13"; environ := ∅; home := "/home/u";
     server := no_server; unzip := no_unzip |}.

(** Windows without PROCESSOR_ARCHITECTURE in the environment. *)
Definition host_win_no_arch : Host :=
  {| platform := "win32"; environ := ∅; home := "C:\Users\u";
     server := no_server; unzip := no_unzip |}.

(** 64-bit Windows with JDK_HOME set. *)
Definition host_win64_jdk_home : Host :=
  {| platform := "win32";
     environ := <["JDK_HOME" := "C:\jdk"]>
                  {[ "PROCESSOR_ARCHITECTURE" := "AMD64" ]};
     home := "C:\Users\u";
     server := no_server; unzip := no_unzip |}.

Definition state_with_javac : State :=
  {| fs := <["C:\jdk\bin\javac.exe" := File [Byte.x4d; Byte.x5a]]> ∅;
     tmp_names := []; probe_names := []; trace := [] |}.

(** A response whose stream breaks after its chunks. *)
Definition broken_response : Response :=
  {| cookies := []; chunks := example_chunks; broken := true |}.

(** Nothing installed yet, and an archive from an earlier download. *)
Definition state_old_archive : State :=
  {| fs := <["/home/u/java.zip" := File [Byte.x50; Byte.x4b; Byte.x05]]> root_dirs;
     tmp_names := ["/tmp/tmpk3x9"; "/tmp/tmpq0aa"]; probe_names := [];
     trace := [] |}.

(** An interpreter on Windows whose shell finds [gcc] only through the
    64-bit prefix. *)
Definition python_on_windows : Interpreter :=
  {| os_name := "nt"; version_major := 3; version_minor := 9;
     system := fun _ cmd =>
       if String.eqb cmd "C:\mingw64\bin\gcc --version > NUL 2>&1" then 0 else 1 |}.

Definition host_win64_mingw : Host :=
  {| platform := "win32";
     environ := <["MINGW64_PREFIX" := "C:\mingw64\bin\"]>
                  {[ "PROCESSOR_ARCHITECTURE" := "AMD64" ]};
     home := "C:\Users\u";
     server := no_server; unzip := no_unzip |}.

(** Windows with the SDK variable of Microsoft's compiler set. *)
Definition host_win_mssdk : Host :=
  {| platform := "win32"; environ := {[ "MSSdk" := "1" ]};
     home := "C:\Users\u"; server := no_server; unzip := no_unzip |}.

(** * Properties *)

(** ** Facts about Python strings *)

Module PyStrFacts.
Import PyStr.

Lemma prefix_app (a b : string) : String.prefix a (a ++ b) = true.
Proof.
  induction a as [|c a IH]; simpl.
  - now destruct b.
  - destruct (ascii_dec c c); [exact IH | congruence].
Qed.

Lemma prefix_inv (a s : string) :
  String.prefix a s = true -> exists b, s = a ++ b.
Proof.
  revert s. induction a as [|c a IH]; intros s H.
  - now exists s.
  - destruct s as [|d s]; simpl in H; [discriminate|].
    destruct (ascii_dec c d) as [->|]; [|discriminate].
    destruct (IH _ H) as [b ->]. now exists b.
Qed.

Lemma endswith_app (a suf : string) : endswith (a ++ suf) suf = true.
Proof.
  induction a as [|c a IH]; simpl.
  - destruct suf; simpl; rewrite ?String.eqb_refl, ?Ascii.eqb_refl; reflexivity.
  - rewrite IH. apply orb_true_r.
Qed.

Lemma endswith_inv (s suf : string) :
  endswith s suf = true -> exists a, s = a ++ suf.
Proof.
  induction s as [|c s IH]; intros H.
  - destruct suf; [now exists "" | discriminate].
  - unfold endswith in H; fold endswith in H.
    apply orb_prop in H as [H|H].
    + apply String.eqb_eq in H. subst. now exists "".
    + destruct (IH H) as [a ->]. now exists (String c a).
Qed.

Lemma substring_app (a b : string) :
  String.substring 0 (String.length a) (a ++ b) = a.
Proof.
  induction a as [|c a IH]; simpl.
  - now destruct b.
  - now rewrite IH.
Qed.

Lemma slice_to_app (a b : string) :
  slice_to (a ++ b) (Z.of_nat (String.length a)) = a.
Proof.
  unfold slice_to.
  destruct (Z.ltb_spec (Z.of_nat (String.length a)) 0) as [H|_]; [lia|].
  rewrite Nat2Z.id. apply substring_app.
Qed.

(** The last occurrence of [sub] in [a ++ t] is at [length a] when it
    occurs at the start of [t] and nowhere later in [t]. *)
Lemma rfind_app (a t sub : string) :
  rfind t sub = 0 -> rfind (a ++ t) sub = Z.of_nat (String.length a).
Proof.
  intros Ht. induction a as [|c a IH]; simpl.
  - exact Ht.
  - rewrite IH.
    destruct (Z.leb_spec 0 (Z.of_nat (String.length a))); lia.
Qed.

Lemma last_char_app_nonempty (a t : string) :
  nonempty t = true -> last_char (a ++ t) = last_char t.
Proof.
  intros Ht. unfold last_char.
  induction a as [|d a IH]; [reflexivity|].
  destruct t as [|e t]; [discriminate|].
  change (String d a ++ String e t) with (String d (a ++ String e t)).
  destruct (a ++ String e t) as [|x y] eqn:E.
  - destruct a; discriminate.
  - exact IH.
Qed.

Lemma endswith_last_char (s suf : string) :
  nonempty suf = true -> endswith s suf = true ->
  last_char s = last_char suf.
Proof.
  intros Hn H. apply endswith_inv in H as [a ->].
  now apply last_char_app_nonempty.
Qed.

Lemma endswith_jre_slash (a : string) : endswith (a ++ "jre/") "jre" = false.
Proof.
  destruct (endswith (a ++ "jre/") "jre") eqn:E; [|reflexivity].
  apply endswith_last_char in E; [|reflexivity].
  rewrite last_char_app_nonempty in E by reflexivity.
  discriminate.
Qed.

End PyStrFacts.

(** ** The platform tests exclude one another *)

Lemma prefix_first_char (p s : string) (c : ascii) :
  String.prefix (String c p) s = true -> String.get 0 s = Some c.
Proof.
  destruct s as [|d s]; simpl; [discriminate|].
  destruct (ascii_dec c d) as [->|]; [reflexivity | discriminate].
Qed.

Lemma win_not_mac (h : Host) : is_win h = true -> is_mac h = false.
Proof.
  unfold is_win, is_mac, PyStr.startswith. intros H.
  apply prefix_first_char in H.
  destruct (String.eqb_spec (platform h) "darwin") as [E|]; [|reflexivity].
  rewrite E in H. discriminate.
Qed.

Lemma win_not_linux (h : Host) : is_win h = true -> is_linux h = false.
Proof.
  unfold is_win, is_linux, PyStr.startswith. intros H.
  apply prefix_first_char in H.
  destruct (String.prefix "linux" (platform h)) eqn:E; [|reflexivity].
  apply prefix_first_char in E. congruence.
Qed.

Lemma mac_not_linux (h : Host) : is_mac h = true -> is_linux h = false.
Proof.
  unfold is_mac, is_linux, PyStr.startswith. intros H.
  apply String.eqb_eq in H. now rewrite H.
Qed.

(** ** C1: 32-bit Windows *)

(** C1, as stated, fails: on 32-bit Windows [get_java_info] raises nothing.
    It returns [None], and the exception [download_java] then raises is the
    [TypeError] of unpacking that [None]. *)
Lemma get_java_info_win32_returns_none :
  get_java_info host_win32 = inr None /\
  ~ (exists e, get_java_info host_win32 = inl e) /\
  download_java host_win32 empty_state = (inl TypeError, empty_state).
Proof.
  split; [reflexivity|]. split; [|reflexivity].
  intros [e H]. vm_compute in H. discriminate.
Qed.

(** C1, amended: on a Windows platform whose PROCESSOR_ARCHITECTURE is set
    and is not AMD64, [get_java_info] returns [None] without raising, and
    [download_java] fails with a [TypeError] and leaves the state as it
    was: it produces no path, and touches neither the file system nor the
    network. *)
Theorem win32_get_java_info_none_download_java_type_error
    (h : Host) (arch : string) :
  is_win h = true ->
  environ h !! "PROCESSOR_ARCHITECTURE" = Some arch ->
  arch <> "AMD64" ->
  get_java_info h = inr None /\
  forall s, download_java h s = (inl TypeError, s).
Proof.
  intros Hwin Harch Hne.
  assert (Hinfo : get_java_info h = inr None).
  { unfold get_java_info, java_profile.
    fold (is_win h) (is_mac h) (is_linux h).
    rewrite Hwin, Harch, (win_not_mac h Hwin), (win_not_linux h Hwin).
    destruct (String.eqb_spec arch "AMD64"); [contradiction | reflexivity]. }
  split; [exact Hinfo|].
  intros s. unfold download_java, bind, lift. now rewrite Hinfo.
Qed.

Lemma win32_get_java_info_none_download_java_type_error_witness :
  get_java_info host_win32 = inr None /\
  forall s, download_java host_win32 s = (inl TypeError, s).
Proof.
  apply (win32_get_java_info_none_download_java_type_error host_win32 "x86").
  - reflexivity.
  - reflexivity.
  - discriminate.
Defined.

(** ** C2: the JDK path on Linux and macOS *)

(** C2, as stated, fails on macOS: with JAVA_HOME=/opt/java/jre and no
    JDK_HOME, [find_jdk] returns the JRE path with its [jre] segment still
    in place. *)
Lemma find_jdk_mac_keeps_jre_segment :
  environ host_mac_with_java_home !! "JDK_HOME" = None /\
  find_javahome host_mac_with_java_home empty_state
    = (inr "/opt/java/jre", empty_state) /\
  find_jdk host_mac_with_java_home empty_state
    = (inr (Some "/opt/java/jre"), empty_state) /\
  find_jdk host_mac_with_java_home empty_state
    <> (inr (Some "/opt/java/"), empty_state).
Proof.
  repeat split; try reflexivity.
  vm_compute. discriminate.
Qed.

(** What [find_jdk] does to the JRE path on Linux, as text: a final [jre]
    or [jre/] is cut off, whatever precedes it. *)
Lemma find_jdk_linux_cuts_suffix (h : Host) (s : State) :
  environ h !! "JDK_HOME" = None ->
  is_linux h = true ->
  (forall a s', find_javahome h s = (inr (a ++ "jre"), s') ->
                find_jdk h s = (inr (Some a), s')) /\
  (forall a s', find_javahome h s = (inr (a ++ "jre/"), s') ->
                find_jdk h s = (inr (Some a), s')) /\
  (forall p s', PyStr.endswith p "jre" = false ->
                PyStr.endswith p "jre/" = false ->
                find_javahome h s = (inr p, s') ->
                find_jdk h s = (inr (Some p), s')) /\
  (forall e s', find_javahome h s = (inl e, s') ->
                find_jdk h s = (inl e, s')).
Proof.
  intros Hjdk Hlinux. unfold find_jdk. rewrite Hjdk, Hlinux. unfold bind, ret.
  repeat split.
  - intros a s' ->.
    rewrite PyStrFacts.endswith_app. cbn [orb].
    rewrite (PyStrFacts.rfind_app a "jre" "jre" eq_refl).
    now rewrite PyStrFacts.slice_to_app.
  - intros a s' ->.
    rewrite PyStrFacts.endswith_jre_slash, PyStrFacts.endswith_app. cbn [orb].
    rewrite (PyStrFacts.rfind_app a "jre/" "jre" eq_refl).
    now rewrite PyStrFacts.slice_to_app.
  - intros p s' H1 H2 ->. now rewrite H1, H2.
  - intros e s' ->. reflexivity.
Qed.

(** C2, amended: with JDK_HOME unset, on Linux [find_jdk] returns the path
    of [find_javahome] without its last segment when that segment is [jre]
    (written [jre] or [jre/]), returns it unchanged when it does not end
    with [jre] or [jre/], and fails as [find_javahome] fails; on macOS it
    returns the path of [find_javahome] unchanged, whatever its last
    segment. *)
Theorem find_jdk_linux_strips_jre_mac_unchanged (h : Host) (s : State) :
  environ h !! "JDK_HOME" = None ->
  (is_linux h = true ->
     (forall a s', segment_boundary a ->
                   find_javahome h s = (inr (a ++ "jre"), s') ->
                   find_jdk h s = (inr (Some a), s')) /\
     (forall a s', segment_boundary a ->
                   find_javahome h s = (inr (a ++ "jre/"), s') ->
                   find_jdk h s = (inr (Some a), s')) /\
     (forall p s', PyStr.endswith p "jre" = false ->
                   PyStr.endswith p "jre/" = false ->
                   find_javahome h s = (inr p, s') ->
                   find_jdk h s = (inr (Some p), s')) /\
     (forall e s', find_javahome h s = (inl e, s') ->
                   find_jdk h s = (inl e, s'))) /\
  (is_mac h = true ->
     find_jdk h s = on_result Some (find_javahome h s)).
Proof.
  intros Hjdk. split.
  - intros Hlinux.
    destruct (find_jdk_linux_cuts_suffix h s Hjdk Hlinux) as (H1 & H2 & H3 & H4).
    repeat split; eauto.
  - intros Hmac. unfold find_jdk.
    rewrite Hjdk, (mac_not_linux h Hmac), Hmac. unfold bind, ret, on_result.
    destruct (find_javahome h s) as [[e|p] s']; reflexivity.
Qed.

Lemma find_jdk_linux_strips_jre_mac_unchanged_witness :
  find_jdk host_linux_with_java_home empty_state
    = (inr (Some "/opt/java/"), empty_state) /\
  find_jdk host_mac_with_java_home empty_state
    = on_result Some (find_javahome host_mac_with_java_home empty_state).
Proof.
  split.
  - refine (proj1 (proj1 (find_jdk_linux_strips_jre_mac_unchanged
              host_linux_with_java_home empty_state _) _) "/opt/java/" _ _ _).
    + reflexivity.
    + reflexivity.
    + right. reflexivity.
    + reflexivity.
  - refine (proj2 (find_jdk_linux_strips_jre_mac_unchanged
              host_mac_with_java_home empty_state _) _); reflexivity.
Defined.

(** ** Facts about [os.path] *)

Module OsPathFacts.
Import PyStr OsPath.

Section WithFlavour.
Variable fl : Flavour.
Hypothesis colon : colon_free fl.

Lemma is_sep_sep : is_sep fl (sep fl) = true.
Proof. unfold is_sep. now rewrite Ascii.eqb_refl. Qed.

Lemma splitdrive_app (p : string) :
  fst (splitdrive fl p) ++ snd (splitdrive fl p) = p.
Proof.
  unfold splitdrive. destruct (drives fl); [|reflexivity].
  destruct p as [|c [|d p]]; try reflexivity.
  now destruct (Ascii.eqb d ":").
Qed.

Lemma app_nil_l (s : string) : "" ++ s = s.
Proof. reflexivity. Qed.
Lemma app_cons (c : ascii) (a s : string) : String c a ++ s = String c (a ++ s).
Proof. reflexivity. Qed.

Lemma app_assoc (a b c : string) : a ++ (b ++ c) = (a ++ b) ++ c.
Proof. induction a as [|x a IH]; [reflexivity|]. now rewrite !app_cons, IH. Qed.

Lemma app_assoc_snoc (a : string) (c : ascii) (b : string) :
  (a ++ String c "") ++ b = a ++ String c b.
Proof. now rewrite <- app_assoc. Qed.

Lemma string_forall_impl (P Q : ascii -> bool) (s : string) :
  (forall c, P c = true -> Q c = true) ->
  string_forall P s = true -> string_forall Q s = true.
Proof.
  intros HPQ. induction s as [|c s IH]; simpl; [easy|].
  intros H. apply andb_prop in H as [H1 H2].
  now rewrite (HPQ _ H1), IH.
Qed.

Lemma plain_nonempty n : plain fl n = true -> nonempty n = true.
Proof. unfold plain. intros H. now apply andb_prop in H as [H _]. Qed.

Lemma plain_no_sep n : plain fl n = true -> no_sep fl n = true.
Proof.
  unfold plain, no_sep. intros H. apply andb_prop in H as [_ H].
  revert H. apply string_forall_impl. intros c Hc.
  now apply andb_prop in Hc as [Hc _].
Qed.

Lemma plain_first n :
  plain fl n = true ->
  exists c n', n = String c n' /\ is_sep fl c = false /\ c <> ":"%char /\
               (forall d n'', n' = String d n'' -> d <> ":"%char).
Proof.
  unfold plain. destruct n as [|c n']; [discriminate|]. simpl.
  intros H. apply andb_prop in H as [H1 H2].
  apply andb_prop in H1 as [Hs Hc].
  exists c, n'. repeat split.
  - now destruct (is_sep fl c).
  - intros ->. discriminate.
  - intros d n'' ->. simpl in H2.
    apply andb_prop in H2 as [H2 _]. apply andb_prop in H2 as [_ H2].
    intros ->. discriminate.
Qed.

Lemma splitdrive_plain n : plain fl n = true -> splitdrive fl n = ("", n).
Proof.
  intros H. destruct (plain_first n H) as (c & n' & -> & _ & _ & Hd).
  unfold splitdrive. destruct (drives fl); [|reflexivity].
  destruct n' as [|d n'']; [reflexivity|].
  destruct (Ascii.eqb_spec d ":"); [|reflexivity].
  now destruct (Hd d n'' eq_refl).
Qed.

Lemma add_sep_cases p :
  (add_sep fl p = p /\ (p = "" \/ opt_is_sep fl (last_char p) = true)) \/
  (add_sep fl p = p ++ String (sep fl) "" /\ nonempty p = true /\
   opt_is_sep fl (last_char p) = false).
Proof.
  unfold add_sep. destruct p as [|c p].
  - left. split; [reflexivity | now left].
  - cbn [nonempty andb].
    destruct (opt_is_sep fl (last_char (String c p))).
    + left. split; [reflexivity | now right].
    + right. repeat split.
Qed.

(** The string a drive-less path becomes when a name is joined to it does
    not start with a drive. *)
Lemma splitdrive_add_sep_plain a n :
  plain fl n = true ->
  splitdrive fl a = ("", a) ->
  splitdrive fl (add_sep fl a ++ n) = ("", add_sep fl a ++ n).
Proof.
  intros Hn Ha.
  destruct (plain_first n Hn) as (c & n' & -> & Hc1 & Hc2 & Hd).
  assert (Hsep : Ascii.eqb (sep fl) ":" = false).
  { destruct (Ascii.eqb_spec (sep fl) ":") as [E|]; [|reflexivity].
    pose proof is_sep_sep as Hs. rewrite E in Hs.
    unfold colon_free in colon. congruence. }
  assert (Hc : Ascii.eqb c ":" = false) by now apply Ascii.eqb_neq.
  unfold splitdrive in *. destruct (drives fl); [|reflexivity].
  destruct (add_sep_cases a) as [[E _]|[E _]]; rewrite E; clear E;
    destruct a as [|x [|y a]];
    repeat (rewrite app_cons || rewrite app_nil_l);
    rewrite ?Hsep, ?Hc; try reflexivity;
    try (destruct (Ascii.eqb y ":"); [discriminate | reflexivity]);
    (destruct n' as [|d n'']; [reflexivity|];
     destruct (Ascii.eqb_spec d ":"); [|reflexivity];
     now destruct (Hd d n'' eq_refl)).
Qed.

Lemma join_plain a n :
  plain fl n = true ->
  join fl a n = fst (splitdrive fl a) ++ add_sep fl (snd (splitdrive fl a)) ++ n.
Proof.
  intros Hn. unfold join. rewrite (splitdrive_plain n Hn).
  destruct (splitdrive fl a) as [ad ap]. cbn [fst snd].
  destruct (plain_first n Hn) as (c & n' & -> & Hc1 & _).
  cbn [first_char String.get opt_is_sep]. rewrite Hc1.
  reflexivity.
Qed.

Lemma splitdrive_drive a ad ap r :
  splitdrive fl a = (ad, ap) -> nonempty ad = true ->
  splitdrive fl (ad ++ r) = (ad, r).
Proof.
  unfold splitdrive. destruct (drives fl); [|intros [= <- <-]; discriminate].
  destruct a as [|x [|y a]]; try (intros [= <- <-]; discriminate).
  destruct (Ascii.eqb y ":") eqn:Ey; intros [= <- <-]; [|discriminate].
  intros _. rewrite !app_cons, app_nil_l. now rewrite Ey.
Qed.

Lemma splitdrive_nodrive a ap :
  splitdrive fl a = ("", ap) -> ap = a.
Proof.
  intros H. pose proof (splitdrive_app a) as E. rewrite H in E. exact E.
Qed.

Lemma splitdrive_join a n :
  plain fl n = true ->
  splitdrive fl (join fl a n)
  = (fst (splitdrive fl a), add_sep fl (snd (splitdrive fl a)) ++ n).
Proof.
  intros Hn. rewrite (join_plain a n Hn).
  destruct (splitdrive fl a) as [ad ap] eqn:E. cbn [fst snd].
  destruct ad as [|x ad'].
  - pose proof (splitdrive_nodrive _ _ E) as ->.
    rewrite app_nil_l. now apply splitdrive_add_sep_plain.
  - now apply (splitdrive_drive a _ ap).
Qed.

Lemma cut_last_sep_no_sep n : no_sep fl n = true -> cut_last_sep fl n = ("", n).
Proof.
  induction n as [|c n IH]; [reflexivity|].
  unfold no_sep. cbn [string_forall]. intros H.
  apply andb_prop in H as [Hc Hn].
  cbn [cut_last_sep]. rewrite (IH Hn). cbn [nonempty].
  now destruct (is_sep fl c).
Qed.

Lemma nonempty_app_r a b : nonempty b = true -> nonempty (a ++ b) = true.
Proof. destruct a; [now rewrite app_nil_l | reflexivity]. Qed.

Lemma cut_last_sep_app q c n :
  is_sep fl c = true -> no_sep fl n = true ->
  cut_last_sep fl (q ++ String c n) = (q ++ String c "", n).
Proof.
  intros Hc Hn. induction q as [|x q IH].
  - rewrite !app_nil_l. cbn [cut_last_sep].
    rewrite (cut_last_sep_no_sep n Hn). cbn [nonempty]. now rewrite Hc.
  - rewrite !app_cons. cbn [cut_last_sep]. rewrite IH.
    now rewrite nonempty_app_r.
Qed.

Lemma rstrip_seps_snoc q c :
  is_sep fl c = true ->
  rstrip_seps fl (q ++ String c "") = rstrip_seps fl q.
Proof.
  intros Hc. induction q as [|x q IH].
  - rewrite app_nil_l. cbn. now rewrite Hc.
  - rewrite app_cons. cbn [rstrip_seps]. now rewrite IH.
Qed.

Lemma last_char_cons x q :
  nonempty q = true -> last_char (String x q) = last_char q.
Proof. destruct q; [discriminate | reflexivity]. Qed.

Lemma rstrip_seps_id q c :
  last_char q = Some c -> is_sep fl c = false -> rstrip_seps fl q = q.
Proof.
  intros Hl Hc. induction q as [|x q IH]; [reflexivity|].
  cbn [rstrip_seps]. destruct q as [|y q].
  - cbn in Hl. injection Hl as ->. cbn. now rewrite Hc.
  - rewrite last_char_cons in Hl by reflexivity.
    rewrite (IH Hl). reflexivity.
Qed.

Lemma last_char_nonempty q c : last_char q = Some c -> nonempty q = true.
Proof. destruct q; [discriminate | reflexivity]. Qed.

(** A non-empty string is its beginning followed by its last character. *)
Lemma last_char_snoc q c : last_char q = Some c -> exists q', q = q' ++ String c "".
Proof.
  induction q as [|x q IH]; [discriminate|].
  destruct q as [|y q].
  - cbn. intros [= ->]. now exists "".
  - rewrite last_char_cons by reflexivity. intros H.
    destruct (IH H) as [q' E]. exists (String x q'). now rewrite app_cons, <- E.
Qed.

Lemma plain_last n :
  plain fl n = true -> exists c, last_char n = Some c /\ is_sep fl c = false.
Proof.
  intros H. pose proof (plain_no_sep n H) as Hs.
  pose proof (plain_nonempty n H) as Hn. clear H.
  induction n as [|x n IH]; [discriminate|].
  unfold no_sep in Hs. cbn [string_forall] in Hs.
  apply andb_prop in Hs as [Hx Hs].
  destruct n as [|y n].
  - exists x. split; [reflexivity | now destruct (is_sep fl x)].
  - rewrite last_char_cons by reflexivity. now apply IH.
Qed.

Lemma basename_join a n : plain fl n = true -> basename fl (join fl a n) = n.
Proof.
  intros Hn. unfold basename, split. rewrite (splitdrive_join a n Hn).
  destruct (splitdrive fl a) as [ad ap]. cbn [fst snd].
  pose proof (plain_no_sep n Hn) as Hs.
  destruct (add_sep_cases ap) as [[E [->|Hl]]|[E _]]; rewrite E.
  - rewrite app_nil_l, (cut_last_sep_no_sep n Hs). reflexivity.
  - destruct (last_char ap) as [c|] eqn:El; [|discriminate].
    destruct (last_char_snoc ap c El) as [q ->].
    rewrite app_assoc_snoc.
    now rewrite (cut_last_sep_app q c n Hl Hs).
  - rewrite app_assoc_snoc.
    now rewrite (cut_last_sep_app ap (sep fl) n (is_sep_sep) Hs).
Qed.

Lemma tail_ok_join a n : plain fl n = true -> tail_ok fl (join fl a n).
Proof.
  intros Hn. unfold tail_ok. rewrite (splitdrive_join a n Hn). cbn [snd].
  destruct (plain_last n Hn) as (c & Hl & Hc). exists c. split; [|exact Hc].
  rewrite PyStrFacts.last_char_app_nonempty; [exact Hl | now apply plain_nonempty].
Qed.

Lemma add_sep_tail_ok a :
  tail_ok fl a ->
  add_sep fl (snd (splitdrive fl a)) = snd (splitdrive fl a) ++ String (sep fl) "".
Proof.
  intros (c & Hl & Hc).
  destruct (add_sep_cases (snd (splitdrive fl a))) as [[_ [E|E]]|[E _]].
  - rewrite E in Hl. discriminate.
  - rewrite Hl in E. cbn in E. congruence.
  - exact E.
Qed.

(** Joining a plain name to a path whose path part ends with a name puts
    one separator between them. *)
Lemma join_tail_ok a n :
  plain fl n = true -> tail_ok fl a ->
  join fl a n = a ++ String (sep fl) n.
Proof.
  intros Hn Ha. rewrite (join_plain a n Hn), (add_sep_tail_ok a Ha).
  rewrite app_assoc_snoc, app_assoc. now rewrite splitdrive_app.
Qed.

Lemma dirname_join a n :
  plain fl n = true -> tail_ok fl a -> dirname fl (join fl a n) = a.
Proof.
  intros Hn Ha. unfold dirname, split. rewrite (splitdrive_join a n Hn).
  rewrite (add_sep_tail_ok a Ha).
  pose proof (splitdrive_app a) as Happ.
  destruct Ha as (c & Hl & Hc).
  destruct (splitdrive fl a) as [ad ap]. cbn [fst snd] in *.
  rewrite app_assoc_snoc.
  rewrite (cut_last_sep_app ap (sep fl) n (is_sep_sep) (plain_no_sep n Hn)).
  rewrite (rstrip_seps_snoc ap _ (is_sep_sep)).
  rewrite (rstrip_seps_id ap c Hl Hc).
  rewrite (last_char_nonempty ap c Hl). exact Happ.
Qed.

End WithFlavour.
End OsPathFacts.

(** ** The paths of the installation *)

Lemma os_path_colon_free (h : Host) : colon_free (os_path h).
Proof. unfold os_path. destruct (is_win h); reflexivity. Qed.

Lemma java_profile_plain (h : Host) (foldername jre_name file_id : string)
    (file_size : Z) :
  java_profile h = inr (Assigned foldername jre_name file_id file_size) ->
  plain (os_path h) foldername = true /\ plain (os_path h) jre_name = true.
Proof.
  unfold java_profile, os_path. fold (is_win h).
  destruct (is_win h);
    repeat match goal with
           | |- context [match ?x with _ => _ end] => destruct x
           end;
    intros [= <- <- <- <-] || discriminate; split; reflexivity.
Qed.

(** The older location of [<home>/acdc-java/<folder>/<name>] is
    [<home>/.acdc-java/<folder>/<name>]. *)
Lemma old_path_join3 (h : Host) (folder name : string) :
  plain (os_path h) folder = true -> plain (os_path h) name = true ->
  old_path h (OsPath.join3 (os_path h) (fst (get_acdc_java_path h)) folder name)
  = OsPath.join3 (os_path h) (snd (get_acdc_java_path h)) folder name.
Proof.
  intros Hf Hn. unfold old_path, OsPath.join3.
  pose proof (os_path_colon_free h) as Hc.
  rewrite OsPathFacts.basename_join by assumption.
  rewrite OsPathFacts.dirname_join
    by (try assumption; now apply OsPathFacts.tail_ok_join).
  now rewrite OsPathFacts.basename_join by assumption.
Qed.

Lemma get_java_info_assigned (h : Host) (foldername jre_name file_id : string)
    (file_size : Z) :
  java_profile h = inr (Assigned foldername jre_name file_id file_size) ->
  get_java_info h
  = inr (Some (OsPath.join (os_path h) (fst (get_acdc_java_path h)) foldername,
               OsPath.join3 (os_path h) (fst (get_acdc_java_path h)) foldername jre_name,
               file_id, file_size)).
Proof. intros H. unfold get_java_info. now rewrite H. Qed.

Lemma get_java_info_inv (h : Host) (java_path jre_path file_id : string)
    (file_size : Z) :
  get_java_info h = inr (Some (java_path, jre_path, file_id, file_size)) ->
  exists foldername jre_name,
    java_profile h = inr (Assigned foldername jre_name file_id file_size) /\
    java_path = OsPath.join (os_path h) (fst (get_acdc_java_path h)) foldername /\
    jre_path = OsPath.join (os_path h) java_path jre_name.
Proof.
  unfold get_java_info. destruct (java_profile h) as [e|[f j i z| |]];
    try discriminate.
  intros [= <- <- <- <-]. now exists f, j.
Qed.

(** The two early returns of [download_java] and [download_jdk]. *)
Lemma download_java_present (h : Host) (s : State)
    (java_path jre_path file_id : string) (file_size : Z) :
  get_java_info h = inr (Some (java_path, jre_path, file_id, file_size)) ->
  is_Some (fs s !! jre_path) ->
  download_java h s = (inr jre_path, s).
Proof.
  intros Hinfo [n Hn]. unfold download_java, bind, lift, Fs.exists_, gets, ret.
  now rewrite Hinfo, Hn.
Qed.

Lemma download_java_legacy (h : Host) (s : State)
    (java_path jre_path file_id : string) (file_size : Z) :
  get_java_info h = inr (Some (java_path, jre_path, file_id, file_size)) ->
  fs s !! jre_path = None ->
  is_Some (fs s !! old_path h jre_path) ->
  download_java h s = (inr (old_path h jre_path), s).
Proof.
  intros Hinfo Hnone [n Hn].
  unfold download_java, bind, lift, Fs.exists_, gets, ret.
  rewrite Hinfo, Hnone. cbn [Fs.is_some_node].
  unfold old_path in Hn. unfold get_acdc_java_path in *. cbn [snd] in Hn.
  now rewrite Hn.
Qed.

Lemma download_jdk_present (h : Host) (s : State)
    (java_path jdk_path file_id : string) (file_size : Z) :
  get_jdk_info h = (java_path, jdk_path, file_id, file_size) ->
  is_Some (fs s !! jdk_path) ->
  download_jdk h s = (inr jdk_path, s).
Proof.
  intros Hinfo [n Hn]. unfold download_jdk, bind, Fs.exists_, gets, ret.
  now rewrite Hinfo, Hn.
Qed.

Lemma download_jdk_legacy (h : Host) (s : State)
    (java_path jdk_path file_id : string) (file_size : Z) :
  get_jdk_info h = (java_path, jdk_path, file_id, file_size) ->
  fs s !! jdk_path = None ->
  is_Some (fs s !! old_path h jdk_path) ->
  download_jdk h s = (inr (old_path h jdk_path), s).
Proof.
  intros Hinfo Hnone [n Hn].
  unfold download_jdk, bind, Fs.exists_, gets, ret.
  rewrite Hinfo, Hnone. cbn [Fs.is_some_node].
  unfold old_path in Hn. unfold get_acdc_java_path in *. cbn [snd] in Hn.
  now rewrite Hn.
Qed.

(** ** C4: nothing is downloaded when the runtime is present *)

(** C4: in a state in which the primary runtime directory exists,
    [download_java] (and likewise [download_jdk]) returns the path of that
    directory and leaves the state as it is; two calls in a row do the
    same, and the trace has no GET request that it did not have before. *)
Theorem download_present_is_idempotent (h : Host) (s : State) :
  (forall java_path jre_path file_id file_size,
      get_java_info h = inr (Some (java_path, jre_path, file_id, file_size)) ->
      is_Some (fs s !! jre_path) ->
      download_java h s = (inr jre_path, s) /\
      (download_java h ;;; download_java h) s = (inr jre_path, s) /\
      requests (trace ((download_java h ;;; download_java h) s).2)
        = requests (trace s)) /\
  (forall java_path jdk_path file_id file_size,
      get_jdk_info h = (java_path, jdk_path, file_id, file_size) ->
      is_Some (fs s !! jdk_path) ->
      download_jdk h s = (inr jdk_path, s) /\
      (download_jdk h ;;; download_jdk h) s = (inr jdk_path, s) /\
      requests (trace ((download_jdk h ;;; download_jdk h) s).2)
        = requests (trace s)).
Proof.
  split.
  - intros java_path jre_path file_id file_size Hinfo Hex.
    pose proof (download_java_present h s _ _ _ _ Hinfo Hex) as H1.
    assert (H2 : (download_java h ;;; download_java h) s = (inr jre_path, s))
      by (unfold bind at 1; now rewrite H1).
    now rewrite H2.
  - intros java_path jdk_path file_id file_size Hinfo Hex.
    pose proof (download_jdk_present h s _ _ _ _ Hinfo Hex) as H1.
    assert (H2 : (download_jdk h ;;; download_jdk h) s = (inr jdk_path, s))
      by (unfold bind at 1; now rewrite H1).
    now rewrite H2.
Qed.

Lemma download_present_is_idempotent_witness :
  download_java host_linux state_installed
    = (inr "/home/u/acdc-java/linux/jre1.8.0_301", state_installed) /\
  download_jdk host_linux state_installed
    = (inr "/home/u/acdc-java/win64/jdk1.8.0_321", state_installed).
Proof.
  split.
  - refine (proj1 (proj1 (download_present_is_idempotent host_linux state_installed)
             "/home/u/acdc-java/linux" "/home/u/acdc-java/linux/jre1.8.0_301"
             "1Fz8krhOS8JsX-GhkRDeMiEnAIWqZmCfP" 92145253 _ _)).
    + reflexivity.
    + exists Dir. reflexivity.
  - refine (proj1 (proj2 (download_present_is_idempotent host_linux state_installed)
             "/home/u/acdc-java/win64" "/home/u/acdc-java/win64/jdk1.8.0_321"
             "1G6SNk5vESqgdxob5UQv87PgVpIJa_dTe" 135524352 _ _)).
    + reflexivity.
    + exists Dir. reflexivity.
Defined.

(** ** C5: the older location *)

(** C5: when the primary runtime directory does not exist and the directory
    of the same folder and runtime names exists under [<home>/.acdc-java],
    [download_java] (and likewise [download_jdk]) returns the path of the
    latter and leaves the state as it is: no request, no write, no
    extraction. *)
Theorem download_returns_legacy_path (h : Host) (s : State) :
  let fl := os_path h in
  let acdc := fst (get_acdc_java_path h) in
  let dot_acdc := snd (get_acdc_java_path h) in
  (forall foldername jre_name file_id file_size,
      java_profile h = inr (Assigned foldername jre_name file_id file_size) ->
      fs s !! OsPath.join3 fl acdc foldername jre_name = None ->
      is_Some (fs s !! OsPath.join3 fl dot_acdc foldername jre_name) ->
      download_java h s
      = (inr (OsPath.join3 fl dot_acdc foldername jre_name), s)) /\
  (fs s !! OsPath.join3 fl acdc "win64" "jdk1.8.0_321" = None ->
   is_Some (fs s !! OsPath.join3 fl dot_acdc "win64" "jdk1.8.0_321") ->
   download_jdk h s
   = (inr (OsPath.join3 fl dot_acdc "win64" "jdk1.8.0_321"), s)).
Proof.
  intros fl acdc dot_acdc. subst fl acdc dot_acdc. split.
  - intros foldername jre_name file_id file_size Hprof Hnone Hold.
    destruct (java_profile_plain h _ _ _ _ Hprof) as [Hf Hj].
    pose proof (get_java_info_assigned h _ _ _ _ Hprof) as Hinfo.
    rewrite <- (old_path_join3 h foldername jre_name Hf Hj) in Hold |- *.
    exact (download_java_legacy h s _ _ _ _ Hinfo Hnone Hold).
  - intros Hnone Hold.
    assert (Hf : plain (os_path h) "win64" = true)
      by (unfold os_path; destruct (is_win h); reflexivity).
    assert (Hj : plain (os_path h) "jdk1.8.0_321" = true)
      by (unfold os_path; destruct (is_win h); reflexivity).
    rewrite <- (old_path_join3 h "win64" "jdk1.8.0_321" Hf Hj) in Hold |- *.
    refine (download_jdk_legacy h s _ _ _ _ _ Hnone Hold).
    reflexivity.
Qed.

Lemma download_returns_legacy_path_witness :
  download_java host_linux state_legacy
    = (inr "/home/u/.acdc-java/linux/jre1.8.0_301", state_legacy) /\
  download_jdk host_linux state_legacy
    = (inr "/home/u/.acdc-java/win64/jdk1.8.0_321", state_legacy).
Proof.
  split.
  - refine (proj1 (download_returns_legacy_path host_linux state_legacy)
             "linux" "jre1.8.0_301" "1Fz8krhOS8JsX-GhkRDeMiEnAIWqZmCfP" 92145253
             _ _ _).
    + reflexivity.
    + reflexivity.
    + exists Dir. reflexivity.
  - refine (proj2 (download_returns_legacy_path host_linux state_legacy) _ _).
    + reflexivity.
    + exists Dir. reflexivity.
Defined.

(** ** C10: an installed runtime is only read *)

(** C10: when the primary runtime directory exists, or else the one of the
    older location, a call of [download_java] or [download_jdk] ends in the
    state it started in: the file system is the same, no temporary name is
    used up, and the trace has no new event. *)
Theorem download_installed_leaves_state (h : Host) (s : State) :
  (forall java_path jre_path file_id file_size,
      get_java_info h = inr (Some (java_path, jre_path, file_id, file_size)) ->
      is_Some (fs s !! jre_path) \/ is_Some (fs s !! old_path h jre_path) ->
      (download_java h s).2 = s /\
      exists p, (download_java h s).1 = inr p /\ is_Some (fs s !! p)) /\
  (forall java_path jdk_path file_id file_size,
      get_jdk_info h = (java_path, jdk_path, file_id, file_size) ->
      is_Some (fs s !! jdk_path) \/ is_Some (fs s !! old_path h jdk_path) ->
      (download_jdk h s).2 = s /\
      exists p, (download_jdk h s).1 = inr p /\ is_Some (fs s !! p)).
Proof.
  split.
  - intros java_path jre_path file_id file_size Hinfo Hex.
    destruct (fs s !! jre_path) as [n|] eqn:Hprim.
    + rewrite (download_java_present h s _ _ _ _ Hinfo) by (rewrite Hprim; eauto).
      split; [reflexivity|]. exists jre_path. rewrite Hprim. eauto.
    + destruct Hex as [[n Hn]|Hold]; [discriminate|].
      rewrite (download_java_legacy h s _ _ _ _ Hinfo Hprim Hold).
      split; [reflexivity|]. eauto.
  - intros java_path jdk_path file_id file_size Hinfo Hex.
    destruct (fs s !! jdk_path) as [n|] eqn:Hprim.
    + rewrite (download_jdk_present h s _ _ _ _ Hinfo) by (rewrite Hprim; eauto).
      split; [reflexivity|]. exists jdk_path. rewrite Hprim. eauto.
    + destruct Hex as [[n Hn]|Hold]; [discriminate|].
      rewrite (download_jdk_legacy h s _ _ _ _ Hinfo Hprim Hold).
      split; [reflexivity|]. eauto.
Qed.

Lemma download_installed_leaves_state_witness :
  (download_java host_linux state_installed).2 = state_installed /\
  (download_jdk host_linux state_legacy).2 = state_legacy.
Proof.
  split.
  - refine (proj1 (proj1 (download_installed_leaves_state host_linux state_installed)
             "/home/u/acdc-java/linux" "/home/u/acdc-java/linux/jre1.8.0_301"
             "1Fz8krhOS8JsX-GhkRDeMiEnAIWqZmCfP" 92145253 _ _)).
    + reflexivity.
    + left. exists Dir. reflexivity.
  - refine (proj1 (proj2 (download_installed_leaves_state host_linux state_legacy)
             "/home/u/acdc-java/win64" "/home/u/acdc-java/win64/jdk1.8.0_321"
             "1G6SNk5vESqgdxob5UQv87PgVpIJa_dTe" 135524352 _ _)).
    + reflexivity.
    + right. exists Dir. reflexivity.
Defined.

(** ** C3: the search for the JVM library *)


(** ** Prefixes of strings *)

Lemma prefix_refl (a : string) : String.prefix a a = true.
Proof.
  induction a as [|c a IH]; [reflexivity|]. cbn.
  destruct (ascii_dec c c); [exact IH | congruence].
Qed.

Lemma prefix_iff (a s : string) :
  String.prefix a s = true <-> exists b, s = a ++ b.
Proof.
  split; [apply PyStrFacts.prefix_inv|]. intros [b ->]. apply PyStrFacts.prefix_app.
Qed.

Lemma prefix_trans (a b c : string) :
  String.prefix a b = true -> String.prefix b c = true ->
  String.prefix a c = true.
Proof.
  rewrite !prefix_iff. intros [x ->] [y ->].
  exists (x ++ y). now rewrite OsPathFacts.app_assoc.
Qed.

Lemma prefix_app_r (a b c : string) :
  String.prefix a b = true -> String.prefix a (b ++ c) = true.
Proof. intros H. apply (prefix_trans a b); [exact H | apply PyStrFacts.prefix_app]. Qed.

Lemma prefix_app_l (a b c : string) :
  String.prefix a b = true -> String.prefix (c ++ a) (c ++ b) = true.
Proof.
  rewrite !prefix_iff. intros [x ->]. exists x. now rewrite OsPathFacts.app_assoc.
Qed.

(** Two prefixes of one string: one is a prefix of the other. *)
Lemma prefix_comparable (a b s : string) :
  String.prefix a s = true -> String.prefix b s = true ->
  String.prefix a b = true \/ String.prefix b a = true.
Proof.
  revert b s. induction a as [|c a IH]; intros b s Ha Hb.
  - left. now destruct b.
  - destruct b as [|d b]; [right; reflexivity|].
    destruct s as [|e s]; [discriminate|]. cbn in Ha, Hb |- *.
    destruct (ascii_dec c e) as [->|]; [|discriminate].
    destruct (ascii_dec d e) as [->|]; [|discriminate].
    destruct (ascii_dec e e); [|congruence].
    now apply (IH b s).
Qed.

Section PathPrefix.
Variable fl : OsPath.Flavour.

Lemma cut_last_sep_app_eq (p : string) :
  fst (OsPath.cut_last_sep fl p) ++ snd (OsPath.cut_last_sep fl p) = p.
Proof.
  induction p as [|c p IH]; [reflexivity|]. cbn [OsPath.cut_last_sep].
  destruct (OsPath.cut_last_sep fl p) as [hd tl]. cbn [fst snd] in IH.
  destruct hd as [|x hd]; cbn [PyStr.nonempty].
  - rewrite OsPathFacts.app_nil_l in IH. subst tl.
    now destruct (OsPath.is_sep fl c).
  - cbn [fst snd]. now rewrite OsPathFacts.app_cons, IH.
Qed.

Lemma rstrip_seps_prefix (q : string) :
  String.prefix (OsPath.rstrip_seps fl q) q = true.
Proof.
  induction q as [|c q IH]; [reflexivity|]. cbn [OsPath.rstrip_seps].
  destruct (negb (PyStr.nonempty (OsPath.rstrip_seps fl q)) && OsPath.is_sep fl c);
    [reflexivity|].
  cbn. destruct (ascii_dec c c); [exact IH | congruence].
Qed.

(** The head of a path is a prefix of the path. *)
Lemma split_head_prefix (p : string) :
  String.prefix (fst (OsPath.split fl p)) p = true.
Proof.
  unfold OsPath.split.
  pose proof (OsPathFacts.splitdrive_app fl p) as Hd.
  destruct (OsPath.splitdrive fl p) as [d rest]. cbn [fst snd] in Hd.
  pose proof (cut_last_sep_app_eq rest) as Hc.
  destruct (OsPath.cut_last_sep fl rest) as [hd tl]. cbn [fst snd] in Hc |- *.
  rewrite <- Hd, <- Hc. apply prefix_app_l.
  destruct (PyStr.nonempty (OsPath.rstrip_seps fl hd)).
  - apply prefix_app_r, rstrip_seps_prefix.
  - apply PyStrFacts.prefix_app.
Qed.

Lemma under_prefix (d p : string) :
  OsPath.under fl d p = true -> String.prefix d p = true.
Proof.
  unfold OsPath.under. intros H. apply orb_prop in H as [H|H].
  - apply String.eqb_eq in H. subst. apply prefix_refl.
  - now apply andb_prop in H as [H _].
Qed.

(** A directory above a path is a prefix of the path. *)
Lemma above_prefix (k p : string) :
  above fl k p -> String.prefix k p = true.
Proof.
  induction 1 as [p|k p _ IH]; [apply prefix_refl|].
  apply (prefix_trans k (OsPath.dirname fl p)); [exact IH|].
  apply split_head_prefix.
Qed.

End PathPrefix.

Lemma lookup_filter_keep (P : string * Node -> Prop)
    `{!forall x, Decision (P x)} (m : gmap string Node) (i : string) :
  (forall x, m !! i = Some x -> P (i, x)) -> filter P m !! i = m !! i.
Proof.
  intros HP. destruct (m !! i) as [x|] eqn:Hm.
  - apply map_lookup_filter_Some_2; auto.
  - apply map_lookup_filter_None_2. now left.
Qed.

(** ** Frames: what a computation may change *)

Section Frame.
Variable TP : string -> Prop.     (* what is known of the temporary names *)
Variable PP : string -> Prop.     (* what is known of the probe names *)
Variable ok : string -> Prop.     (* the paths that may change *)
Variable E : Event -> Prop.       (* the events that may occur *)

Lemma frame_refl s : frame ok E s s.
Proof. split; [auto|]. exists []. now rewrite app_nil_r. Qed.

Lemma frame_trans s1 s2 s3 : frame ok E s1 s2 -> frame ok E s2 s3 -> frame ok E s1 s3.
Proof.
  intros (F1 & e1 & T1 & E1) (F2 & e2 & T2 & E2). split.
  - intros p Hp. now rewrite F2, F1.
  - exists (e1 ++ e2)%list. rewrite T2, T1, app_assoc. split; [reflexivity|].
    now apply Forall_app.
Qed.

Lemma sat_ret {A} (a : A) (Q : A -> Prop) : Q a -> sat TP PP ok E (ret a) Q.
Proof.
  intros HQ s Hs. split; [apply frame_refl|]. split; [exact Hs|].
  now intros a' [= <-].
Qed.

Lemma sat_raise {A} (e : Exn) (Q : A -> Prop) : sat TP PP ok E (raise e) Q.
Proof. intros s Hs. split; [apply frame_refl|]. now split. Qed.

Lemma sat_gets {A} (f : State -> A) : sat TP PP ok E (gets f) (fun _ => True).
Proof. intros s Hs. split; [apply frame_refl|]. now split. Qed.

Lemma sat_lift {A} (r : Exn + A) : sat TP PP ok E (lift r) (fun _ => True).
Proof. intros s Hs. split; [apply frame_refl|]. now split. Qed.

Lemma sat_bind {A B} (m : M A) (k : A -> M B) (Q : A -> Prop) (R : B -> Prop) :
  sat TP PP ok E m Q -> (forall a, Q a -> sat TP PP ok E (k a) R) -> sat TP PP ok E (bind m k) R.
Proof.
  intros Hm Hk s Hs. unfold bind.
  destruct (Hm s Hs) as (F1 & I1 & Q1).
  destruct (m s) as [[e|a] s1]; cbn [fst snd] in *.
  - split; [exact F1|]. now split.
  - destruct (Hk a (Q1 a eq_refl) s1 I1) as (F2 & I2 & Q2).
    split; [now apply (frame_trans s s1)|]. now split.
Qed.

Lemma sat_weaken {A} (m : M A) (Q R : A -> Prop) :
  sat TP PP ok E m Q -> (forall a, Q a -> R a) -> sat TP PP ok E m R.
Proof.
  intros Hm HQR s Hs. destruct (Hm s Hs) as (F & I & HQ).
  split; [exact F|]. split; [exact I|]. eauto.
Qed.

Lemma sat_seq {A B} (m : M A) (k : M B) (R : B -> Prop) :
  sat TP PP ok E m (fun _ => True) -> sat TP PP ok E k R -> sat TP PP ok E (bind m (fun _ => k)) R.
Proof. intros Hm Hk. apply (sat_bind m _ (fun _ => True)); auto. Qed.

Lemma sat_when (b : bool) (m : M unit) :
  sat TP PP ok E m (fun _ => True) -> sat TP PP ok E (when b m) (fun _ => True).
Proof. intros Hm. destruct b; [exact Hm | now apply sat_ret]. Qed.

Lemma sat_for_each {X} (xs : list X) (body : X -> M unit) :
  (forall x, sat TP PP ok E (body x) (fun _ => True)) ->
  sat TP PP ok E (for_each xs body) (fun _ => True).
Proof.
  intros Hb. induction xs as [|x xs IH]; cbn [for_each].
  - now apply sat_ret.
  - now apply sat_seq.
Qed.

Lemma sat_except (m : M unit) :
  sat TP PP ok E m (fun _ => True) -> sat TP PP ok E (except_file_exists m) (fun _ => True).
Proof.
  intros Hm s Hs. unfold except_file_exists.
  destruct (Hm s Hs) as (F & I & _).
  destruct (m s) as [[[]|[]] s1]; cbn [fst snd] in *; auto.
Qed.

Lemma sat_log (e : Event) : E e -> sat TP PP ok E (log e) (fun _ => True).
Proof.
  intros He s Hs. unfold log, modify. cbn [fst snd].
  split; [|now split]. split; [auto|]. exists [e]. cbn. auto.
Qed.

Lemma sat_mkdir (h : Host) (p : string) :
  ok p -> E (EvMkdir p) -> sat TP PP ok E (Fs.mkdir h p) (fun _ => True).
Proof.
  intros Hok He s Hs. unfold Fs.mkdir, bind, gets, raise, set_fs, log, modify.
  repeat match goal with
         | |- context [if ?b then _ else _] => destruct b
         end; cbn [fst snd]; try (split; [apply frame_refl | now split]).
  split; [|now split]. split.
  - intros q Hq. apply lookup_insert_ne. intros ->. contradiction.
  - exists [EvMkdir p]. cbn. auto.
Qed.


Lemma frame_put (s : State) (g : gmap string Node) (e : Event) :
  (forall p, ~ ok p -> g !! p = fs s !! p) -> E e ->
  frame ok E s {| fs := g; tmp_names := tmp_names s;
                  probe_names := probe_names s; trace := trace s ++ [e] |}.
Proof.
  intros Hg He. split; [exact Hg|]. exists [e]. cbn. auto.
Qed.

Ltac prim :=
  unfold bind, gets, raise, ret, set_fs, log, modify; cbn [fst snd];
  repeat match goal with
         | |- context [if ?b then _ else _] => destruct b eqn:?
         | |- context [match ?x !! ?p with _ => _ end] => destruct (x !! p) as [[]|] eqn:?
         end; cbn [fst snd fs tmp_names probe_names trace];
  try (split; [apply frame_refl | now split]).

Lemma sat_open_wb (h : Host) (p : string) :
  ok p -> E (EvCreate p) -> sat TP PP ok E (Fs.open_wb h p) (fun _ => True).
Proof.
  intros Hok He s Hs. unfold Fs.open_wb. prim.
  all: split; [|now split]; apply frame_put; [|exact He];
    intros q Hq; apply lookup_insert_ne; now intros ->.
Qed.

Lemma sat_write (p : string) (c : bytes) :
  ok p -> E (EvWrite p c) -> sat TP PP ok E (Fs.write p c) (fun _ => True).
Proof.
  intros Hok He s Hs. unfold Fs.write. prim.
  split; [|now split]; apply frame_put; [|exact He].
  intros q Hq; apply lookup_insert_ne; now intros ->.
Qed.

Lemma sat_remove (h : Host) (p : string) :
  ok p -> E (EvUnlink p) -> sat TP PP ok E (Fs.remove h p) (fun _ => True).
Proof.
  intros Hok He s Hs. unfold Fs.remove. prim.
  split; [|now split]; apply frame_put; [|exact He].
  intros q Hq; apply lookup_delete_ne; now intros ->.
Qed.

Lemma sat_read (h : Host) (p : string) :
  sat TP PP ok E (Fs.read h p) (fun _ => True).
Proof. intros s Hs. unfold Fs.read. prim. Qed.

Lemma sat_rmtree (h : Host) (t : string) :
  (forall k, OsPath.under (os_path h) t k = true -> ok k) -> E (EvRmtree t) ->
  sat TP PP ok E (Fs.rmtree h t) (fun _ => True).
Proof.
  intros Hok He s Hs. unfold Fs.rmtree. prim.
  split; [|now split]; apply frame_put; [|exact He].
  intros q Hq. apply lookup_filter_keep. intros n _. cbn.
  destruct (OsPath.under (os_path h) t q) eqn:Hu; [|reflexivity].
  destruct Hq. now apply Hok.
Qed.

Lemma sat_move (h : Host) (src dst : string) :
  ok src -> ok dst ->
  ok (OsPath.join (os_path h) dst (OsPath.basename (os_path h) src)) ->
  E (EvRename src dst) ->
  E (EvRename src (OsPath.join (os_path h) dst (OsPath.basename (os_path h) src))) ->
  sat TP PP ok E (Fs.move h src dst) (fun _ => True).
Proof.
  intros Hsrc Hdst Hin He1 He2 s Hs. unfold Fs.move, Fs.isdir, Fs.exists_. prim.
  all: split; [|now split]; apply frame_put; [|assumption].
  all: intros q Hq;
    rewrite lookup_insert_ne by (intros Heq; apply Hq; now rewrite <- Heq);
    apply lookup_delete_ne; intros Heq; apply Hq; now rewrite <- Heq.
Qed.

Lemma first_free_Forall (Q : string -> Prop) (f : gmap string Node)
    (names rest : list string) (n : string) :
  Forall Q names -> Fs.first_free f names = Some (n, rest) ->
  Q n /\ Forall Q rest.
Proof.
  induction names as [|x names IH]; intros Hall Hf; [discriminate|].
  cbn in Hf. inversion Hall; subst.
  destruct (Fs.is_some_node (f !! x)); [now apply IH|].
  injection Hf as <- <-. auto.
Qed.

Lemma sat_gettempdir :
  (forall p, PP p -> E (EvProbe p)) ->
  sat TP PP ok E Fs.gettempdir (fun _ => True).
Proof.
  intros HP s Hs. pose proof Hs as [Ht Hp]. unfold Fs.gettempdir.
  destruct (probe_names s) as [|p0 names] eqn:Hn.
  - split; [apply frame_refl|]. now split.
  - destruct (Fs.first_free (fs s) (p0 :: names)) as [[p rest]|] eqn:Hf;
      cbn [fst snd].
    + destruct (first_free_Forall _ _ _ _ _ Hp Hf) as [He _].
      apply HP in He.
      split; [|split; [|auto]].
      * split; cbn [fs trace]; [auto|]. exists [EvProbe p]. auto.
      * split; [exact Ht | constructor].
    + split; [apply frame_refl|]. now split.
Qed.

Lemma sat_mkdtemp (h : Host) :
  (forall p, PP p -> E (EvProbe p)) ->
  (forall t, TP t -> ok t /\ E (EvMkdir t)) ->
  sat TP PP ok E Fs.mkdtemp TP.
Proof.
  intros HP Ht. unfold Fs.mkdtemp. apply sat_seq; [now apply sat_gettempdir|].
  intros s [Hs Hp].
  destruct (Fs.first_free (fs s) (tmp_names s)) as [[n rest]|] eqn:Hf;
    cbn [fst snd].
  - destruct (first_free_Forall _ _ _ _ _ Hs Hf) as [Hn Hrest].
    destruct (Ht n Hn) as [Hok He].
    split; [|split; [now split | now intros a [= <-]]].
    split; cbn [fs trace].
    + intros q Hq. apply lookup_insert_ne. now intros ->.
    + exists [EvMkdir n]. auto.
  - split; [apply frame_refl|]. now split.
Qed.

(** [makedirs] makes directories at its argument and above it. *)
Lemma sat_makedirs_go (h : Host) (fuel : nat) (name : string) :
  (forall k, above (os_path h) k name -> ok k /\ E (EvMkdir k)) ->
  sat TP PP ok E (Fs.makedirs_go h fuel name) (fun _ => True).
Proof.
  revert name. induction fuel as [|fuel IH]; intros name Hk;
    cbn [Fs.makedirs_go].
  - pose proof (Hk name (above_self _ name)) as [Hok He].
    destruct (OsPath.split (os_path h) name) as [head0 tail0].
    destruct (if PyStr.nonempty tail0 then (head0, tail0)
              else OsPath.split (os_path h) head0) as [hd tl].
    apply (sat_bind _ _ (fun _ => True)); [apply sat_gets|]. intros ex _.
    destruct (PyStr.nonempty hd && PyStr.nonempty tl && negb ex).
    + apply sat_raise.
    + now apply sat_mkdir.
  - pose proof (Hk name (above_self _ name)) as [Hok He].
    assert (Hp : forall k,
               above (os_path h) k
                 (fst (if PyStr.nonempty (snd (OsPath.split (os_path h) name))
                       then OsPath.split (os_path h) name
                       else OsPath.split (os_path h)
                              (fst (OsPath.split (os_path h) name)))) ->
               above (os_path h) k name).
    { intros k Hab. apply above_parent. unfold OsPath.dirname.
      destruct (PyStr.nonempty (snd (OsPath.split (os_path h) name)));
        [exact Hab | now apply above_parent]. }
    destruct (OsPath.split (os_path h) name) as [head0 tail0] eqn:Es.
    cbn [fst snd] in Hp.
    destruct (if PyStr.nonempty tail0 then (head0, tail0)
              else OsPath.split (os_path h) head0) as [hd tl].
    cbn [fst] in Hp.
    apply (sat_bind _ _ (fun _ => True)); [apply sat_gets|]. intros ex _.
    destruct (PyStr.nonempty hd && PyStr.nonempty tl && negb ex).
    + apply sat_seq.
      * apply sat_except, IH. intros k Hkp. apply Hk. now apply Hp.
      * destruct (String.eqb tl "."); [now apply sat_ret | now apply sat_mkdir].
    + now apply sat_mkdir.
Qed.

Lemma sat_makedirs (h : Host) (name : string) :
  (forall k, above (os_path h) k name -> ok k /\ E (EvMkdir k)) ->
  sat TP PP ok E (Fs.makedirs h name) (fun _ => True).
Proof. apply sat_makedirs_go. Qed.

Lemma sat_exists (p : string) : sat TP PP ok E (Fs.exists_ p) (fun _ => True).
Proof. apply sat_gets. Qed.

Lemma sat_isdir (p : string) : sat TP PP ok E (Fs.isdir p) (fun _ => True).
Proof. apply sat_gets. Qed.

Lemma sat_emit (a b : Z) : E (EvEmit a b) -> sat TP PP ok E (emit a b) (fun _ => True).
Proof. apply sat_log. Qed.

Lemma sat_session_get (h : Host) (id : string) (confirm : option string) :
  E (EvGet id confirm) -> sat TP PP ok E (session_get h id confirm) (fun _ => True).
Proof.
  intros He. unfold session_get. apply sat_seq; [now apply sat_log|].
  destruct (server h id confirm); [now apply sat_ret | apply sat_raise].
Qed.

Lemma sat_save_response_content (h : Host) (response : Response)
    (destination : string) (file_size : option Z) (progress : bool) :
  (forall p, PP p -> E (EvProbe p)) ->
  (forall t, TP t -> temp_allowed ok E h destination t) ->
  (forall a b, E (EvEmit a b)) ->
  (forall k, above (os_path h) k (OsPath.dirname (os_path h) destination) ->
             ok k /\ E (EvMkdir k)) ->
  ok destination ->
  sat TP PP ok E (save_response_content h response destination file_size progress)
      (fun _ => True).
Proof.
  intros Hprobe Htmp Hemit Hdir Hdst. unfold save_response_content.
  apply (sat_bind _ _ TP).
  { apply (sat_mkdtemp h); [exact Hprobe|].
    intros t Ht. destruct (Htmp t Ht) as (H1 & H2 & _). auto. }
  intros t Ht.
  destruct (Htmp t Ht) as (H1 & H2 & H3 & H4 & H5 & H6 & H7 & H8 & H9 & H10).
  apply (sat_bind _ _ (fun _ => True)); [apply sat_exists|]. intros ex _.
  apply sat_seq; [apply sat_when; now apply sat_mkdir|].
  apply sat_seq.
  { destruct file_size; [apply sat_when; now apply sat_emit | now apply sat_ret]. }
  apply sat_seq; [now apply sat_open_wb|].
  apply sat_seq.
  { apply sat_for_each. intros chunk.
    destruct (nonempty_bytes chunk); [|now apply sat_ret].
    apply sat_seq; [now apply sat_write|]. apply sat_when. now apply sat_emit. }
  apply sat_seq; [apply sat_when, sat_raise|].
  apply (sat_bind _ _ (fun _ => True)); [apply sat_exists|]. intros ex' _.
  apply sat_seq; [apply sat_when; now apply sat_makedirs|].
  apply sat_seq; [now apply sat_move|].
  now apply sat_rmtree.
Qed.

Lemma sat_download_from_gdrive (h : Host) (id destination : string)
    (file_size : option Z) (progress : bool) :
  (forall c, E (EvGet id c)) ->
  (forall p, PP p -> E (EvProbe p)) ->
  (forall t, TP t -> temp_allowed ok E h destination t) ->
  (forall a b, E (EvEmit a b)) ->
  (forall k, above (os_path h) k (OsPath.dirname (os_path h) destination) ->
             ok k /\ E (EvMkdir k)) ->
  ok destination ->
  sat TP PP ok E (download_from_gdrive h id destination file_size progress)
      (fun _ => True).
Proof.
  intros Hget Hprobe Htmp Hemit Hdir Hdst. unfold download_from_gdrive.
  apply (sat_bind _ _ (fun _ => True)); [now apply sat_session_get|].
  intros r1 _.
  apply (sat_bind _ _ (fun _ => True)).
  { destruct (get_confirm_token r1) as [t|]; [|now apply sat_ret].
    destruct (PyStr.nonempty t); [now apply sat_session_get | now apply sat_ret]. }
  intros r2 _. now apply sat_save_response_content.
Qed.

End Frame.

Lemma inv_all (TP PP : string -> Prop) (s : State) :
  (forall t, TP t) -> (forall p, PP p) -> inv TP PP s.
Proof. intros HT HE. split; apply Forall_forall; auto. Qed.

(** ** C7: the requests of [download_from_gdrive] *)

Lemma requests_app (a b : list Event) :
  requests (a ++ b) = (requests a ++ requests b)%list.
Proof.
  induction a as [|e a IH]; [reflexivity|].
  destruct e; cbn; now rewrite ?IH.
Qed.

Lemma requests_no_get (evs : list Event) :
  Forall (fun e => is_get e = false) evs -> requests evs = [].
Proof.
  induction 1 as [|e evs He _ IH]; [reflexivity|].
  destruct e; try discriminate; exact IH.
Qed.

(** [save_response_content] sends no request. *)
Lemma save_response_content_no_request (h : Host) (response : Response)
    (destination : string) (file_size : option Z) (progress : bool) (s : State) :
  requests (trace (save_response_content h response destination file_size progress s).2)
  = requests (trace s).
Proof.
  pose proof (sat_save_response_content (fun _ => True) (fun _ => True)
                (fun _ => True) (fun e => is_get e = false) h response
                destination file_size progress) as H.
  destruct (H ltac:(reflexivity)
              ltac:(intros; unfold temp_allowed; repeat split)
              ltac:(reflexivity) ltac:(intros; now split) I s) as ((_ & evs & -> & He) & _).
  { now apply inv_all. }
  now rewrite requests_app, (requests_no_get evs He), app_nil_r.
Qed.


(** C7, as stated, fails: a response whose [download_warning] cookie has
    an empty value is not followed by a second request, and the body that
    is saved is the one of the first response. *)
Lemma download_from_gdrive_empty_token_single_request :
  let r := download_from_gdrive host_empty_token "1Fz8" "/home/u/java.zip"
             None false state_fresh in
  (exists r1, server host_empty_token "1Fz8" None = Some r1 /\
              exists value, In ("download_warning_13058", value) (cookies r1)) /\
  r.1 = inr tt /\
  requests (trace r.2) = [("1Fz8", None)].
Proof.
  cbv zeta. split; [|split; reflexivity].
  eexists. split; [reflexivity|]. exists "". now left.
Qed.

(** C7, amended: [download_from_gdrive] first issues one GET with the id
    alone.  When the first cookie of the response whose key starts with
    [download_warning] has a non-empty value, it issues a second GET with
    the id and that value as [confirm], and saves the body of the second
    response; when there is no such cookie, or the value of the first one
    is empty, it issues no second GET and saves the body of the first
    response.  Saving sends no request. *)
Theorem download_from_gdrive_requests (h : Host) (id destination : string)
    (file_size : option Z) (progress : bool) (s : State) (r1 : Response) :
  server h id None = Some r1 ->
  (forall token r2,
      get_confirm_token r1 = Some token -> token <> "" ->
      server h id (Some token) = Some r2 ->
      download_from_gdrive h id destination file_size progress s
      = save_response_content h r2 destination file_size progress
          (add_events s [EvGet id None; EvGet id (Some token)]) /\
      requests (trace (download_from_gdrive h id destination file_size progress s).2)
      = (requests (trace s) ++ [(id, None); (id, Some token)])%list) /\
  (get_confirm_token r1 = None \/ get_confirm_token r1 = Some "" ->
      download_from_gdrive h id destination file_size progress s
      = save_response_content h r1 destination file_size progress
          (add_events s [EvGet id None]) /\
      requests (trace (download_from_gdrive h id destination file_size progress s).2)
      = (requests (trace s) ++ [(id, None)])%list).
Proof.
  intros H1. split.
  - intros token r2 Htok Hne H2.
    assert (Heq : download_from_gdrive h id destination file_size progress s
                  = save_response_content h r2 destination file_size progress
                      (add_events s [EvGet id None; EvGet id (Some token)])).
    { cbv [download_from_gdrive bind session_get log modify].
      rewrite H1. cbv [ret]. rewrite Htok.
      destruct token as [|c token]; [contradiction|]. cbn [PyStr.nonempty].
      rewrite H2. unfold add_events. cbn [fs tmp_names trace].
      now rewrite <- app_assoc. }
    split; [exact Heq|].
    rewrite Heq, save_response_content_no_request. unfold add_events.
    cbn [trace]. now rewrite requests_app.
  - intros Htok.
    assert (Heq : download_from_gdrive h id destination file_size progress s
                  = save_response_content h r1 destination file_size progress
                      (add_events s [EvGet id None])).
    { cbv [download_from_gdrive bind session_get log modify].
      rewrite H1. cbv [ret]. now destruct Htok as [-> | ->]. }
    split; [exact Heq|].
    rewrite Heq, save_response_content_no_request. unfold add_events.
    cbn [trace]. now rewrite requests_app.
Qed.

(** ** C6: the bytes that reach the destination *)

Lemma bind_inr {A B} (m : M A) (k : A -> M B) (s s' : State) (b : B) :
  bind m k s = (inr b, s') ->
  exists a s1, m s = (inr a, s1) /\ k a s1 = (inr b, s').
Proof.
  unfold bind. destruct (m s) as [[e|a] s1]; [discriminate|]. eauto.
Qed.

Lemma bind_ok {A B} (m : M A) (k : A -> M B) (s s1 : State) (a : A) :
  m s = (inr a, s1) -> bind m k s = k a s1.
Proof. intros H. unfold bind. now rewrite H. Qed.

Lemma grows_pure {A} (m : M A) : (forall s, (m s).2 = s) -> grows m.
Proof. intros H s p n Hp. now rewrite H. Qed.

Lemma grows_bind {A B} (m : M A) (k : A -> M B) :
  grows m -> (forall a, grows (k a)) -> grows (bind m k).
Proof.
  intros Hm Hk s p n Hp. unfold bind. specialize (Hm s p n Hp).
  destruct (m s) as [[e|a] s1]; cbn [snd] in *; [exact Hm|].
  now apply Hk.
Qed.

Lemma grows_except (m : M unit) : grows m -> grows (except_file_exists m).
Proof.
  intros Hm s p n Hp. unfold except_file_exists. specialize (Hm s p n Hp).
  destruct (m s) as [[[]|[]] s1]; exact Hm.
Qed.

Lemma grows_mkdir (h : Host) (p : string) : grows (Fs.mkdir h p).
Proof.
  intros s q n Hq. unfold Fs.mkdir, bind, gets, raise, set_fs, log, modify.
  cbn [fst snd].
  destruct (negb (PyStr.nonempty p)); [exact Hq|].
  destruct (fs s !! p) as [x|] eqn:Hp; cbn [Fs.is_some_node]; [exact Hq|].
  destruct (negb (Fs.parent_ok h (fs s) p)); [exact Hq|]. cbn [fst snd fs].
  rewrite lookup_insert_ne; [exact Hq | congruence].
Qed.

Lemma grows_makedirs_go (h : Host) (fuel : nat) (name : string) :
  grows (Fs.makedirs_go h fuel name).
Proof.
  revert name. induction fuel as [|fuel IH]; intros name; cbn [Fs.makedirs_go];
    destruct (OsPath.split (os_path h) name) as [head0 tail0];
    destruct (if PyStr.nonempty tail0 then (head0, tail0)
              else OsPath.split (os_path h) head0) as [hd tl];
    (apply grows_bind; [now apply grows_pure|]); intros ex;
    destruct (PyStr.nonempty hd && PyStr.nonempty tl && negb ex);
    try apply grows_mkdir.
  - now apply grows_pure.
  - apply grows_bind; [apply grows_except, IH|]. intros _.
    destruct (String.eqb tl "."); [now apply grows_pure | apply grows_mkdir].
Qed.

Lemma first_free_inv (f : gmap string Node) (names : list string)
    (n : string) (rest : list string) :
  Fs.first_free f names = Some (n, rest) -> In n names /\ f !! n = None.
Proof.
  induction names as [|x names IH]; cbn [Fs.first_free]; [discriminate|].
  destruct (f !! x) eqn:Hx; cbn [Fs.is_some_node].
  - intros H. destruct (IH H). split; [now right | assumption].
  - intros [= <- <-]. split; [now left | assumption].
Qed.

(** The probe of [tempfile] leaves the file system and the temporary
    names as they were. *)
Lemma gettempdir_run (s : State) :
  (exists msg, Fs.gettempdir s = (inl (FileNotFoundError msg), s)) \/
  exists s0, Fs.gettempdir s = (inr tt, s0) /\
             fs s0 = fs s /\ tmp_names s0 = tmp_names s.
Proof.
  unfold Fs.gettempdir. destruct (probe_names s) as [|p0 names].
  - right. now exists s.
  - destruct (Fs.first_free (fs s) (p0 :: names)) as [[p rest]|].
    + right. eexists. split; [reflexivity|]. now split.
    + left. now eexists.
Qed.

Lemma mkdtemp_inr (s s1 : State) (t : string) :
  Fs.mkdtemp s = (inr t, s1) ->
  In t (tmp_names s) /\ fs s1 = <[t := Dir]> (fs s).
Proof.
  unfold Fs.mkdtemp, bind.
  destruct (gettempdir_run s) as [[msg ->]|(s0 & -> & Hfs & Htn)];
    [discriminate|].
  rewrite Hfs, Htn.
  destruct (Fs.first_free (fs s) (tmp_names s)) as [[n rest]|] eqn:Hf;
    [|discriminate].
  intros [= <- <-]. split; [|reflexivity].
  now destruct (first_free_inv _ _ _ _ Hf).
Qed.

Lemma open_wb_inr (h : Host) (p : string) (s s' : State) :
  Fs.open_wb h p s = (inr tt, s') ->
  fs s' = <[p := File []]> (fs s) /\
  PyStr.nonempty (OsPath.basename (os_path h) p) = true.
Proof.
  unfold Fs.open_wb, bind, gets, raise, set_fs, log, modify. cbn [fst snd].
  destruct (PyStr.nonempty (OsPath.basename (os_path h) p)); cbn [negb];
    [|discriminate].
  destruct (Fs.is_dir_node (fs s !! p)); [discriminate|].
  destruct (negb (Fs.parent_ok h (fs s) p)); [discriminate|].
  intros [= <-]. auto.
Qed.

Lemma move_inr (h : Host) (src dst : string) (s s' : State) :
  Fs.move h src dst s = (inr tt, s') ->
  Fs.is_dir_node (fs s !! dst) = false ->
  exists c, fs s !! src = Some (File c) /\
            fs s' = <[dst := File c]> (delete src (fs s)).
Proof.
  unfold Fs.move, Fs.isdir, bind, gets, raise, ret, set_fs, log, modify.
  cbn [fst snd]. intros H Hd. rewrite Hd in H.
  destruct (fs s !! src) as [[|c]|]; try discriminate.
  destruct (Fs.parent_ok h (fs s) dst); [|discriminate].
  injection H as <-. eauto.
Qed.

Lemma rmtree_inr (h : Host) (t : string) (s s' : State) :
  Fs.rmtree h t s = (inr tt, s') ->
  fs s' = filter (fun kv => OsPath.under (os_path h) t kv.1 = false) (fs s).
Proof.
  unfold Fs.rmtree, bind, gets, raise, set_fs, log, modify. cbn [fst snd].
  destruct (fs s !! t) as [[|c]|]; try discriminate.
  now intros [= <-].
Qed.

(** One iteration of the loop of [save_response_content]. *)
Lemma stream_step (p : string) (progress : bool) (chunk : bytes)
    (s : State) (c0 : bytes) :
  fs s !! p = Some (File c0) ->
  exists s2,
    (if nonempty_bytes chunk then
       Fs.write p chunk ;;;
       when progress (emit (-1) (Z.of_nat (length chunk)))
     else ret tt) s = (inr tt, s2) /\
    fs s2 !! p = Some (File (c0 ++ chunk)) /\
    forall q, q <> p -> fs s2 !! q = fs s !! q.
Proof.
  intros Hp. destruct chunk as [|b chunk]; cbn [nonempty_bytes].
  - exists s. rewrite app_nil_r. auto.
  - unfold Fs.write, bind, gets, set_fs, log, modify. cbn [fst snd].
    rewrite Hp. destruct progress; cbn [when emit log modify ret];
      eexists; (split; [reflexivity|]); cbn [fs]; split;
      try apply lookup_insert_eq; intros q Hq; now apply lookup_insert_ne.
Qed.

(** The loop of [save_response_content] appends the body to the file. *)
Lemma stream_fs (p : string) (progress : bool) (body : list bytes) :
  forall (s : State) (c0 : bytes),
    fs s !! p = Some (File c0) ->
    let r := for_each body (fun chunk =>
               if nonempty_bytes chunk then
                 Fs.write p chunk ;;;
                 when progress (emit (-1) (Z.of_nat (length chunk)))
               else ret tt) s in
    r.1 = inr tt /\
    fs r.2 !! p = Some (File (c0 ++ concat body)) /\
    forall q, q <> p -> fs r.2 !! q = fs s !! q.
Proof.
  induction body as [|chunk body IH]; intros s c0 Hp; cbn [for_each]; cbv zeta.
  - cbn. rewrite app_nil_r. auto.
  - destruct (stream_step p progress chunk s c0 Hp) as (s2 & E2 & Hp2 & Hq2).
    rewrite (bind_ok _ _ _ _ _ E2).
    destruct (IH s2 _ Hp2) as (R1 & R2 & R3). cbv zeta in R1, R2, R3.
    split; [exact R1|]. split.
    + rewrite R2. cbn [concat]. now rewrite app_assoc.
    + intros q Hq. now rewrite (R3 q Hq), (Hq2 q Hq).
Qed.

Lemma string_length_app (a b : string) :
  String.length (a ++ b) = (String.length a + String.length b)%nat.
Proof.
  induction a as [|c a IH]; [reflexivity|].
  rewrite OsPathFacts.app_cons. cbn [String.length]. now rewrite IH.
Qed.

Lemma prefix_length (a b : string) :
  String.prefix a b = true -> (String.length a <= String.length b)%nat.
Proof.
  intros H. apply prefix_iff in H as [c ->]. rewrite string_length_app. lia.
Qed.

Lemma string_app_nil_r (a : string) : a ++ "" = a.
Proof.
  induction a as [|c a IH]; [reflexivity|].
  now rewrite OsPathFacts.app_cons, IH.
Qed.

Section Split.
Variable fl : OsPath.Flavour.
Hypothesis colon : colon_free fl.

(** The two parts of [split] are not longer than the path. *)
Lemma split_length (p : string) :
  (String.length (fst (OsPath.split fl p)) +
   String.length (snd (OsPath.split fl p)) <= String.length p)%nat.
Proof.
  unfold OsPath.split.
  pose proof (OsPathFacts.splitdrive_app fl p) as Hd.
  destruct (OsPath.splitdrive fl p) as [d rest]. cbn [fst snd] in Hd.
  pose proof (cut_last_sep_app_eq fl rest) as Hc.
  destruct (OsPath.cut_last_sep fl rest) as [hd tl]. cbn [fst snd] in Hc |- *.
  rewrite <- Hd, <- Hc, !string_length_app.
  pose proof (prefix_length _ _ (rstrip_seps_prefix fl hd)).
  destruct (PyStr.nonempty (OsPath.rstrip_seps fl hd)); lia.
Qed.

(** A path with a base name is not a prefix of its directory. *)
Lemma not_prefix_dirname (p : string) :
  PyStr.nonempty (OsPath.basename fl p) = true ->
  String.prefix p (OsPath.dirname fl p) = false.
Proof.
  intros Hb. destruct (String.prefix p (OsPath.dirname fl p)) eqn:Hp;
    [|reflexivity].
  apply prefix_length in Hp. pose proof (split_length p) as Hl.
  unfold OsPath.dirname, OsPath.basename in *.
  destruct (snd (OsPath.split fl p)); [discriminate|].
  cbn [String.length] in Hl. lia.
Qed.

Lemma splitdrive_add_sep (a : string) :
  OsPath.splitdrive fl a = ("", a) ->
  OsPath.splitdrive fl (OsPath.add_sep fl a) = ("", OsPath.add_sep fl a).
Proof.
  intros Ha.
  assert (Hsep : Ascii.eqb (OsPath.sep fl) ":" = false).
  { destruct (Ascii.eqb_spec (OsPath.sep fl) ":") as [E|]; [|reflexivity].
    pose proof (OsPathFacts.is_sep_sep fl) as Hs. rewrite E in Hs.
    unfold colon_free in colon. congruence. }
  unfold OsPath.splitdrive in *. destruct (OsPath.drives fl); [|reflexivity].
  destruct (OsPathFacts.add_sep_cases fl a) as [[E _]|[E _]]; rewrite E; clear E;
    destruct a as [|x [|y a]];
    repeat (rewrite OsPathFacts.app_cons || rewrite OsPathFacts.app_nil_l);
    rewrite ?Hsep; try reflexivity;
    destruct (Ascii.eqb y ":"); (discriminate || reflexivity).
Qed.

Lemma cut_last_sep_add_sep (p : string) :
  snd (OsPath.cut_last_sep fl (OsPath.add_sep fl p)) = "".
Proof.
  assert (Hnil : no_sep fl "" = true) by reflexivity.
  destruct (OsPathFacts.add_sep_cases fl p) as [[E [->|Hl]]|[E _]]; rewrite E.
  - reflexivity.
  - destruct (PyStr.last_char p) as [c|] eqn:El; [|discriminate].
    destruct (OsPathFacts.last_char_snoc p c El) as [q ->].
    now rewrite (OsPathFacts.cut_last_sep_app fl q c "" Hl).
  - now rewrite (OsPathFacts.cut_last_sep_app fl p _ "" (OsPathFacts.is_sep_sep fl)).
Qed.

(** Joining the empty name gives a path without a base name. *)
Lemma basename_join_empty (t : string) :
  OsPath.basename fl (OsPath.join fl t "") = "".
Proof.
  assert (Hj : OsPath.join fl t ""
               = fst (OsPath.splitdrive fl t)
                 ++ OsPath.add_sep fl (snd (OsPath.splitdrive fl t))).
  { unfold OsPath.join.
    assert (He : OsPath.splitdrive fl "" = ("", ""))
      by (unfold OsPath.splitdrive; now destruct (OsPath.drives fl)).
    rewrite He. destruct (OsPath.splitdrive fl t) as [ad ap]. cbn [fst snd].
    cbn [PyStr.first_char String.get OsPath.opt_is_sep PyStr.nonempty andb].
    now rewrite string_app_nil_r. }
  unfold OsPath.basename, OsPath.split. rewrite Hj.
  destruct (OsPath.splitdrive fl t) as [ad ap] eqn:Et. cbn [fst snd].
  assert (Hs : OsPath.splitdrive fl (ad ++ OsPath.add_sep fl ap)
               = (ad, OsPath.add_sep fl ap)).
  { destruct ad as [|x ad'].
    - pose proof (OsPathFacts.splitdrive_nodrive fl _ _ Et) as ->.
      rewrite OsPathFacts.app_nil_l. now apply splitdrive_add_sep.
    - now apply (OsPathFacts.splitdrive_drive fl t _ ap). }
  rewrite Hs. pose proof (cut_last_sep_add_sep ap) as Hc.
  destruct (OsPath.cut_last_sep fl (OsPath.add_sep fl ap)). exact Hc.
Qed.

End Split.

Lemma gets_inr {A} (f : State -> A) (s s' : State) (a : A) :
  gets f s = (inr a, s') -> a = f s /\ s' = s.
Proof. unfold gets. now intros [= <- <-]. Qed.

Lemma under_refl (fl : OsPath.Flavour) (t : string) : OsPath.under fl t t = true.
Proof. unfold OsPath.under. now rewrite String.eqb_refl. Qed.

(** What [makedirs] leaves alone: the entries that exist, and every path
    that is not a prefix of its argument. *)
Lemma makedirs_fs (h : Host) (name : string) (s : State) :
  (forall p n, fs s !! p = Some n -> fs (Fs.makedirs h name s).2 !! p = Some n) /\
  (forall p, String.prefix p name = false ->
             fs (Fs.makedirs h name s).2 !! p = fs s !! p).
Proof.
  split.
  - intros p n. apply grows_makedirs_go.
  - intros p Hp.
    pose proof (sat_makedirs (fun _ => True) (fun _ => True)
                  (fun k => String.prefix k name = true) (fun _ => True)
                  h name (fun k Hk => conj (above_prefix _ _ _ Hk) I) s)
      as Hsat.
    destruct Hsat as ((Hf & _) & _); [now apply inv_all|].
    apply Hf. congruence.
Qed.

(** A call of [save_response_content] that returns has put the whole body
    at [destination], unless [destination] was a directory or lies in the
    temporary directory. *)
Lemma save_response_content_fs (h : Host) (response : Response)
    (destination : string) (file_size : option Z) (progress : bool)
    (s s' : State) :
  save_response_content h response destination file_size progress s
    = (inr tt, s') ->
  Fs.is_dir_node (fs s !! destination) = false ->
  Forall (fun t => OsPath.under (os_path h) t destination = false) (tmp_names s) ->
  fs s' !! destination = Some (File (concat (chunks response))).
Proof.
  intros H Hdir Htmp. unfold save_response_content in H.
  apply bind_inr in H as (t & s1 & Hmk & H).
  apply mkdtemp_inr in Hmk as [Hin Hfs1].
  assert (Hunder : OsPath.under (os_path h) t destination = false).
  { rewrite Forall_forall in Htmp. apply Htmp. now apply list_elem_of_In. }
  assert (Hne : destination <> t).
  { intros ->. now rewrite under_refl in Hunder. }
  apply bind_inr in H as (ex & s1' & Hex & H).
  apply gets_inr in Hex as [-> ->].
  rewrite Hfs1, lookup_insert_eq in H. cbn [Fs.is_some_node negb when] in H.
  apply bind_inr in H as ([] & s1' & [= <-] & H).
  set (td := OsPath.join (os_path h) t (OsPath.basename (os_path h) destination)) in *.
  apply bind_inr in H as ([] & s2 & Hstart & H).
  assert (Hfs2 : fs s2 = fs s1).
  { destruct file_size as [size|]; [destruct progress|];
      cbn in Hstart; now injection Hstart as <-. }
  apply bind_inr in H as ([] & s3 & Hopen & H).
  apply open_wb_inr in Hopen as [Hfs3 Hbase].
  assert (Hbd : PyStr.nonempty (OsPath.basename (os_path h) destination) = true).
  { destruct (OsPath.basename (os_path h) destination) eqn:Eb; [|reflexivity].
    unfold td in Hbase.
    now rewrite (basename_join_empty _ (os_path_colon_free h)) in Hbase. }
  apply bind_inr in H as ([] & s4 & Hloop & H).
  assert (Htd3 : fs s3 !! td = Some (File [])).
  { rewrite Hfs3. apply lookup_insert_eq. }
  destruct (stream_fs td progress (chunks response) s3 [] Htd3) as (_ & Hc4 & Ho4).
  rewrite Hloop in Hc4, Ho4. cbn [snd app] in Hc4, Ho4.
  apply bind_inr in H as ([] & s5 & Hbroken & H).
  assert (s5 = s4) as ->.
  { destruct (broken response); cbn in Hbroken; [discriminate|].
    now injection Hbroken. }
  apply bind_inr in H as (ex' & s5 & Hex' & H).
  apply gets_inr in Hex' as [-> ->].
  apply bind_inr in H as ([] & s6 & Hmd & H).
  set (ddir := OsPath.dirname (os_path h) destination) in *.
  assert (Hs6 : (forall p n, fs s4 !! p = Some n -> fs s6 !! p = Some n) /\
                (forall p, String.prefix p ddir = false ->
                           fs s6 !! p = fs s4 !! p)).
  { destruct (Fs.is_some_node (fs s4 !! ddir)); cbn [negb when] in Hmd.
    - injection Hmd as <-. auto.
    - pose proof (makedirs_fs h ddir s4) as Hm. now rewrite Hmd in Hm. }
  destruct Hs6 as [Hgrow Hframe].
  assert (Hnd : Fs.is_dir_node (fs s6 !! destination) = false).
  { destruct (decide (destination = td)) as [Heq|Hntd].
    - now rewrite Heq, (Hgrow _ _ Hc4).
    - rewrite Hframe by (now apply not_prefix_dirname).
      rewrite (Ho4 _ Hntd), Hfs3, lookup_insert_ne, Hfs2, Hfs1, lookup_insert_ne
        by congruence.
      exact Hdir. }
  apply bind_inr in H as ([] & s7 & Hmove & H).
  apply (move_inr h) in Hmove as (c & Hsrc & Hfs7); [|exact Hnd].
  rewrite (Hgrow _ _ Hc4) in Hsrc. injection Hsrc as <-.
  apply rmtree_inr in H. rewrite H.
  rewrite lookup_filter_keep by (intros; exact Hunder).
  rewrite Hfs7. apply lookup_insert_eq.
Qed.

(** ** C8: what the progress sink receives *)

Lemma progress_view_app (a b : list Event) :
  progress_view (a ++ b) = (progress_view a ++ progress_view b)%list.
Proof.
  induction a as [|e a IH]; [reflexivity|].
  destruct e; cbn; now rewrite ?IH.
Qed.

Lemma emits_ret {A} (a : A) : emits (ret a) [].
Proof.
  intros s. exists []. cbn. rewrite app_nil_r. repeat split; eauto.
Qed.

Lemma emits_raise {A} (e : Exn) : emits (@raise A e) [].
Proof.
  intros s. exists []. cbn. rewrite app_nil_r. repeat split; eauto.
Qed.

Lemma emits_bind {A B} (m : M A) (k : A -> M B) (f1 f2 : list Progress) :
  emits m f1 -> (forall a, emits (k a) f2) -> emits (bind m k) (f1 ++ f2)%list.
Proof.
  intros Hm Hk s. unfold bind.
  destruct (Hm s) as (e1 & T1 & [r1 P1] & S1).
  destruct (m s) as [[e|a] s1]; cbn [fst snd] in *.
  - exists e1. split; [exact T1|]. split; [|discriminate].
    exists (r1 ++ f2)%list. now rewrite P1, <- app_assoc.
  - destruct (Hk a s1) as (e2 & T2 & [r2 P2] & S2).
    exists (e1 ++ e2)%list. rewrite T2, T1, <- app_assoc. split; [reflexivity|].
    rewrite progress_view_app, (S1 a eq_refl). split.
    + exists r2. now rewrite P2, <- app_assoc.
    + intros b Hb. now rewrite (S2 b Hb).
Qed.

Lemma emits_seq_silent_l {A B} (m : M A) (k : A -> M B) (f : list Progress) :
  emits m [] -> (forall a, emits (k a) f) -> emits (bind m k) f.
Proof. intros Hm Hk. exact (emits_bind m k [] f Hm Hk). Qed.

Lemma emits_seq_silent_r {A B} (m : M A) (k : A -> M B) (f : list Progress) :
  emits m f -> (forall a, emits (k a) []) -> emits (bind m k) f.
Proof.
  intros Hm Hk. rewrite <- (app_nil_r f). exact (emits_bind m k f [] Hm Hk).
Qed.

(** A computation whose events are neither emissions nor writes. *)
Lemma sat_emits {A} (m : M A) (Q : A -> Prop) :
  sat (fun _ => True) (fun _ => True) (fun _ => True)
      (fun e => progress_view [e] = []) m Q ->
  emits m [].
Proof.
  intros Hm s.
  destruct (Hm s) as ((_ & evs & T & He) & _); [now apply inv_all|].
  exists evs. split; [exact T|].
  assert (Hv : progress_view evs = []).
  { clear T. induction He as [|e evs He _ IH]; [reflexivity|].
    cbv beta in He. destruct e; cbn in *; congruence. }
  rewrite Hv. split; [now exists [] | reflexivity].
Qed.

Lemma emits_log (e : Event) : emits (log e) (progress_view [e]).
Proof.
  intros s. exists [e]. cbn [log modify fst snd trace]. split; [reflexivity|].
  split; [exists []; now rewrite app_nil_r | reflexivity].
Qed.

Lemma emits_write (p : string) (c : bytes) : emits (Fs.write p c) [Wrote c].
Proof.
  intros s. unfold Fs.write, bind, gets, set_fs, log, modify, raise.
  cbn [fst snd]. destruct (fs s !! p) as [[|c0]|]; cbn [fst snd trace].
  - exists []. rewrite app_nil_r. split; [reflexivity|].
    split; [now exists [Wrote c] | discriminate].
  - exists [EvWrite p c]. split; [reflexivity|].
    split; [now exists [] | reflexivity].
  - exists []. rewrite app_nil_r. split; [reflexivity|].
    split; [now exists [Wrote c] | discriminate].
Qed.

Lemma emits_stream (p : string) (progress : bool) (body : list bytes) :
  emits (for_each body (fun chunk =>
           if nonempty_bytes chunk then
             Fs.write p chunk ;;;
             when progress (emit (-1) (Z.of_nat (length chunk)))
           else ret tt))
        (stream_progress progress body).
Proof.
  induction body as [|chunk body IH]; cbn [for_each stream_progress flat_map].
  - apply emits_ret.
  - apply emits_bind; [|intros _; exact IH].
    unfold chunk_progress. destruct (nonempty_bytes chunk); [|apply emits_ret].
    change (Wrote chunk :: ?l) with ([Wrote chunk] ++ l)%list.
    apply emits_bind; [apply emits_write|]. intros _.
    destruct progress; [apply emits_log | apply emits_ret].
Qed.

Lemma silent_mkdir (e : Event) p : e = EvMkdir p -> progress_view [e] = [].
Proof. now intros ->. Qed.

Lemma save_response_content_emits (h : Host) (response : Response)
    (destination : string) (file_size : option Z) (progress : bool) :
  emits (save_response_content h response destination file_size progress)
        (start_progress file_size progress ++
         stream_progress progress (chunks response))%list.
Proof.
  unfold save_response_content.
  pose (TP := fun _ : string => True). pose (PP := fun _ : string => True).
  pose (ok := fun _ : string => True).
  pose (E := fun e => progress_view [e] = []).
  apply emits_seq_silent_l.
  { apply (sat_emits _ (fun _ => True)). now apply (sat_mkdtemp _ _ _ _ h). }
  intros t. apply emits_seq_silent_l.
  { apply (sat_emits _ (fun _ => True)), sat_exists. }
  intros ex. apply emits_seq_silent_l.
  { apply (sat_emits _ (fun _ => True)), sat_when. now apply sat_mkdir. }
  intros _. apply emits_bind.
  { unfold start_progress. destruct file_size as [size|]; [|apply emits_ret].
    destruct progress; [apply emits_log | apply emits_ret]. }
  intros _. apply emits_seq_silent_l.
  { apply (sat_emits _ (fun _ => True)). now apply sat_open_wb. }
  intros _. apply emits_seq_silent_r; [apply emits_stream|].
  intros _. apply (sat_emits _ (fun _ => True)).
  apply sat_seq; [apply sat_when, sat_raise|].
  apply (sat_bind _ _ _ _ _ _ (fun _ => True)); [apply sat_exists|]. intros ex' _.
  apply sat_seq; [apply sat_when; now apply sat_makedirs|].
  apply sat_seq; [now apply sat_move|].
  now apply sat_rmtree.
Qed.

(** ** C3, C7: instances *)


Lemma download_from_gdrive_requests_witness :
  requests (trace (download_from_gdrive host_linux "1Fz8" "/home/u/java.zip"
                     (Some 5) true state_fresh).2)
  = [("1Fz8", None); ("1Fz8", Some "t0k3n")].
Proof.
  refine (proj2 (proj1 (download_from_gdrive_requests host_linux "1Fz8"
            "/home/u/java.zip" (Some 5) true state_fresh
            {| cookies := [("NID", "511"); ("download_warning_13058", "t0k3n")];
               chunks := [[Byte.x3c]]; broken := false |} _)
            "t0k3n" archive_response _ _ _)).
  - reflexivity.
  - reflexivity.
  - discriminate.
  - reflexivity.
Defined.

(** ** C6: statement *)

(** The response whose body [download_from_gdrive] saves is one the server
    sent for the id. *)
Lemma download_from_gdrive_saves (h : Host) (id destination : string)
    (file_size : option Z) (progress : bool) (s s' : State) :
  download_from_gdrive h id destination file_size progress s = (inr tt, s') ->
  exists response confirm evs,
    server h id confirm = Some response /\
    save_response_content h response destination file_size progress
      (add_events s evs) = (inr tt, s').
Proof.
  intros H. unfold download_from_gdrive in H.
  apply bind_inr in H as (r1 & s1 & H1 & H).
  unfold session_get in H1. apply bind_inr in H1 as ([] & s0 & Hlog & H1).
  injection Hlog as <-.
  destruct (server h id None) as [r1'|] eqn:Hs1; [|discriminate].
  injection H1 as -> <-.
  apply bind_inr in H as (r2 & s2 & H2 & H).
  destruct (get_confirm_token r1) as [[|c token]|];
    cbn [PyStr.nonempty] in H2.
  - injection H2 as <- <-. now exists r1, None, [EvGet id None].
  - unfold session_get in H2. apply bind_inr in H2 as ([] & s3 & Hlog & H2).
    injection Hlog as <-.
    destruct (server h id (Some (String c token))) as [r2'|] eqn:Hs2;
      [|discriminate].
    injection H2 as -> <-.
    exists r2, (Some (String c token)),
      [EvGet id None; EvGet id (Some (String c token))].
    split; [exact Hs2|]. unfold add_events. cbn [fs tmp_names trace].
    now rewrite <- app_assoc in H.
  - injection H2 as <- <-. now exists r1, None, [EvGet id None].
Qed.

(** C6, as stated, fails: when the destination is an existing directory,
    the call returns, the destination is still that directory, and the
    body is in a file inside it.  (A destination inside the directory that
    [mkdtemp] creates is removed with that directory at the end of the
    call.) *)
Lemma save_response_content_into_directory :
  let r := save_response_content host_linux example_response "/home/u"
             None false state_fresh in
  let r' := save_response_content host_linux example_response
              "/tmp/tmpk3x9/java.zip" None false state_fresh in
  fs state_fresh !! "/home/u" = Some Dir /\
  r.1 = inr tt /\
  fs r.2 !! "/home/u" = Some Dir /\
  fs r.2 !! "/home/u" <> Some (File (concat (chunks example_response))) /\
  fs r.2 !! "/home/u/u" = Some (File (concat (chunks example_response))) /\
  r'.1 = inr tt /\
  fs r'.2 !! "/tmp/tmpk3x9/java.zip" = None.
Proof.
  cbv zeta.
  split; [vm_compute; reflexivity|].
  split; [vm_compute; reflexivity|].
  split; [vm_compute; reflexivity|].
  split; [vm_compute; discriminate|].
  split; [vm_compute; reflexivity|].
  split; vm_compute; reflexivity.
Qed.

(** C6, amended: a call of [save_response_content], or of
    [download_from_gdrive], that returns leaves at the destination a file
    that holds exactly the bytes of the body of the response, and whose
    length is the sum of the lengths of the chunks, when the destination
    was not an existing directory and does not lie in a directory that
    [mkdtemp] may create. *)
Theorem retrieve_writes_body (h : Host) (destination : string)
    (file_size : option Z) (progress : bool) (s s' : State) :
  Fs.is_dir_node (fs s !! destination) = false ->
  Forall (fun t => OsPath.under (os_path h) t destination = false) (tmp_names s) ->
  (forall response,
      save_response_content h response destination file_size progress s
        = (inr tt, s') ->
      fs s' !! destination = Some (File (concat (chunks response))) /\
      length (concat (chunks response))
        = list_sum (List.map (@length Byte.byte) (chunks response))) /\
  (forall id,
      download_from_gdrive h id destination file_size progress s
        = (inr tt, s') ->
      exists response confirm,
        server h id confirm = Some response /\
        fs s' !! destination = Some (File (concat (chunks response))) /\
        length (concat (chunks response))
          = list_sum (List.map (@length Byte.byte) (chunks response))).
Proof.
  intros Hdir Htmp. split.
  - intros response H. split; [|apply length_concat].
    exact (save_response_content_fs h response destination file_size progress
             s s' H Hdir Htmp).
  - intros id H.
    destruct (download_from_gdrive_saves h id destination file_size progress
                s s' H) as (response & confirm & evs & Hserver & Hsave).
    exists response, confirm. split; [exact Hserver|].
    split; [|apply length_concat].
    exact (save_response_content_fs h response destination file_size progress
             (add_events s evs) s' Hsave Hdir Htmp).
Qed.

Lemma retrieve_writes_body_witness :
  fs (save_response_content host_linux example_response "/home/u/java.zip"
        (Some 5) true state_fresh).2 !! "/home/u/java.zip"
  = Some (File (concat (chunks example_response))).
Proof.
  refine (proj1 (proj1 (retrieve_writes_body host_linux "/home/u/java.zip"
            (Some 5) true state_fresh _ _ _) example_response _)).
  - vm_compute. reflexivity.
  - repeat constructor.
  - vm_compute. reflexivity.
Defined.

(** ** C8: statement *)

(** C8, as stated, fails: with a progress sink and no expected size (the
    default of the function), the call returns and the sink has received
    one emission per non-empty chunk but none of the form (size, -1). *)
Lemma save_response_content_no_start_emission :
  let r := save_response_content host_linux example_response "/home/u/java.zip"
             None true state_fresh in
  r.1 = inr tt /\
  progress_view (trace r.2)
  = [Wrote [Byte.x50; Byte.x4b]; Emitted (-1) 2;
     Wrote [Byte.x03; Byte.x04; Byte.x14]; Emitted (-1) 3] /\
  forall size, ~ In (Emitted size (-1)) (progress_view (trace r.2)).
Proof.
  cbv zeta. split; [reflexivity|]. split; [reflexivity|].
  intros size Hin. vm_compute in Hin.
  repeat (destruct Hin as [Hin|Hin]; [discriminate|]). exact Hin.
Qed.

(** C8, amended: when a progress sink is supplied, what the sink receives
    and what is written, in order, is: the emission (size, -1), once and
    first, when an expected size is given, and nothing when it is [None];
    then, for each non-empty chunk of the body, the chunk written followed
    by the emission (-1, length of the chunk); nothing else.  A call that
    fails stops somewhere in this sequence.  Without a sink there is no
    emission. *)
Theorem save_response_content_progress (h : Host) (response : Response)
    (destination : string) (file_size : option Z) :
  emits (save_response_content h response destination file_size true)
        ((match file_size with
          | Some size => [Emitted size (-1)]
          | None => []
          end) ++
         flat_map (fun chunk =>
                     if nonempty_bytes chunk
                     then [Wrote chunk; Emitted (-1) (Z.of_nat (length chunk))]
                     else [])
                  (chunks response))%list /\
  emits (save_response_content h response destination file_size false)
        (flat_map (fun chunk => if nonempty_bytes chunk then [Wrote chunk] else [])
                  (chunks response)).
Proof.
  split.
  - exact (save_response_content_emits h response destination file_size true).
  - pose proof (save_response_content_emits h response destination file_size false)
      as H.
    unfold start_progress in H. now destruct file_size.
Qed.

(** ** Relative names and the names of zip members *)

Section Relative.
Variable fl : OsPath.Flavour.

Lemma join_relative (a n : string) :
  relative fl n ->
  OsPath.join fl a n
  = fst (OsPath.splitdrive fl a)
    ++ OsPath.add_sep fl (snd (OsPath.splitdrive fl a)) ++ n.
Proof.
  intros [Hf Hs]. unfold OsPath.join. rewrite Hs.
  destruct (OsPath.splitdrive fl a) as [ad ap]. cbn [fst snd].
  rewrite Hf. reflexivity.
Qed.

Lemma add_sep_prefix (p : string) :
  String.prefix p (OsPath.add_sep fl p) = true.
Proof.
  destruct (OsPathFacts.add_sep_cases fl p) as [[-> _]|[-> _]].
  - apply prefix_refl.
  - apply PyStrFacts.prefix_app.
Qed.

(** A path is a prefix of what a relative name is joined to. *)
Lemma join_prefix (a n : string) :
  relative fl n -> String.prefix a (OsPath.join fl a n) = true.
Proof.
  intros Hn. rewrite (join_relative a n Hn).
  pose proof (OsPathFacts.splitdrive_app fl a) as Ha.
  destruct (OsPath.splitdrive fl a) as [ad ap]. cbn [fst snd] in *.
  rewrite <- Ha at 1. apply prefix_app_l, prefix_app_r, add_sep_prefix.
Qed.

Lemma string_forall_app (P : ascii -> bool) (a b : string) :
  string_forall P (a ++ b) = string_forall P a && string_forall P b.
Proof.
  induction a as [|c a IH]; [reflexivity|].
  rewrite OsPathFacts.app_cons. cbn [string_forall].
  now rewrite IH, andb_assoc.
Qed.

Lemma string_forall_and (P Q : ascii -> bool) (s : string) :
  string_forall P s = true -> string_forall Q s = true ->
  string_forall (fun c => P c && Q c) s = true.
Proof.
  induction s as [|c s IH]; [reflexivity|]. cbn [string_forall].
  intros HP HQ. apply andb_prop in HP as [-> HP], HQ as [-> HQ].
  now rewrite IH.
Qed.

(** A string without a colon has no drive. *)
Lemma splitdrive_no_colon (s : string) :
  string_forall (fun x => negb (Ascii.eqb x ":")) s = true ->
  OsPath.splitdrive fl s = ("", s).
Proof.
  intros H. unfold OsPath.splitdrive. destruct (OsPath.drives fl); [|reflexivity].
  destruct s as [|c [|d s]]; try reflexivity.
  cbn [string_forall] in H. apply andb_prop in H as [_ H].
  apply andb_prop in H as [H _]. now destruct (Ascii.eqb d ":").
Qed.

Lemma splitdrive_forall (P : ascii -> bool) (s : string) :
  string_forall P s = true ->
  string_forall P (snd (OsPath.splitdrive fl s)) = true.
Proof.
  intros H. unfold OsPath.splitdrive. destruct (OsPath.drives fl); [|exact H].
  destruct s as [|c [|d s]]; try exact H.
  destruct (Ascii.eqb d ":"); [|exact H].
  cbn [snd]. cbn [string_forall] in H.
  apply andb_prop in H as [_ H]. now apply andb_prop in H as [_ H].
Qed.

End Relative.

Lemma plain_relative (fl : OsPath.Flavour) (n : string) :
  plain fl n = true -> relative fl n.
Proof.
  intros H. split.
  - destruct (OsPathFacts.plain_first fl n H) as (c & n' & -> & Hc & _).
    exact Hc.
  - now apply OsPathFacts.splitdrive_plain.
Qed.

Section ZipNames.
Import Zip PyStr.

Lemma split_on_forall (P : ascii -> bool) (c : ascii) (s : string) :
  string_forall P s = true ->
  Forall (fun p => string_forall P p = true) (split_on c s).
Proof.
  induction s as [|x s IH]; cbn [split_on string_forall].
  - intros _. now repeat constructor.
  - intros H. apply andb_prop in H as [Hx Hs]. specialize (IH Hs).
    destruct (Ascii.eqb x c); [now constructor|].
    destruct (split_on c s) as [|p ps]; [now repeat constructor; cbn; rewrite Hx|].
    inversion IH; subst. constructor; [|assumption].
    cbn [string_forall]. now rewrite Hx.
Qed.

Lemma split_on_no_sep (c : ascii) (s : string) :
  Forall (fun p => string_forall (fun x => negb (Ascii.eqb x c)) p = true)
         (split_on c s).
Proof.
  induction s as [|x s IH]; cbn [split_on].
  - now repeat constructor.
  - destruct (Ascii.eqb x c) eqn:Hx; [now constructor|].
    destruct (split_on c s) as [|p ps].
    + repeat constructor. cbn. now rewrite Hx.
    + inversion IH; subst. constructor; [|assumption].
      cbn [string_forall]. now rewrite Hx.
Qed.

Lemma join_with_forall (P : ascii -> bool) (c : ascii) (parts : list string) :
  P c = true ->
  Forall (fun p => string_forall P p = true) parts ->
  string_forall P (join_with c parts) = true.
Proof.
  intros Hc. induction 1 as [|p ps Hp Hps IH]; [reflexivity|].
  cbn [join_with]. destruct ps as [|q ps]; [exact Hp|].
  rewrite string_forall_app, Hp. cbn [string_forall andb]. now rewrite Hc.
Qed.

Lemma join_with_first (Q : ascii -> bool) (c : ascii) (parts : list string) :
  Forall (fun p => PyStr.nonempty p = true /\ string_forall Q p = true) parts ->
  match PyStr.first_char (join_with c parts) with
  | Some x => Q x = true
  | None => True
  end.
Proof.
  intros H. destruct H as [|p ps [Hn Hp] Hps]; [exact I|].
  cbn [join_with]. destruct p as [|x p]; [discriminate|].
  cbn [string_forall] in Hp. apply andb_prop in Hp as [Hx _].
  destruct ps; [exact Hx|]. rewrite OsPathFacts.app_cons. exact Hx.
Qed.

Lemma rstrip_dots_forall (P : ascii -> bool) (s : string) :
  string_forall P s = true -> string_forall P (rstrip_dots s) = true.
Proof.
  induction s as [|c s IH]; [reflexivity|]. cbn [string_forall rstrip_dots].
  intros H. apply andb_prop in H as [Hc Hs].
  destruct (negb (PyStr.nonempty (rstrip_dots s)) && Ascii.eqb c ".");
    [reflexivity|].
  cbn [string_forall]. now rewrite Hc, IH.
Qed.

Lemma replace_char_forall (P : ascii -> bool) (a b : ascii) (s : string) :
  P b = true ->
  (forall x, Ascii.eqb x a = false -> P x = true) ->
  string_forall P (replace_char a b s) = true.
Proof.
  intros Hb Hx. induction s as [|c s IH]; [reflexivity|].
  cbn [replace_char string_forall]. rewrite IH, andb_true_r.
  destruct (Ascii.eqb c a) eqn:Hc; [exact Hb | now apply Hx].
Qed.

Lemma replace_char_keeps (P : ascii -> bool) (a b : ascii) (s : string) :
  P b = true -> string_forall P s = true ->
  string_forall P (replace_char a b s) = true.
Proof.
  intros Hb. induction s as [|c s IH]; [reflexivity|].
  cbn [replace_char string_forall]. intros H.
  apply andb_prop in H as [Hc Hs]. rewrite (IH Hs), andb_true_r.
  now destruct (Ascii.eqb c a).
Qed.

Lemma translate_illegal_no_colon (s : string) :
  string_forall (fun x => negb (Ascii.eqb x ":")) (translate_illegal s) = true.
Proof.
  induction s as [|c s IH]; [reflexivity|].
  cbn [translate_illegal string_forall]. rewrite IH, andb_true_r.
  destruct (windows_illegal c) eqn:Hc; [reflexivity|].
  destruct (Ascii.eqb_spec c ":") as [->|]; [discriminate | reflexivity].
Qed.

Lemma translate_illegal_keeps (P : ascii -> bool) (s : string) :
  P "_"%char = true -> string_forall P s = true ->
  string_forall P (translate_illegal s) = true.
Proof.
  intros Hu. induction s as [|c s IH]; [reflexivity|].
  cbn [translate_illegal string_forall]. intros H.
  apply andb_prop in H as [Hc Hs]. rewrite (IH Hs), andb_true_r.
  now destruct (windows_illegal c).
Qed.

Lemma Forall_filter_keep {A} (P : A -> Prop) (f : A -> bool) (l : list A) :
  Forall P l -> Forall P (List.filter f l).
Proof.
  induction 1 as [|x l Hx Hl IH]; cbn [List.filter]; [constructor|].
  destruct (f x); [now constructor | assumption].
Qed.

Lemma Forall_filter_true {A} (f : A -> bool) (l : list A) :
  Forall (fun x => f x = true) (List.filter f l).
Proof.
  induction l as [|x l IH]; cbn [List.filter]; [constructor|].
  destruct (f x) eqn:Hx; [now constructor | assumption].
Qed.

Lemma Forall_weaken {A} (P Q : A -> Prop) (l : list A) :
  (forall x, P x -> Q x) -> Forall P l -> Forall Q l.
Proof. intros HPQ. induction 1; constructor; auto. Qed.

Lemma Forall_and {A} (P Q : A -> Prop) (l : list A) :
  Forall P l -> Forall Q l -> Forall (fun x => P x /\ Q x) l.
Proof. induction 1; intros HQ; inversion HQ; subst; constructor; auto. Qed.

Lemma Forall_map_rstrip (P : ascii -> bool) (l : list string) :
  Forall (fun p => string_forall P p = true) l ->
  Forall (fun p => string_forall P p = true) (List.map rstrip_dots l).
Proof.
  induction 1; cbn [List.map]; constructor; auto using rstrip_dots_forall.
Qed.

Lemma invalid_nonempty (x : string) :
  negb (invalid_path_part x) = true -> PyStr.nonempty x = true.
Proof. now destruct x. Qed.

(** The name under which a member is extracted is relative: it does not
    start with a separator and has no drive. *)
Lemma arcname_relative_posix (name : string) :
  relative OsPath.posixpath (arcname OsPath.posixpath name).
Proof.
  split; [|reflexivity].
  unfold arcname. cbn [OsPath.sep OsPath.altsep OsPath.posixpath].
  change (Ascii.eqb "/" "\") with false. cbv iota.
  change (snd (OsPath.splitdrive OsPath.posixpath ?a)) with a.
  set (parts := List.filter _ _).
  assert (H : Forall (fun p => PyStr.nonempty p = true /\
                string_forall (fun x => negb (OsPath.is_sep OsPath.posixpath x)) p
                = true) parts).
  { apply Forall_and.
    - apply (Forall_weaken _ _ _ invalid_nonempty), Forall_filter_true.
    - apply Forall_filter_keep.
      refine (Forall_weaken _ _ _ _ (split_on_no_sep "/" _)).
      intros p. apply OsPathFacts.string_forall_impl. intros c Hc.
      unfold OsPath.is_sep. cbn [OsPath.sep OsPath.altsep OsPath.posixpath].
      now rewrite orb_false_r. }
  pose proof (join_with_first _ "/"%char parts H) as Hf.
  destruct (PyStr.first_char (join_with "/" parts)) as [x|]; [|reflexivity].
  cbn [OsPath.opt_is_sep]. now destruct (OsPath.is_sep OsPath.posixpath x).
Qed.

Lemma arcname_relative_nt (name : string) :
  relative OsPath.ntpath (arcname OsPath.ntpath name).
Proof.
  unfold arcname. cbn [OsPath.sep OsPath.altsep OsPath.ntpath].
  change (Ascii.eqb "\" "\") with true. cbv iota.
  set (a2 := replace_char "/" "\" (replace_char "/" "\" name)).
  set (arc0 := join_with "\" _).
  unfold sanitize_windows_name.
  set (T := translate_illegal arc0).
  set (parts := List.filter PyStr.nonempty _).
  pose (Pslash := fun x => negb (Ascii.eqb x "/")).
  pose (Pcolon := fun x => negb (Ascii.eqb x ":")).
  pose (Pbs := fun x => negb (Ascii.eqb x "\")).
  assert (Ha2 : string_forall Pslash a2 = true).
  { apply replace_char_keeps; [reflexivity|].
    apply replace_char_forall; [reflexivity|]. intros x Hx. unfold Pslash.
    now rewrite Hx. }
  assert (Harc0 : string_forall Pslash arc0 = true).
  { apply join_with_forall; [reflexivity|]. apply Forall_filter_keep.
    apply split_on_forall. now apply splitdrive_forall. }
  assert (HT1 : string_forall Pslash T = true)
    by now apply translate_illegal_keeps.
  assert (HT2 : string_forall Pcolon T = true)
    by apply translate_illegal_no_colon.
  assert (Hp1 : Forall (fun p => string_forall Pslash p = true) parts)
    by now apply Forall_filter_keep, Forall_map_rstrip, split_on_forall.
  assert (Hp2 : Forall (fun p => string_forall Pcolon p = true) parts)
    by now apply Forall_filter_keep, Forall_map_rstrip, split_on_forall.
  assert (Hp3 : Forall (fun p => string_forall Pbs p = true) parts)
    by apply Forall_filter_keep, Forall_map_rstrip, split_on_no_sep.
  assert (Hp4 : Forall (fun p => PyStr.nonempty p = true) parts)
    by apply Forall_filter_true.
  split.
  - assert (H : Forall (fun p => PyStr.nonempty p = true /\
                  string_forall (fun x => negb (OsPath.is_sep OsPath.ntpath x)) p
                  = true) parts).
    { apply Forall_and; [exact Hp4|].
      refine (Forall_weaken _ _ _ _ (Forall_and _ _ _ Hp3 Hp1)).
      intros p [H3 H1].
      refine (OsPathFacts.string_forall_impl _ _ _ _
                (string_forall_and _ _ _ H3 H1)).
      intros c Hc. unfold OsPath.is_sep.
      cbn [OsPath.sep OsPath.altsep OsPath.ntpath].
      unfold Pbs, Pslash in Hc. now rewrite negb_orb. }
    pose proof (join_with_first _ "\"%char parts H) as Hf.
    destruct (PyStr.first_char (join_with "\" parts)) as [x|]; [|reflexivity].
    cbn [OsPath.opt_is_sep]. now destruct (OsPath.is_sep OsPath.ntpath x).
  - apply splitdrive_no_colon. now apply join_with_forall.
Qed.

End ZipNames.

Lemma arcname_relative (h : Host) (name : string) :
  relative (os_path h) (Zip.arcname (os_path h) name).
Proof.
  unfold os_path. destruct (is_win h);
    [apply arcname_relative_nt | apply arcname_relative_posix].
Qed.

(** ** [normpath] *)

Module NormFacts.
Import PyStr OsPath.

Lemma split_on_cons (c : ascii) (s : string) :
  exists p ps, split_on c s = p :: ps.
Proof.
  destruct s as [|x s]; cbn [split_on]; [eauto|].
  destruct (Ascii.eqb x c); [eauto|].
  destruct (split_on c s); eauto.
Qed.

Lemma split_on_app_sep (c : ascii) (a b : string) :
  split_on c (a ++ String c b) = (split_on c a ++ split_on c b)%list.
Proof.
  induction a as [|x a IH].
  - rewrite OsPathFacts.app_nil_l. cbn [split_on]. now rewrite Ascii.eqb_refl.
  - rewrite OsPathFacts.app_cons. cbn [split_on]. rewrite IH.
    destruct (Ascii.eqb x c); [reflexivity|].
    destruct (split_on_cons c a) as (p & ps & ->). reflexivity.
Qed.

Lemma split_on_single (c : ascii) (s : string) :
  string_forall (fun x => negb (Ascii.eqb x c)) s = true ->
  split_on c s = [s].
Proof.
  induction s as [|x s IH]; [reflexivity|].
  cbn [string_forall split_on]. intros H. apply andb_prop in H as [Hx Hs].
  rewrite (IH Hs). now destruct (Ascii.eqb x c).
Qed.

Lemma join_with_cons (c : ascii) (p : string) (ps : list string) :
  ps <> [] -> join_with c (p :: ps) = p ++ String c (join_with c ps).
Proof. destruct ps; [contradiction | reflexivity]. Qed.

Lemma join_with_app (c : ascii) (xs ys : list string) :
  xs <> [] -> ys <> [] ->
  join_with c (xs ++ ys) = join_with c xs ++ String c (join_with c ys).
Proof.
  intros Hx Hy. induction xs as [|x xs IH]; [contradiction|].
  destruct xs as [|x' xs].
  - cbn [app]. now rewrite join_with_cons.
  - change ((x :: x' :: xs) ++ ys)%list with (x :: ((x' :: xs) ++ ys))%list.
    rewrite join_with_cons by discriminate.
    rewrite IH by discriminate.
    rewrite (join_with_cons c x (x' :: xs)) by discriminate.
    now rewrite <- !OsPathFacts.app_assoc, OsPathFacts.app_cons.
Qed.

Lemma split_on_join (c : ascii) (comps : list string) :
  Forall (fun p => string_forall (fun x => negb (Ascii.eqb x c)) p = true) comps ->
  comps <> [] ->
  split_on c (join_with c comps) = comps.
Proof.
  intros H Hne. induction H as [|p ps Hp Hps IH]; [contradiction|].
  destruct ps as [|p' ps].
  - cbn [join_with]. now apply split_on_single.
  - rewrite join_with_cons by discriminate.
    rewrite split_on_app_sep, (split_on_single c p Hp), IH by discriminate.
    reflexivity.
Qed.

Section WithFlavour.
Variable fl : Flavour.
Hypothesis colon : colon_free fl.

Local Abbreviation c := (sep fl).

Lemma component_no_c (p : string) :
  component fl p -> string_forall (fun x => negb (Ascii.eqb x c)) p = true.
Proof.
  intros (_ & _ & _ & H). revert H. unfold no_sep.
  apply OsPathFacts.string_forall_impl. intros x Hx.
  unfold is_sep in Hx. now destruct (Ascii.eqb x (sep fl)).
Qed.

Lemma norm_step_component (r : bool) (st : list string) (p : string) :
  component fl p -> norm_step r st p = p :: st.
Proof.
  intros (Hn & Hd & Hdd & _). unfold norm_step.
  destruct (String.eqb_spec p ""); [subst; discriminate|].
  destruct (String.eqb_spec p "."); [contradiction|].
  destruct (String.eqb_spec p ".."); [contradiction|]. reflexivity.
Qed.

Lemma fold_components (r : bool) (ds st : list string) :
  Forall (component fl) ds ->
  fold_left (norm_step r) ds st = (rev ds ++ st)%list.
Proof.
  intros H. revert st. induction H as [|p ps Hp Hps IH]; intros st.
  - reflexivity.
  - cbn [fold_left rev]. rewrite (norm_step_component r st p Hp), IH.
    now rewrite <- app_assoc.
Qed.

(** The loop of [normpath] over the components of a joined name. *)
Lemma fold_split_join (r : bool) (comps st : list string) :
  Forall (component fl) comps ->
  fold_left (norm_step r) (split_on c (join_with c comps)) st
  = (rev comps ++ st)%list.
Proof.
  intros H. destruct comps as [|p ps].
  - reflexivity.
  - rewrite split_on_join; [now apply fold_components| |discriminate].
    revert H. apply Forall_weaken. apply component_no_c.
Qed.


Hypothesis posix_no_alt : drives fl = false -> altsep fl = None.

Lemma is_sep_c : is_sep fl c = true.
Proof. unfold is_sep. now rewrite Ascii.eqb_refl. Qed.

Lemma no_alt_is_sep (x : ascii) :
  negb (is_sep fl x) || Ascii.eqb x c = true ->
  is_sep fl x = Ascii.eqb x c.
Proof.
  intros H. destruct (Ascii.eqb_spec x c) as [E|Hx].
  - rewrite E. apply is_sep_c.
  - rewrite orb_false_r in H. now apply negb_true_iff in H.
Qed.

Lemma to_sep_id (s : string) : no_alt fl s = true -> to_sep fl s = s.
Proof.
  unfold no_alt. induction s as [|x s IH]; [reflexivity|].
  cbn [string_forall to_sep]. intros H. apply andb_prop in H as [Hx Hs].
  rewrite (IH Hs). rewrite (no_alt_is_sep x Hx).
  destruct (Ascii.eqb_spec x c) as [E|]; [now rewrite E | reflexivity].
Qed.

Lemma no_alt_to_sep (s : string) : no_alt fl (to_sep fl s) = true.
Proof.
  unfold no_alt. induction s as [|x s IH]; [reflexivity|].
  cbn [string_forall to_sep]. rewrite IH, andb_true_r.
  destruct (is_sep fl x) eqn:Hx.
  - now rewrite Ascii.eqb_refl, orb_true_r.
  - now rewrite Hx.
Qed.

Lemma no_alt_posix (s : string) : drives fl = false -> no_alt fl s = true.
Proof.
  intros Hd. unfold no_alt. induction s as [|x s IH]; [reflexivity|].
  cbn [string_forall]. rewrite IH, andb_true_r.
  unfold is_sep. rewrite (posix_no_alt Hd), orb_false_r.
  now destruct (Ascii.eqb x (sep fl)).
Qed.

Lemma no_alt_app (a b : string) :
  no_alt fl (a ++ b) = no_alt fl a && no_alt fl b.
Proof. apply string_forall_app. Qed.

Lemma no_alt_c : no_alt fl (String c "") = true.
Proof.
  unfold no_alt. cbn [string_forall]. now rewrite Ascii.eqb_refl, orb_true_r.
Qed.

Lemma no_sep_no_alt (s : string) : no_sep fl s = true -> no_alt fl s = true.
Proof.
  unfold no_sep, no_alt. apply OsPathFacts.string_forall_impl.
  intros x Hx. now rewrite Hx.
Qed.

Lemma string_forall_lstrip (P : ascii -> bool) (s : string) :
  string_forall P s = true -> string_forall P (lstrip_sep fl s) = true.
Proof.
  induction s as [|x s IH]; [reflexivity|].
  cbn [lstrip_sep]. intros H. destruct (Ascii.eqb x (sep fl)); [|exact H].
  cbn [string_forall] in H. apply andb_prop in H as [_ H]. now apply IH.
Qed.

(** What the loop of [normpath] keeps comes from its input. *)
Lemma norm_step_keeps (Q : string -> Prop) (r : bool) (st : list string)
    (p : string) :
  Q p -> Forall Q st -> Forall Q (norm_step r st p).
Proof.
  intros Hp Hst. unfold norm_step.
  destruct (_ || _); [exact Hst|].
  destruct (String.eqb p "..").
  - destruct st as [|l st]; [destruct r; repeat constructor; assumption|].
    inversion Hst; subst. destruct (String.eqb l ".."); [|assumption].
    now repeat constructor.
  - now constructor.
Qed.

Lemma norm_fold_keeps (Q : string -> Prop) (r : bool) (xs st : list string) :
  Forall Q xs -> Forall Q st -> Forall Q (fold_left (norm_step r) xs st).
Proof.
  intros Hx. revert st. induction Hx as [|x xs Hx Hxs IH]; intros st Hst.
  - exact Hst.
  - cbn [fold_left]. apply IH. now apply norm_step_keeps.
Qed.

Lemma norm_step_nonempty (r : bool) (st : list string) (p : string) :
  Forall (fun q => nonempty q = true) st ->
  Forall (fun q => nonempty q = true) (norm_step r st p).
Proof.
  intros Hst. unfold norm_step.
  destruct (String.eqb_spec p ""); [exact Hst|]. cbn [orb].
  destruct (String.eqb p "."); [exact Hst|].
  assert (Hp : nonempty p = true) by (destruct p; [contradiction | reflexivity]).
  destruct (String.eqb p "..").
  - destruct st as [|l st]; [destruct r; repeat constructor; assumption|].
    inversion Hst; subst. destruct (String.eqb l ".."); [|assumption].
    now repeat constructor.
  - now constructor.
Qed.

Lemma norm_fold_nonempty (r : bool) (xs st : list string) :
  Forall (fun q => nonempty q = true) st ->
  Forall (fun q => nonempty q = true) (fold_left (norm_step r) xs st).
Proof.
  revert st. induction xs as [|x xs IH]; intros st Hst; [exact Hst|].
  cbn [fold_left]. apply IH. now apply norm_step_nonempty.
Qed.

Lemma norm_comps_nonempty (r : bool) (xs : list string) :
  Forall (fun q => nonempty q = true) (norm_comps r xs).
Proof.
  unfold norm_comps. apply Forall_rev. apply norm_fold_nonempty. constructor.
Qed.

Lemma norm_comps_keeps (Q : string -> Prop) (r : bool) (xs : list string) :
  Forall Q xs -> Forall Q (norm_comps r xs).
Proof.
  intros H. unfold norm_comps. apply Forall_rev.
  apply norm_fold_keeps; [exact H | constructor].
Qed.

Lemma join_with_nonempty (parts : list string) :
  parts <> [] -> Forall (fun q => nonempty q = true) parts ->
  nonempty (join_with c parts) = true.
Proof.
  intros Hne H. destruct H as [|p ps Hp _]; [contradiction|].
  cbn [join_with]. destruct ps; [exact Hp|].
  destruct p; [discriminate | reflexivity].
Qed.

Lemma lstrip_sep_id (s : string) :
  startswith s (String c "") = false -> lstrip_sep fl s = s.
Proof.
  destruct s as [|x s]; [reflexivity|]. unfold startswith. cbn [String.prefix lstrip_sep].
  destruct (Ascii.eqb_spec x c) as [E|Hx]; [|reflexivity].
  rewrite E. destruct (ascii_dec c c); [|contradiction]. now destruct s.
Qed.

Lemma nonempty_app_l (a b : string) :
  nonempty a = true -> nonempty (a ++ b) = true.
Proof. now destruct a. Qed.

(** [normpath] in one form for both flavours. *)
Lemma normpath_parts (path : string) :
  normpath fl path
  = let r := norm_prefix fl path
             ++ join_with c (norm_comps (norm_rooted fl path)
                              (split_on c (norm_body fl path))) in
    if nonempty r then r else ".".
Proof.
  unfold normpath, norm_prefix, norm_rooted, norm_body, norm_prefix. cbv zeta.
  destruct (drives fl) eqn:Hd.
  - destruct (splitdrive fl (to_sep fl path)) as [d t]. cbn [snd].
    destruct (startswith t (String c "")) eqn:Hs.
    + set (cs := norm_comps _ _).
      pose proof (norm_comps_nonempty (endswith (d ++ String c "") (String c ""))
                    (split_on c (lstrip_sep fl t))) as Hcs. fold cs in Hcs.
      assert (Hn : nonempty (d ++ String c "") = true)
        by (destruct d; reflexivity).
      destruct cs as [|q cs'].
      * rewrite Hn. now rewrite (nonempty_app_l _ (join_with c []) Hn).
      * now rewrite (nonempty_app_l _ _ Hn).
    + rewrite (lstrip_sep_id t Hs). set (cs := norm_comps _ _).
      pose proof (norm_comps_nonempty (endswith d (String c ""))
                    (split_on c t)) as Hcs. fold cs in Hcs.
      destruct cs as [|q cs'].
      * destruct d; reflexivity.
      * rewrite OsPathFacts.nonempty_app_r; [reflexivity|].
        apply join_with_nonempty; [discriminate | exact Hcs].
  - destruct (String.eqb_spec path "") as [->|Hp]; reflexivity.
Qed.


Lemma drives_cases : drives fl = true \/ drives fl = false.
Proof. destruct (drives fl); auto. Qed.

(** A path that [normpath] leaves as it is, other than [.], is its prefix
    followed by its components. *)
Lemma normalised_form (Y : string) :
  normpath fl Y = Y -> Y <> "." ->
  Y = norm_prefix fl Y
      ++ join_with c (norm_comps (norm_rooted fl Y) (split_on c (norm_body fl Y))).
Proof.
  intros Hn Hd. rewrite normpath_parts in Hn. cbv zeta in Hn.
  destruct (nonempty _) in Hn; [now symmetry | congruence].
Qed.

Lemma no_alt_splitdrive (s : string) :
  no_alt fl s = true ->
  no_alt fl (fst (splitdrive fl s)) = true /\
  no_alt fl (snd (splitdrive fl s)) = true.
Proof.
  intros H. rewrite <- (OsPathFacts.splitdrive_app fl s), no_alt_app in H.
  now apply andb_prop in H.
Qed.

Lemma no_alt_normalised (Y : string) :
  normpath fl Y = Y -> Y <> "." -> no_alt fl Y = true.
Proof.
  intros Hn Hd. destruct drives_cases as [Hdr|Hdr]; [|now apply no_alt_posix].
  rewrite (normalised_form Y Hn Hd).
  destruct (no_alt_splitdrive _ (no_alt_to_sep Y)) as [H1 H2].
  rewrite no_alt_app. apply andb_true_intro. split.
  - unfold norm_prefix. rewrite Hdr.
    destruct (splitdrive fl (to_sep fl Y)) as [d t]. cbn [fst snd] in *.
    destruct (startswith t _); [|exact H1].
    now rewrite no_alt_app, H1, no_alt_c.
  - apply join_with_forall; [now rewrite Ascii.eqb_refl, orb_true_r|].
    apply norm_comps_keeps. unfold norm_body. rewrite Hdr.
    apply split_on_forall. now apply string_forall_lstrip.
Qed.

Lemma prefix_seps_app (p Y r : string) :
  string_forall (fun x => Ascii.eqb x c) p = true ->
  string_forall (fun x => Ascii.eqb x c) Y = false ->
  String.prefix p (Y ++ r) = String.prefix p Y.
Proof.
  revert p. induction Y as [|y Y IH]; intros p Hp HY; [discriminate|].
  destruct p as [|x p]; [reflexivity|].
  rewrite OsPathFacts.app_cons. cbn [String.prefix string_forall] in *.
  apply andb_prop in Hp as [Hx Hp]. apply Ascii.eqb_eq in Hx. subst x.
  destruct (ascii_dec c y) as [<-|]; [|reflexivity].
  rewrite Ascii.eqb_refl in HY. now apply IH.
Qed.

Lemma lstrip_sep_app (Y r : string) :
  string_forall (fun x => Ascii.eqb x c) Y = false ->
  lstrip_sep fl (Y ++ r) = lstrip_sep fl Y ++ r.
Proof.
  induction Y as [|y Y IH]; [discriminate|].
  rewrite OsPathFacts.app_cons. cbn [lstrip_sep string_forall].
  destruct (Ascii.eqb y c); [exact IH | reflexivity].
Qed.

(** A path whose path part ends with a name has a character that is not
    the separator. *)
Lemma last_char_not_all (s : string) (x : ascii) :
  last_char s = Some x -> Ascii.eqb x c = false ->
  string_forall (fun y => Ascii.eqb y c) s = false.
Proof.
  intros Hl Hx. destruct (OsPathFacts.last_char_snoc s x Hl) as [s' ->].
  rewrite string_forall_app. cbn [string_forall]. rewrite Hx.
  now rewrite andb_false_r.
Qed.

Lemma not_sep_not_c (x : ascii) : is_sep fl x = false -> Ascii.eqb x c = false.
Proof. unfold is_sep. intros H. now apply orb_false_elim in H as [H _]. Qed.

Lemma tail_ok_not_all (Y : string) :
  tail_ok fl Y ->
  string_forall (fun y => Ascii.eqb y c) (snd (splitdrive fl Y)) = false /\
  string_forall (fun y => Ascii.eqb y c) Y = false.
Proof.
  intros (x & Hl & Hx).
  pose proof (last_char_not_all _ x Hl (not_sep_not_c x Hx)) as Ht.
  split; [exact Ht|].
  rewrite <- (OsPathFacts.splitdrive_app fl Y), string_forall_app, Ht.
  apply andb_false_r.
Qed.

(** Joining a relative name to a path whose path part ends with a name. *)
Lemma join_tail_ok_relative (Y arc : string) :
  tail_ok fl Y -> relative fl arc ->
  join fl Y arc = Y ++ String c arc.
Proof.
  intros Ht Hr. rewrite (join_relative fl Y arc Hr).
  rewrite (OsPathFacts.add_sep_tail_ok fl Y Ht).
  rewrite OsPathFacts.app_assoc_snoc, OsPathFacts.app_assoc.
  now rewrite (OsPathFacts.splitdrive_app fl Y).
Qed.

Lemma splitdrive_tail_ok_app (Y r : string) :
  tail_ok fl Y ->
  splitdrive fl (Y ++ String c r)
  = (fst (splitdrive fl Y), snd (splitdrive fl Y) ++ String c r).
Proof.
  intros (x & Hl & Hx).
  destruct (splitdrive fl Y) as [d t] eqn:E. cbn [fst snd] in *.
  destruct d as [|d1 d'].
  - pose proof (OsPathFacts.splitdrive_nodrive fl _ _ E) as ->.
    revert E.
    unfold splitdrive. destruct (drives fl); [|reflexivity].
    destruct Y as [|y1 [|y2 Y]]; [discriminate| |].
    + intros _. rewrite OsPathFacts.app_cons, OsPathFacts.app_nil_l.
      destruct (Ascii.eqb_spec c ":") as [E'|]; [|reflexivity].
      exfalso. pose proof is_sep_c as Hc. rewrite E' in Hc.
      unfold colon_free in colon. congruence.
    + rewrite !OsPathFacts.app_cons.
      destruct (Ascii.eqb y2 ":"); [discriminate | reflexivity].
  - pose proof (OsPathFacts.splitdrive_app fl Y) as Ha. rewrite E in Ha.
    cbn [fst snd] in Ha. rewrite <- Ha, <- OsPathFacts.app_assoc.
    now apply (OsPathFacts.splitdrive_drive fl Y _ t).
Qed.

Lemma prefix_nil (s : string) : String.prefix "" s = true.
Proof. now destruct s. Qed.

Lemma startswith_app_nonempty (t r p : string) :
  nonempty t = true -> startswith (t ++ r) (String c "") = startswith t (String c "").
Proof.
  destruct t as [|x t]; [discriminate|]. intros _.
  unfold startswith. rewrite OsPathFacts.app_cons. cbn [String.prefix].
  destruct (ascii_dec c x); [|reflexivity]. now rewrite !prefix_nil.
Qed.

(** The prefix and the body of a path followed by a separator and more. *)
Lemma norm_parts_app (Y r : string) :
  tail_ok fl Y -> no_alt fl Y = true -> no_alt fl r = true ->
  norm_prefix fl (Y ++ String c r) = norm_prefix fl Y /\
  norm_body fl (Y ++ String c r) = norm_body fl Y ++ String c r.
Proof.
  intros Ht HY Hr. destruct (tail_ok_not_all Y Ht) as [Hnt HnY].
  unfold norm_prefix, norm_body. destruct drives_cases as [Hd|Hd]; rewrite Hd.
  - assert (HJ : no_alt fl (Y ++ String c r) = true).
    { rewrite no_alt_app, HY. change (String c r) with (String c "" ++ r).
      now rewrite no_alt_app, no_alt_c, Hr. }
    rewrite (to_sep_id _ HJ), (to_sep_id _ HY).
    rewrite (splitdrive_tail_ok_app Y r Ht).
    destruct (splitdrive fl Y) as [d t]. cbn [fst snd] in *.
    assert (Hne : nonempty t = true) by (destruct t; [discriminate | reflexivity]).
    rewrite (startswith_app_nonempty t _ "" Hne).
    split; [reflexivity|]. now apply lstrip_sep_app.
  - split; [|reflexivity]. unfold startswith.
    rewrite (prefix_seps_app (String c "") Y),
      (prefix_seps_app (String c "" ++ String c "") Y),
      (prefix_seps_app (String c "" ++ String c "" ++ String c "") Y)
      by (try exact HnY; cbv [String.append]; cbn [string_forall];
          now rewrite !Ascii.eqb_refl).
    reflexivity.
Qed.

(** [normpath] leaves a clean relative name joined to a normalised
    directory as it is, and drops the separator joined for an empty
    name. *)
Lemma normpath_join (Y : string) (comps : list string) :
  normpath fl Y = Y -> Y <> "." -> tail_ok fl Y ->
  Forall (component fl) comps -> relative fl (join_with c comps) ->
  normpath fl (join fl Y (join_with c comps))
  = if nonempty (join_with c comps) then join fl Y (join_with c comps) else Y.
Proof.
  intros Hn Hd Ht Hc Hrel. set (arc := join_with c comps) in *.
  rewrite (join_tail_ok_relative Y arc Ht Hrel).
  pose proof (no_alt_normalised Y Hn Hd) as HY.
  assert (Harc : no_alt fl arc = true).
  { apply join_with_forall; [now rewrite Ascii.eqb_refl, orb_true_r|].
    revert Hc. apply Forall_weaken. intros p (_ & _ & _ & Hp).
    now apply no_sep_no_alt. }
  destruct (norm_parts_app Y arc Ht HY Harc) as [Hp Hb].
  pose proof (normalised_form Y Hn Hd) as Hform.
  rewrite normpath_parts.
  assert (Hne : nonempty Y = true).
  { destruct (tail_ok_not_all Y Ht) as [_ HnY].
    destruct Y; [cbn in HnY; discriminate | reflexivity]. }
  enough (Hr : norm_prefix fl (Y ++ String c arc)
               ++ join_with c (norm_comps (norm_rooted fl (Y ++ String c arc))
                                (split_on c (norm_body fl (Y ++ String c arc))))
               = if nonempty arc then Y ++ String c arc else Y).
  { cbv zeta. rewrite Hr. destruct (nonempty arc).
    - now rewrite nonempty_app_l.
    - now rewrite Hne. }
  unfold norm_rooted. rewrite Hp, Hb.
  fold (norm_rooted fl Y).
  set (rt := norm_rooted fl Y) in *.
  unfold norm_comps in *. rewrite split_on_app_sep, fold_left_app.
  unfold arc at 1. rewrite (fold_split_join rt comps _ Hc), rev_app_distr, rev_involutive.
  set (csY := rev (fold_left (norm_step rt) (split_on c (norm_body fl Y)) [])) in *.
  assert (HcsY : csY <> []).
  { intros E. rewrite E in Hform. cbn [join_with] in Hform.
    rewrite string_app_nil_r in Hform.
    destruct Ht as (x & Hl & Hx). revert Hform.
    unfold norm_prefix. destruct drives_cases as [Hdr|Hdr]; rewrite Hdr.
    - rewrite (to_sep_id _ HY). destruct (splitdrive fl Y) as [d t] eqn:Es.
      cbn [snd] in Hl. pose proof (OsPathFacts.splitdrive_app fl Y) as Ha.
      rewrite Es in Ha. cbn [fst snd] in Ha.
      destruct (startswith t _); intros Hf; rewrite <- Ha in Hf.
      + apply (f_equal String.length) in Hf as Hlen.
        rewrite !string_length_app in Hlen. cbn [String.length] in Hlen.
        assert (Hlt : String.length t = 1%nat) by lia.
        destruct t as [|t1 [|t2 t]]; try discriminate.
        assert (t1 = c).
        { clear - Hf. induction d as [|d1 d IH]; [now injection Hf|].
          rewrite !OsPathFacts.app_cons in Hf. injection Hf. exact IH. }
        subst t1. cbn in Hl. injection Hl as <-. rewrite is_sep_c in Hx.
        discriminate.
      + apply (f_equal String.length) in Hf as Hlen.
        rewrite !string_length_app in Hlen.
        destruct t; [discriminate | cbn in Hlen; lia].
    - cbn [snd splitdrive] in Hl.
      assert (Hsd : snd (splitdrive fl Y) = Y).
      { unfold splitdrive. now rewrite Hdr. }
      rewrite Hsd in Hl.
      pose proof (last_char_not_all Y x Hl (not_sep_not_c x Hx)) as Hall.
      destruct (startswith Y (String c "")); intros Hf.
      + destruct (_ && _) in Hf; rewrite Hf in Hall;
          cbv [String.append] in Hall; cbn [string_forall] in Hall;
          rewrite !Ascii.eqb_refl in Hall; discriminate.
      + rewrite Hf in Hl. discriminate. }
  destruct comps as [|q comps'].
  - cbn [app]. unfold arc. cbn [join_with nonempty].
    rewrite app_nil_r. now rewrite <- Hform.
  - rewrite join_with_app by (try exact HcsY; discriminate).
    fold arc. rewrite OsPathFacts.app_assoc, <- Hform.
    assert (Hna : nonempty arc = true).
    { apply join_with_nonempty; [discriminate|].
      revert Hc. apply Forall_weaken. now intros p (Hp' & _). }
    now rewrite Hna.
Qed.

End WithFlavour.
End NormFacts.

(** ** Paths under a directory and above a path *)

Section Under.
Variable fl : OsPath.Flavour.
Hypothesis colon : colon_free fl.

Lemma get_length_app (a : string) (x : ascii) (r : string) :
  String.get (String.length a) (a ++ String x r) = Some x.
Proof.
  induction a as [|y a IH]; [reflexivity|].
  rewrite OsPathFacts.app_cons. exact IH.
Qed.

(** What [under] means: the path is the directory, or the directory
    followed by a separator and more. *)
Lemma under_app (d : string) (x : ascii) (r : string) :
  OsPath.is_sep fl x = true -> OsPath.under fl d (d ++ String x r) = true.
Proof.
  intros Hx. unfold OsPath.under.
  rewrite PyStrFacts.prefix_app, get_length_app. cbn [OsPath.opt_is_sep].
  rewrite Hx. apply orb_true_r.
Qed.

Lemma under_inv (d p : string) :
  OsPath.under fl d p = true ->
  p = d \/ exists x r, p = d ++ String x r /\ OsPath.is_sep fl x = true.
Proof.
  unfold OsPath.under. intros H. apply orb_prop in H as [H|H].
  - left. now apply String.eqb_eq.
  - right. apply andb_prop in H as [Hp Hg].
    apply PyStrFacts.prefix_inv in Hp as [b ->].
    destruct b as [|x r].
    + rewrite string_app_nil_r in Hg.
      assert (Hn : String.get (String.length d) d = None).
      { clear. induction d as [|y d IH]; [reflexivity | exact IH]. }
      rewrite Hn in Hg. discriminate.
    + rewrite get_length_app in Hg. now exists x, r.
Qed.

Lemma under_trans (a b k : string) :
  OsPath.under fl a b = true -> OsPath.under fl b k = true ->
  OsPath.under fl a k = true.
Proof.
  intros Hab Hbk.
  destruct (under_inv _ _ Hbk) as [->|(y & r' & -> & Hy)]; [exact Hab|].
  destruct (under_inv _ _ Hab) as [->|(x & r & -> & Hx)].
  - now apply under_app.
  - rewrite <- OsPathFacts.app_assoc, OsPathFacts.app_cons. now apply under_app.
Qed.

Lemma app_inj_l (w a b : string) : w ++ a = w ++ b -> a = b.
Proof.
  induction w as [|x w IH]; [now rewrite !OsPathFacts.app_nil_l|].
  rewrite !OsPathFacts.app_cons. intros [= H]. now apply IH.
Qed.

(** Two directories that hold the same path: one holds the other. *)
Lemma under_comparable (a b k : string) :
  OsPath.under fl a k = true -> OsPath.under fl b k = true ->
  OsPath.under fl a b = true \/ OsPath.under fl b a = true.
Proof.
  intros Ha Hb.
  destruct (under_inv _ _ Ha) as [->|(x & r & Ek & Hx)]; [now right|].
  destruct (under_inv _ _ Hb) as [->|(y & r' & Ek' & Hy)]; [now left|].
  pose proof (under_prefix fl _ _ Ha) as Pa.
  pose proof (under_prefix fl _ _ Hb) as Pb.
  destruct (prefix_comparable a b k Pa Pb) as [H|H];
    apply PyStrFacts.prefix_inv in H as [w Hw].
  - left. destruct w as [|z w].
    + rewrite string_app_nil_r in Hw. subst b. apply under_refl.
    + subst b. rewrite Ek, <- OsPathFacts.app_assoc in Ek'.
      apply app_inj_l in Ek'. rewrite OsPathFacts.app_cons in Ek'.
      injection Ek' as -> _. now apply under_app.
  - right. destruct w as [|z w].
    + rewrite string_app_nil_r in Hw. subst a. apply under_refl.
    + subst a. rewrite Ek', <- OsPathFacts.app_assoc in Ek.
      apply app_inj_l in Ek. rewrite OsPathFacts.app_cons in Ek.
      injection Ek as -> _. now apply under_app.
Qed.

(** A drive is not changed by what follows a name and a separator. *)
Lemma splitdrive_app_sep (Y : string) (x : ascii) (r : string) :
  tail_ok fl Y -> OsPath.is_sep fl x = true ->
  OsPath.splitdrive fl (Y ++ String x r)
  = (fst (OsPath.splitdrive fl Y), snd (OsPath.splitdrive fl Y) ++ String x r).
Proof.
  intros (z & Hl & Hz) Hx.
  destruct (OsPath.splitdrive fl Y) as [d t] eqn:E. cbn [fst snd] in *.
  destruct d as [|d1 d'].
  - pose proof (OsPathFacts.splitdrive_nodrive fl _ _ E) as ->.
    revert E.
    unfold OsPath.splitdrive. destruct (OsPath.drives fl); [|reflexivity].
    destruct Y as [|y1 [|y2 Y]]; [discriminate| |].
    + intros _. rewrite OsPathFacts.app_cons, OsPathFacts.app_nil_l.
      destruct (Ascii.eqb_spec x ":") as [E'|]; [|reflexivity].
      exfalso. rewrite E' in Hx. unfold colon_free in colon. congruence.
    + rewrite !OsPathFacts.app_cons.
      destruct (Ascii.eqb y2 ":"); [discriminate | reflexivity].
  - pose proof (OsPathFacts.splitdrive_app fl Y) as Ha. rewrite E in Ha.
    cbn [fst snd] in Ha. rewrite <- Ha, <- OsPathFacts.app_assoc.
    now apply (OsPathFacts.splitdrive_drive fl Y _ t).
Qed.

(** The head that [split] cuts off a path keeps what comes before a
    separator. *)
Lemma cut_last_sep_fst_app (a : string) (x : ascii) (r : string) :
  OsPath.is_sep fl x = true ->
  exists r1, fst (OsPath.cut_last_sep fl (a ++ String x r)) = a ++ String x r1.
Proof.
  intros Hx. induction a as [|y a [r1 IH]].
  - rewrite OsPathFacts.app_nil_l. cbn [OsPath.cut_last_sep].
    destruct (OsPath.cut_last_sep fl r) as [hd tl].
    destruct (PyStr.nonempty hd) eqn:Hn.
    + exists hd. reflexivity.
    + rewrite Hx. now exists "".
  - rewrite OsPathFacts.app_cons. cbn [OsPath.cut_last_sep].
    destruct (OsPath.cut_last_sep fl (a ++ String x r)) as [hd tl].
    cbn [fst] in IH. subst hd.
    rewrite OsPathFacts.nonempty_app_r by reflexivity.
    exists r1. cbn [fst]. now rewrite OsPathFacts.app_cons.
Qed.

Lemma rstrip_seps_app (a z : string) (y : ascii) :
  PyStr.last_char a = Some y -> OsPath.is_sep fl y = false ->
  OsPath.rstrip_seps fl (a ++ z) = a ++ OsPath.rstrip_seps fl z.
Proof.
  intros Hl Hy. induction a as [|w a IH]; [discriminate|].
  rewrite !OsPathFacts.app_cons. cbn [OsPath.rstrip_seps].
  destruct a as [|w' a].
  - cbn in Hl. injection Hl as ->. rewrite !OsPathFacts.app_nil_l, Hy.
    now rewrite andb_false_r.
  - rewrite OsPathFacts.last_char_cons in Hl by reflexivity.
    rewrite (IH Hl). rewrite OsPathFacts.app_cons. reflexivity.
Qed.

(** The directory of a path below [Y] is [Y] or below it. *)
Lemma under_dirname (Y p : string) :
  tail_ok fl Y -> OsPath.under fl Y p = true -> p <> Y ->
  OsPath.under fl Y (OsPath.dirname fl p) = true.
Proof.
  intros Ht Hu Hne.
  destruct (under_inv _ _ Hu) as [->|(x & r & -> & Hx)]; [congruence|].
  unfold OsPath.dirname, OsPath.split.
  rewrite (splitdrive_app_sep Y x r Ht Hx).
  pose proof (OsPathFacts.splitdrive_app fl Y) as Ha.
  destruct Ht as (y & Hl & Hy).
  destruct (OsPath.splitdrive fl Y) as [d t]. cbn [fst snd] in *.
  destruct (cut_last_sep_fst_app t x r Hx) as [r1 Hc].
  destruct (OsPath.cut_last_sep fl (t ++ String x r)) as [hd tl].
  cbn [fst] in Hc |- *. subst hd.
  rewrite (rstrip_seps_app t _ y Hl Hy).
  assert (Hn : PyStr.nonempty (t ++ OsPath.rstrip_seps fl (String x r1)) = true).
  { destruct t; [discriminate | reflexivity]. }
  rewrite Hn, OsPathFacts.app_assoc, Ha.
  pose proof (rstrip_seps_prefix fl (String x r1)) as Hp.
  destruct (OsPath.rstrip_seps fl (String x r1)) as [|x' r'].
  - rewrite string_app_nil_r. apply under_refl.
  - cbn [String.prefix] in Hp. destruct (ascii_dec x' x) as [->|]; [|discriminate].
    now apply under_app.
Qed.

(** What lies above a path below [Y] is below [Y] or above it. *)
Lemma above_under (Y p k : string) :
  tail_ok fl Y -> OsPath.under fl Y p = true -> above fl k p ->
  OsPath.under fl Y k = true \/ above fl k Y.
Proof.
  intros Ht Hu Hab. induction Hab as [p|k p Hab IH]; [now left|].
  destruct (string_dec p Y) as [->|Hne].
  - right. now apply above_parent.
  - apply IH. now apply under_dirname.
Qed.

(** A name joined to a directory lies below the directory. *)
Lemma under_join_plain (a n : string) :
  tail_ok fl a -> plain fl n = true ->
  OsPath.under fl a (OsPath.join fl a n) = true.
Proof.
  intros Ha Hn. rewrite OsPathFacts.join_tail_ok by assumption.
  apply under_app, OsPathFacts.is_sep_sep.
Qed.

End Under.

(** ** The components of the name of a zip member *)

Section ZipComponents.
Import Zip PyStr.

Lemma rstrip_dots_last (s : string) : last_char (rstrip_dots s) <> Some "."%char.
Proof.
  induction s as [|x s IH]; [discriminate|]. cbn [rstrip_dots].
  destruct (rstrip_dots s) as [|y r] eqn:Er; cbn [nonempty negb andb].
  - destruct (Ascii.eqb_spec x ".") as [->|Hx]; [discriminate|].
    cbn. congruence.
  - now rewrite OsPathFacts.last_char_cons.
Qed.

Lemma invalid_path_part_false (x : string) :
  negb (invalid_path_part x) = true -> x <> "" /\ x <> "." /\ x <> "..".
Proof.
  unfold invalid_path_part. intros H. apply negb_true_iff in H.
  apply orb_false_elim in H as [H H3]. apply orb_false_elim in H as [H1 H2].
  apply String.eqb_neq in H1, H2, H3. auto.
Qed.

(** The name under which a member is extracted is made of components
    that [normpath] keeps. *)
Lemma arcname_components_posix (name : string) :
  exists comps,
    arcname OsPath.posixpath name = join_with "/" comps /\
    Forall (component OsPath.posixpath) comps.
Proof.
  unfold arcname. cbn [OsPath.sep OsPath.altsep OsPath.posixpath].
  change (Ascii.eqb "/" "\") with false. cbv iota.
  change (snd (OsPath.splitdrive OsPath.posixpath ?a)) with a.
  eexists. split; [reflexivity|].
  apply Forall_forall. intros p Hp. apply list_elem_of_In, filter_In in Hp as [Hin Hp].
  destruct (invalid_path_part_false p Hp) as (H1 & H2 & H3).
  split; [now destruct p|]. split; [exact H2|]. split; [exact H3|].
  pose proof (split_on_no_sep "/" (replace_char "/" "/" name)) as Hs.
  rewrite Forall_forall in Hs. specialize (Hs p (proj2 (list_elem_of_In _ _) Hin)).
  revert Hs. apply OsPathFacts.string_forall_impl. intros c Hc.
  unfold OsPath.is_sep. cbn [OsPath.sep OsPath.altsep OsPath.posixpath].
  now rewrite orb_false_r.
Qed.

Lemma arcname_components_nt (name : string) :
  exists comps,
    arcname OsPath.ntpath name = join_with "\" comps /\
    Forall (component OsPath.ntpath) comps.
Proof.
  unfold arcname. cbn [OsPath.sep OsPath.altsep OsPath.ntpath].
  change (Ascii.eqb "\" "\") with true. cbv iota.
  set (a2 := replace_char "/" "\" (replace_char "/" "\" name)).
  set (arc0 := join_with "\" _).
  unfold sanitize_windows_name.
  set (T := translate_illegal arc0).
  eexists. split; [reflexivity|].
  pose (Pslash := fun x => negb (Ascii.eqb x "/")).
  pose (Pbs := fun x => negb (Ascii.eqb x "\")).
  assert (Ha2 : string_forall Pslash a2 = true).
  { apply replace_char_keeps; [reflexivity|].
    apply replace_char_forall; [reflexivity|]. intros x Hx. unfold Pslash.
    now rewrite Hx. }
  assert (Harc0 : string_forall Pslash arc0 = true).
  { apply join_with_forall; [reflexivity|]. apply Forall_filter_keep.
    apply split_on_forall. now apply splitdrive_forall. }
  assert (HT1 : string_forall Pslash T = true)
    by now apply translate_illegal_keeps.
  set (parts := List.map rstrip_dots (split_on "\" T)).
  assert (Hp1 : Forall (fun p => string_forall Pslash p = true) parts)
    by now apply Forall_map_rstrip, split_on_forall.
  assert (Hp3 : Forall (fun p => string_forall Pbs p = true) parts)
    by apply Forall_map_rstrip, split_on_no_sep.
  assert (Hp5 : Forall (fun p => last_char p <> Some "."%char) parts).
  { unfold parts. apply Forall_forall. intros p Hp.
    apply list_elem_of_In, in_map_iff in Hp as (x & <- & _). apply rstrip_dots_last. }
  apply Forall_forall. intros p Hp.
  apply list_elem_of_In, filter_In in Hp as [Hin Hne].
  apply list_elem_of_In in Hin.
  rewrite Forall_forall in Hp1, Hp3, Hp5.
  specialize (Hp1 p Hin). specialize (Hp3 p Hin). specialize (Hp5 p Hin).
  split; [exact Hne|]. split; [now intros ->|]. split; [now intros ->|].
  refine (OsPathFacts.string_forall_impl _ _ _ _
            (string_forall_and _ _ _ Hp3 Hp1)).
  intros c Hc. unfold OsPath.is_sep.
  cbn [OsPath.sep OsPath.altsep OsPath.ntpath].
  unfold Pbs, Pslash in Hc. now rewrite negb_orb.
Qed.

End ZipComponents.

Lemma arcname_components (h : Host) (name : string) :
  exists comps,
    Zip.arcname (os_path h) name
    = PyStr.join_with (OsPath.sep (os_path h)) comps /\
    Forall (component (os_path h)) comps.
Proof.
  unfold os_path. destruct (is_win h);
    [apply arcname_components_nt | apply arcname_components_posix].
Qed.

(** Only the flavour with drives has an alternative separator. *)
Lemma os_path_no_alt (h : Host) :
  OsPath.drives (os_path h) = false -> OsPath.altsep (os_path h) = None.
Proof. unfold os_path. now destruct (is_win h). Qed.

(** Where [extract_member] puts a member: below the directory it
    extracts to, or at the directory itself for a name without
    components. *)
Lemma extract_target (h : Host) (Y name : string) :
  let fl := os_path h in
  OsPath.normpath fl Y = Y -> Y <> "." -> tail_ok fl Y ->
  OsPath.under fl Y
    (OsPath.normpath fl (OsPath.join fl Y (Zip.arcname fl name))) = true.
Proof.
  intros fl Hn Hd Ht.
  destruct (arcname_components h name) as (comps & Ea & Hc).
  pose proof (arcname_relative h name) as Hrel. fold fl in Ea, Hc, Hrel.
  rewrite Ea in Hrel |- *.
  rewrite (NormFacts.normpath_join fl (os_path_colon_free h)
             (os_path_no_alt h) Y comps Hn Hd Ht Hc Hrel).
  destruct (PyStr.nonempty _); [|apply under_refl].
  rewrite (NormFacts.join_tail_ok_relative fl Y _ Ht Hrel).
  apply under_app, OsPathFacts.is_sep_sep.
Qed.

(** ** Extraction: the frame of [extract_zip] *)

Section Extraction.
Variable TP : string -> Prop.
Variable PP : string -> Prop.
Variable ok : string -> Prop.
Variable E : Event -> Prop.
Variable h : Host.
Variable Y : string.

Local Abbreviation target name :=
  (OsPath.normpath (os_path h)
     (OsPath.join (os_path h) Y (Zip.arcname (os_path h) name))).

Hypothesis ok_dir :
  forall name k, above (os_path h) k (target name) -> ok k /\ E (EvMkdir k).
Hypothesis E_file :
  forall name, E (EvCreate (target name)) /\ forall c, E (EvWrite (target name) c).

Lemma sat_extract_member (m : ZipMember) :
  sat TP PP ok E (Zip.extract_member h Y m) (fun _ => True).
Proof.
  unfold Zip.extract_member. cbv zeta.
  pose proof (ok_dir (filename m) _ (above_self _ _)) as [Hok Hmk].
  destruct (E_file (filename m)) as [Hc Hw].
  apply (sat_bind _ _ _ _ _ _ (fun _ => True)); [apply sat_exists|]. intros ex _.
  apply sat_seq.
  { apply sat_when, sat_makedirs. intros k Hk.
    apply (ok_dir (filename m)). now apply above_parent. }
  destruct (Zip.is_dir m).
  - apply (sat_bind _ _ _ _ _ _ (fun _ => True)); [apply sat_isdir|]. intros d _.
    now apply sat_when, sat_mkdir.
  - apply sat_seq; [now apply sat_open_wb | now apply sat_write].
Qed.

Lemma sat_extract_zip (zip_path : string) :
  sat TP PP ok E (extract_zip h zip_path Y) (fun _ => True).
Proof.
  unfold extract_zip, Zip.extract_zip.
  apply (sat_bind _ _ _ _ _ _ (fun _ => True)); [apply sat_read|]. intros c _.
  destruct (unzip h c) as [members|]; [|apply sat_raise].
  apply sat_for_each. intros m. apply sat_extract_member.
Qed.

End Extraction.

(** ** C9: where the download functions write *)

Section Region.
Variable h : Host.
Variable Y : string.
Variable T P : list string.

Local Abbreviation fl := (os_path h).

Hypothesis Y_norm : OsPath.normpath fl Y = Y.
Hypothesis Y_dot : Y <> ".".
Hypothesis Y_tail : tail_ok fl Y.
Hypothesis T_tail : Forall (tail_ok fl) T.

Local Abbreviation wsat :=
  (sat (fun t => In t T) (fun p => In p P) (within fl Y T)
       (ev_within fl Y T P)).

Lemma sat_bind_lift {A B} TP PP ok E (r : Exn + A) (k : A -> M B)
    (R : B -> Prop) :
  (forall a, r = inr a -> sat TP PP ok E (k a) R) ->
  sat TP PP ok E (bind (lift r) k) R.
Proof.
  intros Hk. destruct r as [e|a].
  - intros s Hs. unfold bind, lift. cbn. split; [apply frame_refl|]. now split.
  - specialize (Hk a eq_refl). intros s Hs. unfold bind, lift. now apply Hk.
Qed.

Lemma inside_temp (t k : string) :
  In t T -> OsPath.under fl t k = true -> inside fl Y T k.
Proof. intros Ht Hk. right. eauto. Qed.

(** What lies above a path of the installation directory is in the
    region. *)
Lemma within_above (p k : string) :
  OsPath.under fl Y p = true -> above fl k p -> within fl Y T k.
Proof.
  intros Hp Hk.
  destruct (above_under fl (os_path_colon_free h) Y p k Y_tail Hp Hk) as [H|H].
  - left. now left.
  - now right.
Qed.

(** A temporary directory of [T] may be used to save to a destination
    inside [Y]. *)
Lemma temp_allowed_within (destination t : string) :
  In t T ->
  OsPath.under fl Y destination = true ->
  tail_ok fl destination ->
  plain fl (OsPath.basename fl destination) = true ->
  temp_allowed (within fl Y T) (ev_within fl Y T P) h destination t.
Proof.
  intros Ht Hd Htl Hb. unfold temp_allowed.
  pose proof (os_path_colon_free h) as Hc.
  assert (Htt : tail_ok fl t).
  { rewrite Forall_forall in T_tail. now apply T_tail, list_elem_of_In. }
  set (td := OsPath.join fl t (OsPath.basename fl destination)).
  assert (Htd : inside fl Y T td).
  { apply (inside_temp t); [exact Ht|]. now apply under_join_plain. }
  assert (Hdst : inside fl Y T destination) by now left.
  assert (Hin : inside fl Y T (OsPath.join fl destination (OsPath.basename fl td))).
  { left. apply (under_trans fl Y destination); [exact Hd|].
    unfold td. rewrite OsPathFacts.basename_join by assumption.
    now apply under_join_plain. }
  assert (Hit : inside fl Y T t) by (apply (inside_temp t); [exact Ht | apply under_refl]).
  cbn [ev_within].
  split; [now left|]. split; [now left|]. split; [exact Ht|].
  split; [intros k Hk; left; now apply (inside_temp t)|].
  split; [now left|]. split; [exact Htd|]. split; [intros c; exact Htd|].
  split; [now split|]. split; [now split|]. now left.
Qed.

Lemma wsat_save_response_content (response : Response) (destination : string)
    (file_size : option Z) (progress : bool) :
  OsPath.under fl Y destination = true ->
  tail_ok fl destination ->
  plain fl (OsPath.basename fl destination) = true ->
  wsat (save_response_content h response destination file_size progress)
       (fun _ => True).
Proof.
  intros Hd Htl Hb. apply sat_save_response_content.
  - intros p Hp. exact Hp.
  - intros t Ht. now apply temp_allowed_within.
  - intros a b. exact I.
  - intros k Hk.
    assert (Hw : within fl Y T k).
    { apply (within_above destination); [exact Hd | now apply above_parent]. }
    now split.
  - left. now left.
Qed.

Lemma wsat_download_from_gdrive (id destination : string)
    (file_size : option Z) (progress : bool) :
  OsPath.under fl Y destination = true ->
  tail_ok fl destination ->
  plain fl (OsPath.basename fl destination) = true ->
  wsat (download_from_gdrive h id destination file_size progress)
       (fun _ => True).
Proof.
  intros Hd Htl Hb. apply sat_download_from_gdrive.
  - intros c. exact I.
  - intros p Hp. exact Hp.
  - intros t Ht. now apply temp_allowed_within.
  - intros a b. exact I.
  - intros k Hk.
    assert (Hw : within fl Y T k).
    { apply (within_above destination); [exact Hd | now apply above_parent]. }
    now split.
  - left. now left.
Qed.

Lemma wsat_extract_zip (zip_path : string) :
  wsat (extract_zip h zip_path Y) (fun _ => True).
Proof.
  apply sat_extract_zip.
  - intros name k Hk.
    assert (Hw : within fl Y T k).
    { apply (within_above _ k (extract_target h Y name Y_norm Y_dot Y_tail) Hk). }
    now split.
  - intros name.
    assert (Hi : inside fl Y T
                   (OsPath.normpath fl (OsPath.join fl Y (Zip.arcname fl name))))
      by (left; now apply extract_target).
    now split.
Qed.

End Region.

Lemma prefix_app_cancel (w a b : string) :
  String.prefix (w ++ a) (w ++ b) = String.prefix a b.
Proof.
  induction w as [|c w IH]; [reflexivity|].
  rewrite !OsPathFacts.app_cons. cbn [String.prefix].
  destruct (ascii_dec c c); [exact IH | congruence].
Qed.

Lemma plain_literals (h : Host) :
  plain (os_path h) "acdc-java" = true /\
  plain (os_path h) ".acdc-java" = true /\
  plain (os_path h) "win64" = true /\
  plain (os_path h) "java_temp.zip" = true /\
  plain (os_path h) "jdk_temp.zip" = true.
Proof. unfold os_path. destruct (is_win h); repeat split. Qed.

(** The older base directory and the installation directories of the
    primary one part ways inside the name [acdc-java]. *)
Lemma apart_legacy_install (h : Host) (folder : string) :
  plain (os_path h) folder = true ->
  apart (snd (get_acdc_java_path h))
        (OsPath.join (os_path h) (fst (get_acdc_java_path h)) folder).
Proof.
  intros Hf. pose proof (os_path_colon_free h) as Hc.
  destruct (plain_literals h) as (Ha & Hd & _).
  unfold get_acdc_java_path. cbn [fst snd].
  rewrite (OsPathFacts.join_tail_ok _ _ folder Hf)
    by now apply OsPathFacts.tail_ok_join.
  assert (HA : apart (OsPath.join (os_path h) (home h) ".acdc-java")
                     (OsPath.join (os_path h) (home h) "acdc-java")).
  { rewrite !(OsPathFacts.join_plain _ (home h)) by assumption.
    rewrite !OsPathFacts.app_assoc.
    split; now rewrite prefix_app_cancel. }
  destruct HA as [H1 H2]. split.
  - destruct (String.prefix _ (_ ++ _)) eqn:HL; [|reflexivity].
    destruct (prefix_comparable _ _ _ HL (PyStrFacts.prefix_app _ _)); congruence.
  - destruct (String.prefix (_ ++ _) _) eqn:HL; [|reflexivity].
    rewrite (prefix_trans _ _ _ (PyStrFacts.prefix_app _ _) HL) in H2.
    discriminate.
Qed.

(** The installation directory is not the current directory. *)
Lemma join_plain_not_dot (h : Host) (a n : string) :
  plain (os_path h) n = true -> n <> "." ->
  OsPath.join (os_path h) a n <> ".".
Proof.
  intros Hn Hd E. apply Hd.
  rewrite <- (OsPathFacts.basename_join (os_path h) (os_path_colon_free h) a n Hn).
  rewrite E. unfold os_path. now destruct (is_win h).
Qed.

Lemma java_profile_folder (h : Host) (foldername jre_name file_id : string)
    (file_size : Z) :
  java_profile h = inr (Assigned foldername jre_name file_id file_size) ->
  foldername <> ".".
Proof.
  unfold java_profile.
  repeat match goal with
         | |- context [match ?x with _ => _ end] => destruct x
         end;
    intros [= <- <- <- <-] || discriminate; discriminate.
Qed.

Lemma wsat_download_java (h : Host) (T P : list string)
    (java_path jre_path file_id : string) (file_size : Z) :
  get_java_info h = inr (Some (java_path, jre_path, file_id, file_size)) ->
  OsPath.normpath (os_path h) java_path = java_path ->
  Forall (tail_ok (os_path h)) T ->
  sat (fun t => In t T) (fun p => In p P) (within (os_path h) java_path T)
      (ev_within (os_path h) java_path T P)
      (download_java h) (fun _ => True).
Proof.
  intros Hinfo Hnorm HT. pose proof (os_path_colon_free h) as Hc.
  destruct (get_java_info_inv h _ _ _ _ Hinfo) as (folder & name & Hprof & Hjp & Hjre).
  destruct (java_profile_plain h _ _ _ _ Hprof) as [Hf Hn].
  pose proof (java_profile_folder h _ _ _ _ Hprof) as Hfd.
  destruct (plain_literals h) as (_ & _ & _ & Hz & _).
  assert (Htail : tail_ok (os_path h) java_path).
  { rewrite Hjp. now apply OsPathFacts.tail_ok_join. }
  assert (Hdot : java_path <> ".").
  { rewrite Hjp. now apply join_plain_not_dot. }
  assert (Hzip : OsPath.under (os_path h) java_path
                   (OsPath.join (os_path h) java_path "java_temp.zip") = true)
    by now apply under_join_plain.
  assert (Hzt : tail_ok (os_path h)
                  (OsPath.join (os_path h) java_path "java_temp.zip"))
    by now apply OsPathFacts.tail_ok_join.
  unfold download_java. rewrite Hinfo. apply sat_bind_lift.
  intros info [= <-].
  apply (sat_bind _ _ _ _ _ _ (fun _ => True)); [apply sat_exists|]. intros ex _.
  destruct ex; [now apply sat_ret|].
  unfold get_acdc_java_path.
  apply (sat_bind _ _ _ _ _ _ (fun _ => True)); [apply sat_exists|]. intros ex _.
  destruct ex; [now apply sat_ret|].
  apply (sat_bind _ _ _ _ _ _ (fun _ => True)); [apply sat_exists|]. intros ex _.
  apply sat_seq.
  { apply sat_when, sat_makedirs. intros k Hk.
    assert (Hw : within (os_path h) java_path T k) by now right.
    now split. }
  apply sat_seq.
  { apply wsat_download_from_gdrive; try assumption.
    now rewrite OsPathFacts.basename_join. }
  apply sat_seq; [now apply wsat_extract_zip|].
  apply sat_seq; [|now apply sat_ret].
  assert (Hw : inside (os_path h) java_path T
                 (OsPath.join (os_path h) java_path "java_temp.zip"))
    by now left.
  apply sat_remove; [now left | exact Hw].
Qed.

Lemma wsat_download_jdk (h : Host) (T P : list string)
    (java_path jdk_path file_id : string) (file_size : Z) :
  get_jdk_info h = (java_path, jdk_path, file_id, file_size) ->
  OsPath.normpath (os_path h) java_path = java_path ->
  Forall (tail_ok (os_path h)) T ->
  sat (fun t => In t T) (fun p => In p P) (within (os_path h) java_path T)
      (ev_within (os_path h) java_path T P)
      (download_jdk h) (fun _ => True).
Proof.
  intros Hinfo Hnorm HT. pose proof (os_path_colon_free h) as Hc.
  destruct (plain_literals h) as (_ & _ & Hw64 & _ & Hz).
  assert (Hjp : java_path
                = OsPath.join (os_path h) (fst (get_acdc_java_path h)) "win64").
  { unfold get_jdk_info in Hinfo. now injection Hinfo as <- _ _ _. }
  assert (Htail : tail_ok (os_path h) java_path).
  { rewrite Hjp. now apply OsPathFacts.tail_ok_join. }
  assert (Hdot : java_path <> ".").
  { rewrite Hjp. now apply join_plain_not_dot. }
  assert (Hzip : OsPath.under (os_path h) java_path
                   (OsPath.join (os_path h) java_path "jdk_temp.zip") = true)
    by now apply under_join_plain.
  assert (Hzt : tail_ok (os_path h)
                  (OsPath.join (os_path h) java_path "jdk_temp.zip"))
    by now apply OsPathFacts.tail_ok_join.
  unfold download_jdk. rewrite Hinfo.
  apply (sat_bind _ _ _ _ _ _ (fun _ => True)); [apply sat_exists|]. intros ex _.
  destruct ex; [now apply sat_ret|].
  unfold get_acdc_java_path.
  apply (sat_bind _ _ _ _ _ _ (fun _ => True)); [apply sat_exists|]. intros ex _.
  destruct ex; [now apply sat_ret|].
  apply sat_seq.
  { apply wsat_download_from_gdrive; try assumption.
    now rewrite OsPathFacts.basename_join. }
  apply sat_seq; [now apply wsat_extract_zip|].
  apply sat_seq; [|now apply sat_ret].
  assert (Hw : inside (os_path h) java_path T
                 (OsPath.join (os_path h) java_path "jdk_temp.zip"))
    by now left.
  apply sat_remove; [now left | exact Hw].
Qed.

(** What the region of the writes means for the older base directory. *)
Lemma within_outside (fl : OsPath.Flavour) (L Y : string) (T P : list string)
    (k : string) :
  apart L Y -> clear_of fl L T P -> within fl Y T k ->
  OsPath.under fl L k = false.
Proof.
  intros [H1 H2] [HT _] Hw.
  destruct (OsPath.under fl L k) eqn:HL; [exfalso|reflexivity].
  pose proof (under_prefix fl _ _ HL) as PL.
  destruct Hw as [[Hu|(t & Ht & Hu)]|Ha].
  - pose proof (under_prefix fl _ _ Hu) as PY.
    destruct (prefix_comparable L Y k PL PY); congruence.
  - rewrite Forall_forall in HT.
    destruct (HT t (proj2 (list_elem_of_In _ _) Ht)) as [Ht1 Ht2].
    destruct (under_comparable fl L t k HL Hu); congruence.
  - pose proof (above_prefix fl _ _ Ha) as Pk.
    rewrite (prefix_trans L k Y PL Pk) in H1. discriminate.
Qed.

Lemma ev_within_outside (fl : OsPath.Flavour) (L Y : string) (T P : list string)
    (e : Event) :
  apart L Y -> clear_of fl L T P -> ev_within fl Y T P e -> ev_outside fl L e.
Proof.
  intros HY HC He.
  assert (Hi : forall k, inside fl Y T k -> OsPath.under fl L k = false).
  { intros k Hk. apply (within_outside fl L Y T P); auto. now left. }
  destruct e; cbn [ev_within ev_outside] in *; auto.
  - now apply (within_outside fl L Y T P).
  - destruct He. auto.
  - destruct HC as [HT _]. rewrite Forall_forall in HT.
    now apply HT, list_elem_of_In.
  - destruct HC as [_ HP]. rewrite Forall_forall in HP.
    now apply HP, list_elem_of_In.
Qed.

Lemma sat_writes_only_within (fl : OsPath.Flavour) (L Y : string) {A}
    (m : M A) (s : State) :
  apart L Y ->
  sat (fun t => In t (tmp_names s)) (fun p => In p (probe_names s))
      (within fl Y (tmp_names s))
      (ev_within fl Y (tmp_names s) (probe_names s)) m (fun _ => True) ->
  writes_only_within fl L Y m s.
Proof.
  intros HY Hsat.
  destruct (Hsat s) as ((Hfs & evs & Htr & Hev) & _).
  { split; apply Forall_forall; intros x Hx; now apply list_elem_of_In. }
  split; [exact Hfs|]. split; [now exists evs|].
  intros HC. split.
  - intros p Hp. apply Hfs. intros Hw.
    rewrite (within_outside fl L Y _ _ p HY HC Hw) in Hp. discriminate.
  - exists evs. split; [exact Htr|].
    eapply Forall_impl; [exact Hev|]. intros e. now apply ev_within_outside.
Qed.

(** ** The recursion of [makedirs] ends *)

(** The path on which [makedirs] calls itself is shorter than its
    argument. *)
Lemma makedirs_head_shorter (fl : OsPath.Flavour) (name : string) :
  let '(head0, tail0) := OsPath.split fl name in
  let '(hd, tl) :=
    if PyStr.nonempty tail0 then (head0, tail0) else OsPath.split fl head0 in
  PyStr.nonempty tl = true ->
  (String.length hd < String.length name)%nat.
Proof.
  pose proof (split_length fl name) as H0.
  destruct (OsPath.split fl name) as [head0 tail0]. cbn [fst snd] in H0.
  destruct (PyStr.nonempty tail0) eqn:Ht.
  - intros _. destruct tail0; [discriminate|]. cbn [String.length] in H0. lia.
  - pose proof (split_length fl head0) as H1.
    destruct (OsPath.split fl head0) as [hd tl]. cbn [fst snd] in H1.
    intros Hn. destruct tl; [discriminate|]. cbn [String.length] in H1. lia.
Qed.

Lemma mkdir_error (h : Host) (p : string) (s : State) (msg : string) :
  (Fs.mkdir h p s).1 <> inl (RuntimeError msg).
Proof.
  unfold Fs.mkdir, Fs.no_entry, bind, gets, raise, set_fs, log, modify.
  cbn [fst snd].
  repeat match goal with
         | |- context [if ?b then _ else _] => destruct b
         end; discriminate.
Qed.

(** [makedirs] never fails for want of fuel. *)
Lemma makedirs_never_out_of_fuel (h : Host) (fuel : nat) (name : string)
    (s : State) :
  (String.length name <= fuel)%nat ->
  (Fs.makedirs_go h fuel name s).1
  <> inl (RuntimeError "maximum recursion depth exceeded").
Proof.
  revert name s. induction fuel as [|fuel IH]; intros name s Hlen.
  - destruct name; [|cbn in Hlen; lia].
    assert (Hs : OsPath.split (os_path h) "" = ("", ""))
      by (unfold os_path; now destruct (is_win h)).
    cbn [Fs.makedirs_go]. rewrite Hs. cbn [PyStr.nonempty]. rewrite Hs.
    unfold bind at 1. unfold Fs.exists_ at 1, gets at 1. cbn [andb].
    apply mkdir_error.
  - pose proof (makedirs_head_shorter (os_path h) name) as Hsh.
    cbn [Fs.makedirs_go].
    destruct (OsPath.split (os_path h) name) as [head0 tail0].
    destruct (if PyStr.nonempty tail0 then (head0, tail0)
              else OsPath.split (os_path h) head0) as [hd tl].
    unfold bind at 1. unfold Fs.exists_ at 1, gets at 1.
    destruct (PyStr.nonempty hd && PyStr.nonempty tl &&
              negb (Fs.is_some_node (fs s !! hd))) eqn:Hc.
    + apply andb_prop in Hc as [Hc _]. apply andb_prop in Hc as [_ Ht].
      specialize (Hsh Ht). specialize (IH hd s ltac:(lia)).
      unfold bind, except_file_exists.
      destruct (Fs.makedirs_go h fuel hd s) as [[e|[]] s1] eqn:Hrec;
        cbn [fst] in IH.
      * destruct e; try (cbn; congruence).
        destruct (String.eqb tl "."); [discriminate|]. apply mkdir_error.
      * destruct (String.eqb tl "."); [discriminate|]. apply mkdir_error.
    + apply mkdir_error.
Qed.

Lemma makedirs_total (h : Host) (name : string) (s : State) :
  (Fs.makedirs h name s).1
  <> inl (RuntimeError "maximum recursion depth exceeded").
Proof. now apply makedirs_never_out_of_fuel. Qed.

(** ** C9: statement *)

(** C9, as stated, fails.  In a download on a fresh Linux host [tempfile]
    first creates and removes a probe file in the directory for temporary
    files, and the body is written to a file of the temporary directory
    made there: neither is under [<home>/acdc-java].  And when that
    directory lies under [<home>/.acdc-java], the probe file, the
    temporary directory and the file are created there. *)
Lemma download_java_writes_outside_primary :
  (download_java host_linux state_fresh).1
    = inr "/home/u/acdc-java/linux/jre1.8.0_301" /\
  In (EvProbe "/tmp/q7h2p0xv")
     (trace (download_java host_linux state_fresh).2) /\
  In (EvCreate "/tmp/tmpk3x9/java_temp.zip")
     (trace (download_java host_linux state_fresh).2) /\
  OsPath.under (os_path host_linux) (fst (get_acdc_java_path host_linux))
    "/tmp/tmpk3x9/java_temp.zip" = false /\
  (download_java host_linux state_tmp_in_legacy).1
    = inr "/home/u/acdc-java/linux/jre1.8.0_301" /\
  In (EvCreate "/home/u/.acdc-java/tmp0/java_temp.zip")
     (trace (download_java host_linux state_tmp_in_legacy).2) /\
  OsPath.under (os_path host_linux) (snd (get_acdc_java_path host_linux))
    "/home/u/.acdc-java/tmp0/java_temp.zip" = true.
Proof.
  split; [vm_compute; reflexivity|].
  split; [vm_compute; repeat (try (left; reflexivity); right)|].
  split; [vm_compute; repeat (try (left; reflexivity); right)|].
  split; [vm_compute; reflexivity|].
  split; [vm_compute; reflexivity|].
  split; [vm_compute; repeat (try (left; reflexivity); right)|].
  vm_compute; reflexivity.
Qed.

(** C9, amended: when the installation directory
    [<home>/acdc-java/<folder>] is a normalised path and no name [mkdtemp]
    may use ends with a separator, [download_java] and [download_jdk],
    with the retrieval and the extraction they start, change entries only
    in the installation directory (at the directory and below it), in the
    directories named by the names [mkdtemp] may use, and at the
    directories above the installation directory.  Files are created,
    written, renamed and unlinked only in the installation directory and
    in such a temporary directory; above the installation directory
    directories are made and nothing else happens; the tree removed is
    that of a temporary name; and the probe file that [tempfile] creates
    and unlinks is one of its probe names.  When no temporary name and no
    probe name is under the older base directory [<home>/.acdc-java], and
    that directory is under no temporary name, no entry at it or below it
    changes and no event names a path there: it is only read. *)
Theorem downloads_write_only_within (h : Host) (s : State) :
  let fl := os_path h in
  let L := snd (get_acdc_java_path h) in
  Forall (tail_ok fl) (tmp_names s) ->
  (forall java_path jre_path file_id file_size,
      get_java_info h = inr (Some (java_path, jre_path, file_id, file_size)) ->
      OsPath.normpath fl java_path = java_path ->
      writes_only_within fl L java_path (download_java h) s) /\
  (forall java_path jdk_path file_id file_size,
      get_jdk_info h = (java_path, jdk_path, file_id, file_size) ->
      OsPath.normpath fl java_path = java_path ->
      writes_only_within fl L java_path (download_jdk h) s).
Proof.
  cbv zeta. intros HT. split.
  - intros java_path jre_path file_id file_size Hinfo Hnorm.
    apply sat_writes_only_within.
    + destruct (get_java_info_inv h _ _ _ _ Hinfo)
        as (folder & name & Hprof & -> & _).
      destruct (java_profile_plain h _ _ _ _ Hprof) as [Hf _].
      now apply apart_legacy_install.
    + exact (wsat_download_java h (tmp_names s) (probe_names s) _ _ _ _
               Hinfo Hnorm HT).
  - intros java_path jdk_path file_id file_size Hinfo Hnorm.
    apply sat_writes_only_within.
    + unfold get_jdk_info in Hinfo. injection Hinfo as <- _ _ _.
      apply apart_legacy_install.
      unfold os_path. now destruct (is_win h).
    + exact (wsat_download_jdk h (tmp_names s) (probe_names s) _ _ _ _
               Hinfo Hnorm HT).
Qed.

Lemma downloads_write_only_within_witness :
  fs (download_java host_linux state_fresh).2 !! "/home/u/.acdc-java/linux"
  = fs state_fresh !! "/home/u/.acdc-java/linux".
Proof.
  refine (proj1 (proj2 (proj2 (proj1 (downloads_write_only_within
            host_linux state_fresh _) "/home/u/acdc-java/linux"
            "/home/u/acdc-java/linux/jre1.8.0_301"
            "1Fz8krhOS8JsX-GhkRDeMiEnAIWqZmCfP" 92145253 _ _)) _)
            "/home/u/.acdc-java/linux" _).
  - repeat constructor; eexists; split; reflexivity.
  - reflexivity.
  - reflexivity.
  - repeat constructor.
  - reflexivity.
Defined.

(** * Further properties of the code *)

(** ** [get_java_info] on the platforms without a profile *)

(** X1: On a platform that is neither Linux, macOS nor Windows no branch of
    [get_java_info] assigns [foldername]: the function raises
    [UnboundLocalError], and so do [download_java] and, without JAVA_HOME,
    [find_javahome], before anything is read or written. *)
Theorem get_java_info_unknown_platform (h : Host) :
  is_linux h = false -> is_mac h = false -> is_win h = false ->
  get_java_info h = inl (UnboundLocalError "foldername") /\
  (forall s, download_java h s = (inl (UnboundLocalError "foldername"), s)) /\
  (environ h !! "JAVA_HOME" = None ->
   forall s, find_javahome h s = (inl (UnboundLocalError "foldername"), s)).
Proof.
  intros Hl Hm Hw.
  assert (Hinfo : get_java_info h = inl (UnboundLocalError "foldername")).
  { unfold get_java_info, java_profile.
    fold (is_win h) (is_mac h) (is_linux h). now rewrite Hw, Hm, Hl. }
  assert (Hd : forall s, download_java h s
                         = (inl (UnboundLocalError "foldername"), s)).
  { intros s. unfold download_java, bind, lift. now rewrite Hinfo. }
  split; [exact Hinfo|]. split; [exact Hd|].
  intros Hj s. unfold find_javahome. rewrite Hj. unfold bind. now rewrite Hd.
Qed.

Lemma get_java_info_unknown_platform_witness :
  download_java host_freebsd empty_state
  = (inl (UnboundLocalError "foldername"), empty_state).
Proof.
  refine (proj1 (proj2 (get_java_info_unknown_platform host_freebsd _ _ _))
            empty_state); reflexivity.
Defined.

(** X2: On Windows [get_java_info] reads PROCESSOR_ARCHITECTURE with
    [os.environ[...]]: when the variable is not set it raises [KeyError],
    and [download_java] fails with it and leaves the state as it was. *)
Theorem get_java_info_windows_without_architecture (h : Host) :
  is_win h = true ->
  environ h !! "PROCESSOR_ARCHITECTURE" = None ->
  get_java_info h = inl (KeyError "PROCESSOR_ARCHITECTURE") /\
  forall s, download_java h s = (inl (KeyError "PROCESSOR_ARCHITECTURE"), s).
Proof.
  intros Hw Ha.
  assert (Hinfo : get_java_info h = inl (KeyError "PROCESSOR_ARCHITECTURE")).
  { unfold get_java_info, java_profile. fold (is_win h). now rewrite Hw, Ha. }
  split; [exact Hinfo|].
  intros s. unfold download_java, bind, lift. now rewrite Hinfo.
Qed.

Lemma get_java_info_windows_without_architecture_witness :
  download_java host_win_no_arch empty_state
  = (inl (KeyError "PROCESSOR_ARCHITECTURE"), empty_state).
Proof.
  refine (proj2 (get_java_info_windows_without_architecture host_win_no_arch _ _)
            empty_state); reflexivity.
Defined.

(** ** The paths [get_java_info] and [get_jdk_info] return *)

Lemma tail_ok_acdc (h : Host) : tail_ok (os_path h) (fst (get_acdc_java_path h)).
Proof.
  unfold get_acdc_java_path. cbn [fst].
  apply OsPathFacts.tail_ok_join; [apply os_path_colon_free|].
  now destruct (plain_literals h).
Qed.

(** X3: Whatever the home directory, the paths of a profile nest as their
    names say: the runtime directory is named [jre1.8.0_301] and lies
    directly in [java_path], [java_path] lies directly in
    [<home>/acdc-java], and the archive [java_temp.zip] that [download_java]
    saves lies directly in [java_path]; the expected size is positive and
    the file id is not empty. *)
Theorem get_java_info_paths (h : Host)
    (java_path jre_path file_id : string) (file_size : Z) :
  get_java_info h = inr (Some (java_path, jre_path, file_id, file_size)) ->
  let fl := os_path h in
  OsPath.dirname fl jre_path = java_path /\
  OsPath.basename fl jre_path = "jre1.8.0_301" /\
  OsPath.dirname fl java_path = fst (get_acdc_java_path h) /\
  In (OsPath.basename fl java_path) ["win64"; "macOS"; "linux"] /\
  OsPath.dirname fl (OsPath.join fl java_path "java_temp.zip") = java_path /\
  0 < file_size /\ file_id <> "".
Proof.
  intros Hinfo. cbv zeta. pose proof (os_path_colon_free h) as Hc.
  destruct (get_java_info_inv h _ _ _ _ Hinfo)
    as (folder & name & Hprof & -> & ->).
  destruct (java_profile_plain h _ _ _ _ Hprof) as [Hf Hn].
  destruct (plain_literals h) as (_ & _ & _ & Hz & _).
  assert (Hjp : tail_ok (os_path h)
                  (OsPath.join (os_path h) (fst (get_acdc_java_path h)) folder))
    by now apply OsPathFacts.tail_ok_join.
  rewrite !OsPathFacts.dirname_join, !OsPathFacts.basename_join
    by (try assumption; apply tail_ok_acdc).
  assert (Hvals : name = "jre1.8.0_301" /\
                  In folder ["win64"; "macOS"; "linux"] /\
                  0 < file_size /\ file_id <> "").
  { clear - Hprof. unfold java_profile in Hprof.
    repeat match type of Hprof with
           | context [match ?x with _ => _ end] => destruct x
           end;
      try discriminate; injection Hprof as <- <- <- <-;
      (split; [reflexivity|]); (split; [cbn; tauto|]); split;
      (reflexivity || discriminate). }
  destruct Hvals as (-> & Hin & Hsz & Hid). repeat split; auto.
Qed.

Lemma get_java_info_paths_witness :
  OsPath.dirname (os_path host_linux) "/home/u/acdc-java/linux/jre1.8.0_301"
  = "/home/u/acdc-java/linux".
Proof.
  refine (proj1 (get_java_info_paths host_linux "/home/u/acdc-java/linux"
            "/home/u/acdc-java/linux/jre1.8.0_301"
            "1Fz8krhOS8JsX-GhkRDeMiEnAIWqZmCfP" 92145253 _)).
  reflexivity.
Defined.

(** X4: The two base directories of [get_acdc_java_path] never nest: for every
    home directory and on both kinds of platform, neither path begins with
    the other, so a path under the one is never a path under the other. *)
Theorem acdc_java_paths_apart (h : Host) :
  apart (fst (get_acdc_java_path h)) (snd (get_acdc_java_path h)) /\
  forall p, OsPath.under (os_path h) (fst (get_acdc_java_path h)) p = true ->
            OsPath.under (os_path h) (snd (get_acdc_java_path h)) p = false.
Proof.
  assert (HA : apart (fst (get_acdc_java_path h)) (snd (get_acdc_java_path h))).
  { destruct (plain_literals h) as (Ha & Hd & _).
    unfold get_acdc_java_path. cbn [fst snd].
    rewrite !(OsPathFacts.join_plain _ (home h)) by assumption.
    rewrite !OsPathFacts.app_assoc.
    split; now rewrite prefix_app_cancel. }
  split; [exact HA|].
  intros p Hp. apply under_prefix in Hp.
  destruct (OsPath.under (os_path h) (snd (get_acdc_java_path h)) p) eqn:Hq;
    [|reflexivity].
  apply under_prefix in Hq. destruct HA as [H1 H2].
  destruct (prefix_comparable _ _ _ Hp Hq); congruence.
Qed.

(** X5: The JDK is installed as the runtimes are, in the folder [win64] on
    every platform: its directory is named [jdk1.8.0_321] and lies directly
    in [java_path].  It never collides with a runtime: the directory, the
    file id and the name of the archive differ from those of every profile
    of [get_java_info], and on Windows the two share [java_path]. *)
Theorem get_jdk_info_paths (h : Host)
    (java_path jdk_path file_id : string) (file_size : Z) :
  get_jdk_info h = (java_path, jdk_path, file_id, file_size) ->
  let fl := os_path h in
  OsPath.dirname fl jdk_path = java_path /\
  OsPath.basename fl jdk_path = "jdk1.8.0_321" /\
  OsPath.dirname fl java_path = fst (get_acdc_java_path h) /\
  OsPath.basename fl java_path = "win64" /\
  forall jre_java_path jre_path jre_file_id jre_file_size,
    get_java_info h
    = inr (Some (jre_java_path, jre_path, jre_file_id, jre_file_size)) ->
    jdk_path <> jre_path /\ file_id <> jre_file_id /\
    OsPath.join fl java_path "jdk_temp.zip"
    <> OsPath.join fl jre_java_path "java_temp.zip" /\
    (is_win h = true -> jre_java_path = java_path).
Proof.
  intros Hinfo. cbv zeta. pose proof (os_path_colon_free h) as Hc.
  destruct (plain_literals h) as (_ & _ & Hw & Hz & Hk).
  assert (Hjdk : plain (os_path h) "jdk1.8.0_321" = true).
  { unfold os_path. now destruct (is_win h). }
  unfold get_jdk_info in Hinfo.
  destruct (get_acdc_java_path h) as [acdc dot] eqn:Hp.
  injection Hinfo as <- <- <- <-.
  assert (Hacdc : acdc = fst (get_acdc_java_path h)) by now rewrite Hp.
  assert (Ha : tail_ok (os_path h) acdc) by (rewrite Hacdc; apply tail_ok_acdc).
  assert (Hjp : tail_ok (os_path h) (OsPath.join (os_path h) acdc "win64"))
    by now apply OsPathFacts.tail_ok_join.
  rewrite !OsPathFacts.dirname_join, !OsPathFacts.basename_join by assumption.
  cbn [fst].
  repeat (split; [reflexivity|]).
  intros jp jre id sz Hjre.
  destruct (get_java_info_inv h _ _ _ _ Hjre) as (folder & name & Hprof & -> & ->).
  destruct (java_profile_plain h _ _ _ _ Hprof) as [Hf Hn].
  rewrite Hp. cbn [fst].
  assert (Hvals : name = "jre1.8.0_301" /\
                  id <> "1G6SNk5vESqgdxob5UQv87PgVpIJa_dTe" /\
                  (is_win h = true -> folder = "win64")).
  { clear - Hprof. unfold java_profile in Hprof.
    fold (is_win h) (is_mac h) (is_linux h) in Hprof.
    destruct (is_win h) eqn:Hwin.
    - rewrite (win_not_mac h Hwin), (win_not_linux h Hwin) in Hprof.
      destruct (environ h !! "PROCESSOR_ARCHITECTURE") as [a|];
        [destruct (String.eqb a "AMD64")|]; try discriminate.
      injection Hprof as <- <- <- <-.
      split; [reflexivity|]. split; [discriminate|]. reflexivity.
    - destruct (is_mac h), (is_linux h); try discriminate;
        injection Hprof as <- <- <- <-;
        (split; [reflexivity|]); (split; [discriminate|]); discriminate. }
  destruct Hvals as (-> & Hid & Hfolder).
  split; [|split; [congruence|split]].
  - intros Heq.
    apply (f_equal (OsPath.basename (os_path h))) in Heq.
    rewrite !OsPathFacts.basename_join in Heq by assumption. discriminate.
  - intros Heq.
    apply (f_equal (OsPath.basename (os_path h))) in Heq.
    rewrite !OsPathFacts.basename_join in Heq by assumption. discriminate.
  - intros Hwin. now rewrite (Hfolder Hwin).
Qed.

Lemma get_jdk_info_paths_witness :
  OsPath.dirname (os_path host_linux) "/home/u/acdc-java/win64/jdk1.8.0_321"
  = "/home/u/acdc-java/win64".
Proof.
  refine (proj1 (get_jdk_info_paths host_linux "/home/u/acdc-java/win64"
                   "/home/u/acdc-java/win64/jdk1.8.0_321"
                   "1G6SNk5vESqgdxob5UQv87PgVpIJa_dTe" 135524352 _)).
  reflexivity.
Defined.

(** ** The confirmation token and the requests, in every run *)



(** X7: A request that gets no answer ends [download_from_gdrive] with
    [ConnectionError] before a temporary directory is made or a file is
    touched: after the first request when that one fails, and after the
    confirmed request when the first answer carries a token and the second
    request fails. *)
Theorem download_from_gdrive_connection_failure (h : Host)
    (id destination : string) (file_size : option Z) (progress : bool)
    (s : State) :
  (server h id None = None ->
   download_from_gdrive h id destination file_size progress s
   = (inl ConnectionError, add_events s [EvGet id None])) /\
  (forall r1 token,
      server h id None = Some r1 ->
      get_confirm_token r1 = Some token -> token <> "" ->
      server h id (Some token) = None ->
      download_from_gdrive h id destination file_size progress s
      = (inl ConnectionError,
         add_events s [EvGet id None; EvGet id (Some token)])).
Proof.
  split.
  - intros H1. cbv [download_from_gdrive bind session_get log modify].
    now rewrite H1.
  - intros r1 token H1 Htok Hne H2.
    cbv [download_from_gdrive bind session_get log modify].
    rewrite H1. cbv [ret]. rewrite Htok.
    destruct token as [|c token]; [contradiction|]. cbn [PyStr.nonempty].
    rewrite H2. unfold add_events. cbn [fs tmp_names trace raise].
    now rewrite <- app_assoc.
Qed.

Lemma download_from_gdrive_connection_failure_witness :
  download_from_gdrive host_linux_with_java_home "1Fz8" "/home/u/java.zip"
    None false state_fresh
  = (inl ConnectionError, add_events state_fresh [EvGet "1Fz8" None]).
Proof.
  refine (proj1 (download_from_gdrive_connection_failure
                   host_linux_with_java_home "1Fz8" "/home/u/java.zip"
                   None false state_fresh) _).
  reflexivity.
Defined.

(** X8: In every run, failed or not, [download_from_gdrive] sends one request
    or two, all for the given id: the first without a confirmation, and a
    second one only when the first answer carries a token that is not
    empty, with that token. *)
Theorem download_from_gdrive_request_shape (h : Host)
    (id destination : string) (file_size : option Z) (progress : bool)
    (s : State) :
  let s' := (download_from_gdrive h id destination file_size progress s).2 in
  requests (trace s') = (requests (trace s) ++ [(id, None)])%list \/
  exists r1 token,
    server h id None = Some r1 /\
    get_confirm_token r1 = Some token /\ token <> "" /\
    requests (trace s')
    = (requests (trace s) ++ [(id, None); (id, Some token)])%list.
Proof.
  cbv zeta.
  assert (Hsave : forall r evs,
             requests (trace (save_response_content h r destination file_size
                                progress (add_events s evs)).2)
             = (requests (trace s) ++ requests evs)%list).
  { intros r evs. rewrite save_response_content_no_request.
    unfold add_events. cbn [trace]. apply requests_app. }
  destruct (server h id None) as [r1|] eqn:H1.
  2:{ left. cbv [download_from_gdrive bind session_get log modify].
      rewrite H1. cbn [snd trace raise]. now rewrite requests_app. }
  destruct (get_confirm_token r1) as [token|] eqn:Htok.
  2:{ left.
      replace (download_from_gdrive h id destination file_size progress s)
        with (save_response_content h r1 destination file_size progress
                (add_events s [EvGet id None])).
      - apply Hsave.
      - cbv [download_from_gdrive bind session_get log modify].
        rewrite H1. cbv [ret]. now rewrite Htok. }
  destruct token as [|c token].
  { left.
    replace (download_from_gdrive h id destination file_size progress s)
      with (save_response_content h r1 destination file_size progress
              (add_events s [EvGet id None])).
    - apply Hsave.
    - cbv [download_from_gdrive bind session_get log modify].
      rewrite H1. cbv [ret]. now rewrite Htok. }
  right. exists r1, (String c token).
  split; [reflexivity|]. split; [exact Htok|]. split; [discriminate|].
  destruct (server h id (Some (String c token))) as [r2|] eqn:H2.
  - replace (download_from_gdrive h id destination file_size progress s)
      with (save_response_content h r2 destination file_size progress
              (add_events s [EvGet id None; EvGet id (Some (String c token))])).
    + apply Hsave.
    + cbv [download_from_gdrive bind session_get log modify].
      rewrite H1. cbv [ret]. rewrite Htok. cbn [PyStr.nonempty].
      rewrite H2. unfold add_events. cbn [fs tmp_names trace].
      now rewrite <- app_assoc.
  - cbv [download_from_gdrive bind session_get log modify].
    rewrite H1. cbv [ret]. rewrite Htok. cbn [PyStr.nonempty].
    rewrite H2. cbn [snd trace raise].
    rewrite !requests_app. cbn. now rewrite <- app_assoc.
Qed.

(** ** Runs of [save_response_content] that fail *)

Lemma bind_err {A B} (m : M A) (k : A -> M B) (s s1 : State) (e : Exn) :
  m s = (inl e, s1) -> bind m k s = (inl e, s1).
Proof. unfold bind. now intros ->. Qed.

(** A primitive that fails leaves the state as it was. *)
Lemma open_wb_inl (h : Host) (p : string) (s s' : State) (e : Exn) :
  Fs.open_wb h p s = (inl e, s') ->
  s' = s /\ e <> ChunkedEncodingError.
Proof.
  unfold Fs.open_wb, Fs.no_entry, bind, gets, raise, set_fs, log, modify.
  cbn [fst snd].
  destruct (negb (PyStr.nonempty (OsPath.basename (os_path h) p)));
    [intros [= <- <-]; now split|].
  destruct (Fs.is_dir_node (fs s !! p)); [intros [= <- <-]; now split|].
  destruct (negb (Fs.parent_ok h (fs s) p)); [|discriminate].
  destruct (_ && _); intros [= <- <-]; now split.
Qed.

Lemma open_wb_ok (h : Host) (p : string) (s s' : State) :
  Fs.open_wb h p s = (inr tt, s') ->
  fs s' = <[p := File []]> (fs s) /\ tmp_names s' = tmp_names s /\
  PyStr.nonempty (OsPath.basename (os_path h) p) = true /\
  Fs.is_dir_node (fs s !! p) = false.
Proof.
  unfold Fs.open_wb, bind, gets, raise, set_fs, log, modify. cbn [fst snd].
  destruct (PyStr.nonempty (OsPath.basename (os_path h) p)); cbn [negb];
    [|discriminate].
  destruct (Fs.is_dir_node (fs s !! p)); [discriminate|].
  destruct (negb (Fs.parent_ok h (fs s) p)); [discriminate|].
  intros [= <-]. auto.
Qed.

Lemma move_inl (h : Host) (src dst : string) (s s' : State) (e : Exn) :
  Fs.move h src dst s = (inl e, s') -> s' = s.
Proof.
  unfold Fs.move, Fs.no_entry, Fs.isdir, Fs.exists_, bind, gets, raise, ret,
    set_fs, log, modify. cbn [fst snd].
  repeat match goal with
         | |- context [if ?b then _ else _] => destruct b
         | |- context [match fs s !! ?p with _ => _ end] =>
             destruct (fs s !! p) as [[]|]
         end; cbn [fst snd]; intros [= <- <-] || discriminate; reflexivity.
Qed.

(** Where a successful [shutil.move] puts the file: at [dst], or inside
    [dst] under a name that was free. *)
Lemma move_ok (h : Host) (src dst : string) (s s' : State) :
  Fs.move h src dst s = (inr tt, s') ->
  exists c r,
    fs s !! src = Some (File c) /\
    fs s' = <[r := File c]> (delete src (fs s)) /\
    tmp_names s' = tmp_names s /\
    (r = dst /\ Fs.is_dir_node (fs s !! dst) = false \/ fs s !! r = None).
Proof.
  unfold Fs.move, Fs.isdir, Fs.exists_, bind, gets, raise, ret, set_fs, log,
    modify. cbn [fst snd].
  destruct (Fs.is_dir_node (fs s !! dst)) eqn:Hd.
  - destruct (fs s !! OsPath.join (os_path h) dst (OsPath.basename (os_path h) src))
      as [n|] eqn:Hr; cbn [Fs.is_some_node fst snd]; [discriminate|].
    destruct (fs s !! src) as [[|c]|]; try discriminate.
    destruct (Fs.parent_ok h (fs s) _); [|discriminate].
    intros [= <-]. exists c, (OsPath.join (os_path h) dst (OsPath.basename (os_path h) src)).
    auto.
  - destruct (fs s !! src) as [[|c]|]; try discriminate.
    destruct (Fs.parent_ok h (fs s) dst); [|discriminate].
    intros [= <-]. exists c, dst. repeat split; auto.
Qed.

(** A run of [mkdtemp]: it fails with the file system as it was, or makes
    the first free name and hands it out. *)
Lemma mkdtemp_run (s : State) :
  (exists e s0, Fs.mkdtemp s = (inl e, s0) /\ fs s0 = fs s /\
                e <> ChunkedEncodingError) \/
  exists t rest s1,
    Fs.first_free (fs s) (tmp_names s) = Some (t, rest) /\
    Fs.mkdtemp s = (inr t, s1) /\
    fs s1 = <[t := Dir]> (fs s) /\ tmp_names s1 = rest.
Proof.
  unfold Fs.mkdtemp, bind.
  destruct (gettempdir_run s) as [[msg ->]|(s0 & -> & Hfs & Htn)].
  { left. eexists _, s. now repeat split. }
  rewrite Hfs, Htn.
  destruct (Fs.first_free (fs s) (tmp_names s)) as [[t rest]|] eqn:Hf.
  - right. eexists t, rest, _. now repeat split.
  - left. eexists _, s0. now repeat split.
Qed.

(** The run of [save_response_content] up to the end of the stream: the
    temporary directory [t] is the first free name, the body is in
    [temp_dst], and nothing else has changed. *)
Lemma save_response_content_stream (h : Host) (response : Response)
    (destination : string) (file_size : option Z) (progress : bool)
    (s : State) :
  let fl := os_path h in
  let run := save_response_content h response destination file_size progress s in
  (exists e s0, run = (inl e, s0) /\ fs s0 = fs s /\
                e <> ChunkedEncodingError) \/
  exists t rest,
    Fs.first_free (fs s) (tmp_names s) = Some (t, rest) /\
    let temp_dst := OsPath.join fl t (OsPath.basename fl destination) in
    (exists e s2, run = (inl e, s2) /\ fs s2 = <[t := Dir]> (fs s) /\
                  e <> ChunkedEncodingError) \/
    exists s4,
      temp_dst <> t /\
      PyStr.nonempty (OsPath.basename fl temp_dst) = true /\
      fs s4 !! temp_dst = Some (File (concat (chunks response))) /\
      (forall q, q <> temp_dst -> fs s4 !! q = <[t := Dir]> (fs s) !! q) /\
      run = (when (broken response) (raise ChunkedEncodingError) ;;;
             ex <- Fs.exists_ (OsPath.dirname fl destination) ;;
             when (negb ex) (Fs.makedirs h (OsPath.dirname fl destination)) ;;;
             Fs.move h temp_dst destination ;;;
             Fs.rmtree h t) s4.
Proof.
  unfold save_response_content. cbv zeta.
  destruct (mkdtemp_run s)
    as [(e & s0 & Hmk & Hfs0 & He)|(t & rest & s1 & Hff & Hmk & Hfs1 & Htn1)].
  { left. exists e, s0. split; [now apply bind_err | now split]. }
  right. exists t, rest. split; [exact Hff|].
  rewrite (bind_ok _ _ _ _ _ Hmk).
  set (td := OsPath.join (os_path h) t (OsPath.basename (os_path h) destination)).
  assert (Hex : Fs.exists_ t s1 = (inr true, s1)).
  { unfold Fs.exists_, gets. now rewrite Hfs1, lookup_insert_eq. }
  rewrite (bind_ok _ _ _ _ _ Hex). cbn [negb when].
  rewrite (bind_ok (ret tt) _ s1 s1 tt) by reflexivity.
  assert (Hstart : exists s2,
             match file_size with
             | Some size => when progress (emit size (-1))
             | None => ret tt
             end s1 = (inr tt, s2) /\ fs s2 = fs s1 /\ tmp_names s2 = rest).
  { destruct file_size as [size|]; [destruct progress|]; cbn; eauto. }
  destruct Hstart as (s2 & Hstart & Hfs2 & Htn2).
  rewrite Hfs1 in Hfs2.
  rewrite (bind_ok _ _ _ _ _ Hstart).
  destruct (Fs.open_wb h td s2) as [[e|[]] s3] eqn:Hopen.
  { left. destruct (open_wb_inl _ _ _ _ _ Hopen) as [-> He].
    exists e, s2. split; [now apply bind_err|]. now split. }
  right. rewrite (bind_ok _ _ _ _ _ Hopen).
  apply open_wb_ok in Hopen as (Hfs3 & Htn3 & Hbase & Hnd).
  assert (Htd3 : fs s3 !! td = Some (File [])).
  { rewrite Hfs3. apply lookup_insert_eq. }
  destruct (stream_fs td progress (chunks response) s3 [] Htd3) as (H1 & Hc4 & Ho4).
  cbn [app] in Hc4.
  destruct (for_each (chunks response) _ s3) as [[e|[]] s4] eqn:Hloop;
    [discriminate|].
  cbn [snd] in Hc4, Ho4.
  rewrite (bind_ok _ _ _ _ _ Hloop).
  assert (Hne : td <> t).
  { intros Heq. rewrite Heq, Hfs2 in Hnd.
    now rewrite lookup_insert_eq in Hnd. }
  exists s4. repeat split; try assumption.
  - intros q Hq. rewrite (Ho4 _ Hq), Hfs3, lookup_insert_ne, Hfs2 by congruence.
    reflexivity.
Qed.

(** The end of [save_response_content], from the state [s4] in which the
    stream has been saved to [temp_dst]: what each failure and the
    success leave. *)
Lemma save_response_content_tail (h : Host) (destination t temp_dst : string)
    (c : bytes) (s4 : State) :
  let fl := os_path h in
  let dir := OsPath.dirname fl destination in
  let run := (ex <- Fs.exists_ dir ;;
              when (negb ex) (Fs.makedirs h dir) ;;;
              Fs.move h temp_dst destination ;;;
              Fs.rmtree h t) s4 in
  fs s4 !! t = Some Dir -> fs s4 !! temp_dst = Some (File c) ->
  (exists e s6, run = (inl e, s6) /\
     (forall p n, fs s4 !! p = Some n -> fs s6 !! p = Some n) /\
     (forall p, String.prefix p dir = false -> fs s6 !! p = fs s4 !! p)) \/
  (exists s6 s7 r,
     run = (inr tt, {| fs := filter (fun kv => OsPath.under fl t kv.1 = false)
                                    (fs s7);
                       tmp_names := tmp_names s7;
                       probe_names := probe_names s7;
                       trace := trace s7 ++ [EvRmtree t] |}) /\
     (forall p n, fs s4 !! p = Some n -> fs s6 !! p = Some n) /\
     (forall p, String.prefix p dir = false -> fs s6 !! p = fs s4 !! p) /\
     fs s7 = <[r := File c]> (delete temp_dst (fs s6)) /\
     (r = destination \/ fs s6 !! r = None)).
Proof.
  intros fl dir run Ht Htd.
  assert (Hrun : run = (when (negb (Fs.is_some_node (fs s4 !! dir)))
                          (Fs.makedirs h dir) ;;;
                        Fs.move h temp_dst destination ;;;
                        Fs.rmtree h t) s4) by reflexivity.
  rewrite Hrun. clear Hrun run.
  destruct (when (negb (Fs.is_some_node (fs s4 !! dir))) (Fs.makedirs h dir) s4)
    as [[e|[]] s6] eqn:Hmd.
  - left. exists e, s6. split; [now apply bind_err|].
    destruct (Fs.is_some_node (fs s4 !! dir)); cbn [negb when] in Hmd.
    + discriminate.
    + pose proof (makedirs_fs h dir s4) as Hm. now rewrite Hmd in Hm.
  - assert (Hs6 : (forall p n, fs s4 !! p = Some n -> fs s6 !! p = Some n) /\
                  (forall p, String.prefix p dir = false ->
                             fs s6 !! p = fs s4 !! p)).
    { destruct (Fs.is_some_node (fs s4 !! dir)); cbn [negb when] in Hmd.
      - injection Hmd as <-. auto.
      - pose proof (makedirs_fs h dir s4) as Hm. now rewrite Hmd in Hm. }
    destruct Hs6 as [Hgrow Hframe].
    rewrite (bind_ok _ _ _ _ _ Hmd).
    destruct (Fs.move h temp_dst destination s6) as [[e|[]] s7] eqn:Hmove.
    + left. exists e, s6. split; [|now split].
      apply bind_err. now rewrite (move_inl _ _ _ _ _ _ Hmove) in Hmove.
    + right. rewrite (bind_ok _ _ _ _ _ Hmove).
      apply move_ok in Hmove as (c' & r & Hsrc & Hfs7 & _ & Hr).
      rewrite (Hgrow _ _ Htd) in Hsrc. injection Hsrc as <-.
      exists s6, s7, r.
      split; [|repeat split; try assumption; tauto].
      unfold Fs.rmtree, bind, gets, set_fs, log, modify. cbn [fst snd].
      assert (H7 : fs s7 !! t = Some Dir).
      { rewrite Hfs7, lookup_insert_ne, lookup_delete_ne.
        - now apply Hgrow.
        - intros ->. congruence.
        - intros ->. destruct Hr as [[-> Hr] | Hr];
            rewrite (Hgrow _ _ Ht) in Hr; discriminate. }
      now rewrite H7.
Qed.

Lemma makedirs_empty (h : Host) (s : State) :
  Fs.makedirs h "" s = (inl (FileNotFoundError ""), s).
Proof.
  unfold Fs.makedirs. cbn [String.length Fs.makedirs_go]. unfold os_path.
  destruct (is_win h); reflexivity.
Qed.

(** X9: A download whose stream breaks does not touch the destination: the
    failure comes before [os.makedirs] and [shutil.move] are reached, so
    [save_response_content] raises and the entry at [destination] is the
    one from before the call.  (The name of the destination is a plain
    file name and no temporary name is a beginning of the destination.) *)
Theorem save_response_content_broken_keeps_destination (h : Host)
    (response : Response) (destination : string) (file_size : option Z)
    (progress : bool) (s : State) :
  broken response = true ->
  plain (os_path h) (OsPath.basename (os_path h) destination) = true ->
  Forall (fun t => String.prefix t destination = false) (tmp_names s) ->
  let run := save_response_content h response destination file_size progress s in
  (exists e, run.1 = inl e) /\
  fs run.2 !! destination = fs s !! destination.
Proof.
  intros Hbroken Hplain Htmp run.
  destruct (save_response_content_stream h response destination file_size
              progress s)
    as [(e0 & s0 & H0 & Hfs0 & _) |
        (t & rest & Hff & [(e0 & s2 & H0 & Hfs2 & _) |
                           (s4 & Hne & Hb & Hc4 & Ho4 & H0)])];
    cbv zeta in *; fold run in H0.
  - rewrite H0. cbn [fst snd]. split; [now exists e0|]. now rewrite Hfs0.
  - destruct (first_free_inv _ _ _ _ Hff) as [Hin _].
    rewrite Forall_forall in Htmp.
    assert (Ht : t <> destination).
    { intros ->. specialize (Htmp _ (proj2 (list_elem_of_In _ _) Hin)).
      cbv beta in Htmp. now rewrite prefix_refl in Htmp. }
    rewrite H0. cbn [fst snd]. split; [now exists e0|].
    rewrite Hfs2. now apply lookup_insert_ne.
  - destruct (first_free_inv _ _ _ _ Hff) as [Hin _].
    rewrite Forall_forall in Htmp.
    specialize (Htmp _ (proj2 (list_elem_of_In _ _) Hin)). cbv beta in Htmp.
    assert (Ht : t <> destination).
    { intros ->. now rewrite prefix_refl in Htmp. }
    set (td := OsPath.join (os_path h) t
                 (OsPath.basename (os_path h) destination)) in *.
    assert (Htd : td <> destination).
    { intros Heq.
      pose proof (join_prefix (os_path h) t _ (plain_relative _ _ Hplain)) as Hp.
      fold td in Hp. rewrite Heq in Hp. congruence. }
    rewrite Hbroken in H0. cbn in H0. rewrite H0. cbn [fst snd].
    split; [now exists ChunkedEncodingError|].
    rewrite Ho4 by congruence. now apply lookup_insert_ne.
Qed.

Lemma save_response_content_broken_keeps_destination_witness :
  fs (save_response_content host_linux broken_response "/home/u/java.zip"
        (Some 5) true state_old_archive).2 !! "/home/u/java.zip"
  = fs state_old_archive !! "/home/u/java.zip".
Proof.
  refine (proj2 (save_response_content_broken_keeps_destination host_linux
                   broken_response "/home/u/java.zip" (Some 5) true
                   state_old_archive _ _ _)).
  - reflexivity.
  - reflexivity.
  - repeat constructor.
Defined.

(** X10: A stream that breaks makes [save_response_content] raise in every
    state, and no handler cleans up: when the run ends with
    [ChunkedEncodingError], the temporary directory, which did not exist
    before, is left behind with the partial file in it, holding the chunks
    received. *)
Theorem save_response_content_broken_stream (h : Host) (response : Response)
    (destination : string) (file_size : option Z) (progress : bool)
    (s : State) :
  broken response = true ->
  let fl := os_path h in
  let run := save_response_content h response destination file_size progress s in
  run.1 <> inr tt /\
  (run.1 = inl ChunkedEncodingError ->
   exists t,
     In t (tmp_names s) /\ fs s !! t = None /\
     fs run.2 !! t = Some Dir /\
     fs run.2 !! OsPath.join fl t (OsPath.basename fl destination)
     = Some (File (concat (chunks response)))).
Proof.
  intros Hbroken fl run.
  destruct (save_response_content_stream h response destination file_size
              progress s)
    as [(e0 & s0 & H0 & _ & He0) |
        (t & rest & Hff & [(e0 & s2 & H0 & Hfs2 & He0) |
                           (s4 & Hne & Hb & Hc4 & Ho4 & H0)])];
    cbv zeta in *; fold run in H0.
  - rewrite H0. split; [discriminate|]. cbn [fst]. now intros [= ->].
  - rewrite H0. split; [discriminate|]. cbn [fst]. now intros [= ->].
  - rewrite Hbroken in H0. cbn in H0. rewrite H0. split; [discriminate|].
    intros _. cbn [snd]. exists t.
    destruct (first_free_inv _ _ _ _ Hff) as [Hin Hfree].
    repeat split; try assumption.
    rewrite Ho4 by congruence. apply lookup_insert_eq.
Qed.

Lemma save_response_content_broken_stream_witness :
  (save_response_content host_linux broken_response "/home/u/java.zip"
     None false state_fresh).1 <> inr tt.
Proof.
  refine (proj1 (save_response_content_broken_stream host_linux broken_response
                   "/home/u/java.zip" None false state_fresh _)).
  reflexivity.
Defined.

(** X11: When [save_response_content] returns, the temporary directory it
    used is gone with everything below it: the directory did not exist
    before the call, and afterwards no path under it has an entry. *)
Theorem save_response_content_removes_temp (h : Host) (response : Response)
    (destination : string) (file_size : option Z) (progress : bool)
    (s s' : State) :
  save_response_content h response destination file_size progress s
    = (inr tt, s') ->
  exists t,
    In t (tmp_names s) /\ fs s !! t = None /\
    (forall p, OsPath.under (os_path h) t p = true -> fs s' !! p = None) /\
    exists evs, trace s' = (evs ++ [EvRmtree t])%list.
Proof.
  intros Hrun.
  destruct (save_response_content_stream h response destination file_size
              progress s)
    as [(e0 & s0 & H0 & _) |
        (t & rest & Hff & [(e0 & s2 & H0 & _) |
                           (s4 & Hne & Hb & Hc4 & Ho4 & H0)])];
    cbv zeta in *; rewrite Hrun in H0; try discriminate.
  destruct (first_free_inv _ _ _ _ Hff) as [Hin Hfree].
  exists t. split; [exact Hin|]. split; [exact Hfree|].
  destruct (broken response); [discriminate|].
  assert (Ht4 : fs s4 !! t = Some Dir).
  { rewrite Ho4 by congruence. apply lookup_insert_eq. }
  destruct (save_response_content_tail h destination t _ _ s4 Ht4 Hc4)
    as [(e1 & s6 & H1 & _) | (s6 & s7 & r & H1 & _)]; cbv zeta in *;
    cbn [when] in H0; unfold bind at 1, ret at 1 in H0; rewrite H1 in H0;
    [discriminate|].
  injection H0 as ->. cbn [fs trace]. split; [|eauto].
  intros p Hp. apply map_lookup_filter_None_2. right.
  intros n _. cbn [fst]. congruence.
Qed.

Lemma save_response_content_removes_temp_witness :
  exists t,
    In t (tmp_names state_fresh) /\ fs state_fresh !! t = None /\
    (forall p, OsPath.under (os_path host_linux) t p = true ->
               fs (save_response_content host_linux example_response
                     "/home/u/java.zip" None false state_fresh).2 !! p = None) /\
    exists evs,
      trace (save_response_content host_linux example_response
               "/home/u/java.zip" None false state_fresh).2
      = (evs ++ [EvRmtree t])%list.
Proof.
  refine (save_response_content_removes_temp host_linux example_response
            "/home/u/java.zip" None false state_fresh _ _).
  vm_compute. reflexivity.
Defined.

(** X12: A destination without a directory part never works: the directory
    name is the empty string, which does not exist, and [os.makedirs]
    refuses it, after the whole body has been received.  In every state
    in which the empty string names nothing, [save_response_content]
    raises. *)
Theorem save_response_content_bare_filename (h : Host) (response : Response)
    (destination : string) (file_size : option Z) (progress : bool)
    (s : State) :
  OsPath.dirname (os_path h) destination = "" ->
  fs s !! "" = None -> ~ In "" (tmp_names s) ->
  (save_response_content h response destination file_size progress s).1
  <> inr tt.
Proof.
  intros Hdir Hempty Hnames.
  destruct (save_response_content_stream h response destination file_size
              progress s)
    as [(e0 & s0 & H0 & _) |
        (t & rest & Hff & [(e0 & s2 & H0 & _) |
                           (s4 & Hne & Hb & Hc4 & Ho4 & H0)])];
    cbv zeta in *; rewrite H0; try discriminate.
  destruct (first_free_inv _ _ _ _ Hff) as [Hin _].
  destruct (broken response); [discriminate|].
  rewrite Hdir. cbn [when]. unfold bind at 1, ret at 1.
  unfold Fs.exists_ at 1. unfold bind at 1, gets at 1.
  assert (H4 : fs s4 !! "" = None).
  { rewrite Ho4.
    - rewrite lookup_insert_ne; [exact Hempty|]. intros ->. contradiction.
    - intros Heq. rewrite <- Heq in Hb. unfold os_path in Hb.
      destruct (is_win h); discriminate. }
  rewrite H4. cbn [Fs.is_some_node negb when].
  rewrite (bind_err _ _ _ _ _ (makedirs_empty h s4)). discriminate.
Qed.

Lemma save_response_content_bare_filename_witness :
  (save_response_content host_linux example_response "java.zip" None false
     state_fresh).1 <> inr tt.
Proof.
  refine (save_response_content_bare_filename host_linux example_response
            "java.zip" None false state_fresh _ _ _).
  - reflexivity.
  - reflexivity.
  - intros [H|[H|[]]]; discriminate H.
Defined.

(** ** Extraction *)



(** ** A download that takes place *)

Lemma remove_ok (h : Host) (p : string) (s s' : State) :
  Fs.remove h p s = (inr tt, s') ->
  fs s' = delete p (fs s) /\ trace s' = (trace s ++ [EvUnlink p])%list.
Proof.
  unfold Fs.remove, bind, gets, raise, set_fs, log, modify. cbn [fst snd].
  destruct (fs s !! p) as [[|c]|]; try discriminate.
  now intros [= <-].
Qed.

Lemma trace_extends {A} (m : M A) (Q : A -> Prop) (s : State) :
  sat (fun _ => True) (fun _ => True) (fun _ => True) (fun _ => True) m Q ->
  exists evs, trace (m s).2 = (trace s ++ evs)%list.
Proof.
  intros H. destruct (H s) as ((_ & evs & Hev & _) & _).
  - now apply inv_all.
  - now exists evs.
Qed.

(** What the common end of [download_java] and [download_jdk] leaves,
    when it returns: the request for the file has been sent, and the
    archive has been removed. *)
Lemma fetch_and_unpack (h : Host) (file_id zip_dst java_path path : string)
    (file_size : Z) (s s' : State) (p : string) :
  (download_from_gdrive h file_id zip_dst (Some file_size) false ;;;
   extract_zip h zip_dst java_path ;;;
   Fs.remove h zip_dst ;;;
   ret path) s = (inr p, s') ->
  p = path /\ fs s' !! zip_dst = None /\
  exists evs, trace s' = (trace s ++ evs)%list /\
              In (EvGet file_id None) evs /\ In (EvUnlink zip_dst) evs.
Proof.
  intros H.
  apply bind_inr in H as ([] & s2 & Hdl & H).
  apply bind_inr in H as ([] & s3 & Hex & H).
  apply bind_inr in H as ([] & s4 & Hrm & H).
  injection H as <- <-.
  apply remove_ok in Hrm as [Hfs4 Htr4].
  split; [reflexivity|]. split; [rewrite Hfs4; apply lookup_delete_eq|].
  assert (H3 : exists evs, trace s3 = (trace s2 ++ evs)%list).
  { pose proof (trace_extends (extract_zip h zip_dst java_path) _ s2
                  (sat_extract_zip (fun _ => True) (fun _ => True)
                     (fun _ => True) (fun _ => True) h java_path
                     ltac:(intros; split; exact I)
                     ltac:(intros; split; intros; exact I)
                     zip_dst)) as Ht.
    now rewrite Hex in Ht. }
  assert (H2 : exists evs, trace s2 = (trace s ++ EvGet file_id None :: evs)%list).
  { unfold download_from_gdrive in Hdl.
    apply bind_inr in Hdl as (r1 & s1 & Hget & Hdl).
    assert (Hs1 : trace s1 = (trace s ++ [EvGet file_id None])%list).
    { unfold session_get, bind, log, modify in Hget. cbn [fst snd] in Hget.
      destruct (server h file_id None); [|discriminate].
      now injection Hget as _ <-. }
    match type of Hdl with
    | bind ?m ?k s1 = _ =>
        assert (Hrest : sat (fun _ => True) (fun _ => True) (fun _ => True)
                          (fun _ => True) (bind m k) (fun _ => True))
    end.
    { apply (sat_bind _ _ _ _ _ _ (fun _ => True)).
      - destruct (get_confirm_token r1) as [t|]; [|now apply sat_ret].
        destruct (PyStr.nonempty t); [|now apply sat_ret].
        now apply sat_session_get.
      - intros r _. apply sat_save_response_content; try exact I.
        + intros; exact I.
        + intros t _. unfold temp_allowed. repeat split.
        + intros; exact I.
        + intros; now split. }
    destruct (trace_extends _ _ s1 Hrest) as [evs Hevs].
    rewrite Hdl in Hevs. cbn [snd] in Hevs.
    exists evs. rewrite Hevs, Hs1, <- app_assoc. reflexivity. }
  destruct H2 as [evs2 H2]. destruct H3 as [evs3 H3].
  exists (EvGet file_id None :: evs2 ++ evs3 ++ [EvUnlink zip_dst])%list.
  split.
  - rewrite Htr4, H3, H2, <- !app_assoc. reflexivity.
  - split; [now left|]. right. rewrite !in_app_iff. right. right. now left.
Qed.

(** X14: When neither installation exists and the download goes through,
    [download_java] and [download_jdk] return the primary path, whether or
    not the archive held it; the request for the file of the profile has
    been sent, and the archive has been removed from the installation
    directory. *)
Theorem download_fetches_and_removes_archive (h : Host) (s s' : State)
    (p : string) :
  (forall java_path jre_path file_id file_size,
      get_java_info h = inr (Some (java_path, jre_path, file_id, file_size)) ->
      fs s !! jre_path = None -> fs s !! old_path h jre_path = None ->
      download_java h s = (inr p, s') ->
      p = jre_path /\
      fs s' !! OsPath.join (os_path h) java_path "java_temp.zip" = None /\
      exists evs, trace s' = (trace s ++ evs)%list /\
                  In (EvGet file_id None) evs /\
                  In (EvUnlink (OsPath.join (os_path h) java_path "java_temp.zip"))
                     evs) /\
  (forall java_path jdk_path file_id file_size,
      get_jdk_info h = (java_path, jdk_path, file_id, file_size) ->
      fs s !! jdk_path = None -> fs s !! old_path h jdk_path = None ->
      download_jdk h s = (inr p, s') ->
      p = jdk_path /\
      fs s' !! OsPath.join (os_path h) java_path "jdk_temp.zip" = None /\
      exists evs, trace s' = (trace s ++ evs)%list /\
                  In (EvGet file_id None) evs /\
                  In (EvUnlink (OsPath.join (os_path h) java_path "jdk_temp.zip"))
                     evs).
Proof.
  split.
  - intros java_path jre_path file_id file_size Hinfo Hnew Hold Hrun.
    unfold download_java in Hrun. cbv zeta in Hrun.
    unfold bind at 1, lift at 1 in Hrun. rewrite Hinfo in Hrun.
    unfold Fs.exists_ at 1 in Hrun. unfold bind at 1, gets at 1 in Hrun.
    rewrite Hnew in Hrun. cbn [Fs.is_some_node] in Hrun.
    destruct (get_acdc_java_path h) as [acdc dot] eqn:Hp.
    unfold Fs.exists_ at 1 in Hrun. unfold bind at 1, gets at 1 in Hrun.
    unfold old_path in Hold. rewrite Hp in Hold. cbn [snd] in Hold.
    rewrite Hold in Hrun. cbn [Fs.is_some_node] in Hrun.
    apply bind_inr in Hrun as (ex & s0 & Hex & Hrun).
    apply gets_inr in Hex as [-> ->].
    apply bind_inr in Hrun as ([] & s1 & Hmd & Hrun).
    apply fetch_and_unpack in Hrun as (-> & Hzip & evs & Htr & Hget & Hrm).
    split; [reflexivity|]. split; [exact Hzip|].
    assert (H1 : exists evs1, trace s1 = (trace s ++ evs1)%list).
    { pose proof (trace_extends
                    (when (negb (Fs.is_some_node (fs s !! java_path)))
                       (Fs.makedirs h java_path)) _ s
                    (sat_when _ _ _ _ _ _
                       (sat_makedirs (fun _ => True) (fun _ => True)
                          (fun _ => True) (fun _ => True) h java_path
                          ltac:(intros; now split)))) as Ht.
      now rewrite Hmd in Ht. }
    destruct H1 as [evs1 H1]. exists (evs1 ++ evs)%list.
    split; [rewrite Htr, H1, <- app_assoc; reflexivity|].
    rewrite !in_app_iff. auto.
  - intros java_path jdk_path file_id file_size Hinfo Hnew Hold Hrun.
    unfold download_jdk in Hrun. cbv zeta in Hrun. rewrite Hinfo in Hrun.
    unfold Fs.exists_ at 1 in Hrun. unfold bind at 1, gets at 1 in Hrun.
    rewrite Hnew in Hrun. cbn [Fs.is_some_node] in Hrun.
    destruct (get_acdc_java_path h) as [acdc dot] eqn:Hp.
    unfold Fs.exists_ at 1 in Hrun. unfold bind at 1, gets at 1 in Hrun.
    unfold old_path in Hold. rewrite Hp in Hold. cbn [snd] in Hold.
    rewrite Hold in Hrun. cbn [Fs.is_some_node] in Hrun.
    apply fetch_and_unpack in Hrun as (-> & Hzip & evs & Htr & Hget & Hrm).
    split; [reflexivity|]. split; [exact Hzip|]. exists evs. auto.
Qed.

Lemma download_fetches_and_removes_archive_witness :
  fs (download_java host_linux state_fresh).2
    !! "/home/u/acdc-java/linux/java_temp.zip" = None.
Proof.
  refine (proj1 (proj2 (proj1 (download_fetches_and_removes_archive host_linux
            state_fresh (download_java host_linux state_fresh).2
            "/home/u/acdc-java/linux/jre1.8.0_301")
            "/home/u/acdc-java/linux" "/home/u/acdc-java/linux/jre1.8.0_301"
            "1Fz8krhOS8JsX-GhkRDeMiEnAIWqZmCfP" 92145253 _ _ _ _))).
  - reflexivity.
  - reflexivity.
  - reflexivity.
  - vm_compute. reflexivity.
Defined.

(** ** The compiler commands of locate.py *)

Lemma plain_exe (h : Host) :
  plain (os_path h) "bin" = true /\ plain (os_path h) "javac.exe" = true /\
  plain (os_path h) "jar.exe" = true.
Proof. unfold os_path. destruct (is_win h); repeat split. Qed.

(** X15: Off Windows [find_javac_cmd] and [find_jar_cmd] return the bare
    command names and touch nothing.  On Windows a path they return is
    [bin\javac.exe] (or [bin\jar.exe]) under the directory [find_jdk]
    found, and it is a regular file in the state that [find_jdk] left;
    when the file is missing there they raise [RuntimeError], after the
    JDK has been looked up or downloaded. *)
Theorem find_compiler_commands (h : Host) (s : State) :
  (is_win h = false ->
   find_javac_cmd h s = (inr "javac", s) /\
   find_jar_cmd h s = (inr "jar", s)) /\
  (is_win h = true ->
   (forall p s', find_javac_cmd h s = (inr p, s') ->
      Fs.is_file_node (fs s' !! p) = true /\
      OsPath.basename (os_path h) p = "javac.exe" /\
      exists jdk_base,
        find_jdk h s = (inr (Some jdk_base), s') /\
        p = OsPath.join3 (os_path h) jdk_base "bin" "javac.exe") /\
   (forall p s', find_jar_cmd h s = (inr p, s') ->
      Fs.is_file_node (fs s' !! p) = true /\
      OsPath.basename (os_path h) p = "jar.exe" /\
      exists jdk_base,
        find_jdk h s = (inr (Some jdk_base), s') /\
        p = OsPath.join3 (os_path h) jdk_base "bin" "jar.exe") /\
   (forall jdk_base s',
      find_jdk h s = (inr (Some jdk_base), s') ->
      (Fs.is_file_node
         (fs s' !! OsPath.join3 (os_path h) jdk_base "bin" "javac.exe") = false ->
       exists msg, find_javac_cmd h s = (inl (RuntimeError msg), s')) /\
      (Fs.is_file_node
         (fs s' !! OsPath.join3 (os_path h) jdk_base "bin" "jar.exe") = false ->
       exists msg, find_jar_cmd h s = (inl (RuntimeError msg), s')))).
Proof.
  destruct (plain_exe h) as (_ & Hjavac & Hjar).
  pose proof (os_path_colon_free h) as Hc.
  split.
  - intros Hw. unfold find_javac_cmd, find_jar_cmd. now rewrite Hw.
  - intros Hw. unfold find_javac_cmd, find_jar_cmd. rewrite Hw.
    split; [|split].
    + intros p s' H.
      apply bind_inr in H as ([base|] & s1 & Hjdk & H); [|discriminate].
      apply bind_inr in H as (isf & s2 & Hisf & H).
      apply gets_inr in Hisf as [-> ->].
      destruct (Fs.is_file_node _) eqn:Hf in H; [|discriminate].
      injection H as <- <-. split; [exact Hf|]. split.
      * unfold OsPath.join3. now apply OsPathFacts.basename_join.
      * now exists base.
    + intros p s' H.
      apply bind_inr in H as ([base|] & s1 & Hjdk & H); [|discriminate].
      apply bind_inr in H as (isf & s2 & Hisf & H).
      apply gets_inr in Hisf as [-> ->].
      destruct (Fs.is_file_node _) eqn:Hf in H; [|discriminate].
      injection H as <- <-. split; [exact Hf|]. split.
      * unfold OsPath.join3. now apply OsPathFacts.basename_join.
      * now exists base.
    + intros base s' Hjdk. split; intros Hf; eexists;
        rewrite (bind_ok _ _ _ _ _ Hjdk); unfold Fs.isfile, bind, gets;
        rewrite Hf; reflexivity.
Qed.

Lemma find_compiler_commands_witness :
  find_javac_cmd host_win64_jdk_home state_with_javac
    = (inr "C:\jdk\bin\javac.exe", state_with_javac) /\
  (exists msg, find_jar_cmd host_win64_jdk_home state_with_javac
               = (inl (RuntimeError msg), state_with_javac)) /\
  find_javac_cmd host_linux state_fresh = (inr "javac", state_fresh).
Proof.
  split; [vm_compute; reflexivity|]. split.
  - refine (proj2 (proj2 (proj2 (proj2 (find_compiler_commands host_win64_jdk_home
              state_with_javac) _)) "C:\jdk" state_with_javac _) _);
      reflexivity.
  - refine (proj1 (proj1 (find_compiler_commands host_linux state_fresh) _)).
    reflexivity.
Defined.

(** ** The library [find_jre_bin_jdk_so] returns *)


Lemma find_jre_bin_jdk_so_result (h : Host) (s s' : State) (java_home : string) :
  find_javahome h s = (inr java_home, s') ->
  exists bin so,
    find_jre_bin_jdk_so h s = (inr (bin, so), s') /\
    match so with
    | Some lib =>
        In (bin, lib) (candidates h java_home) /\
        Fs.is_file_node (fs s' !! lib) = true
    | None =>
        bin = OsPath.join (os_path h)
                (OsPath.join (os_path h) java_home "default-runtime") "bin" /\
        Forall (fun c => Fs.is_file_node (fs s' !! c.2) = false)
               (candidates h java_home)
    end.
Proof.
  intros Hhome. unfold find_jre_bin_jdk_so, bind at 1. rewrite Hhome.
  unfold bind, gets, candidates, jre_homes, arches.
  destruct (is_linux h);
    cbn [for_loop flat_map List.map app snd fst jre_bin jvm_dir];
    repeat match goal with
           | |- context [Fs.is_file_node (fs s' !! ?p)] =>
               destruct (Fs.is_file_node (fs s' !! p)) eqn:?;
               cbn [for_loop flat_map List.map app snd fst jre_bin jvm_dir];
               [eexists _, (Some _); split; [reflexivity|];
                split; [cbn [In]; repeat (first [left; reflexivity | right])
                       | assumption]|]
           end;
    (eexists _, None; split; [reflexivity|]; split; [reflexivity|];
     repeat constructor; assumption).
Qed.



(** ** The compiler test and the flags of the module *)

(** X17: [is_mingw] runs no command unless [os.name] is [nt] and neither
    DISTUTILS_USE_SDK nor MSSdk is set.  Otherwise it runs the gcc test up
    to three times: bare, then with the 32-bit prefix, then with the
    64-bit prefix (a prefix that is unset or empty adds nothing), and stops
    at the first that exits with 0.  The answer is [True] exactly when the
    last command it ran exited with 0. *)
Theorem is_mingw_commands (py : Interpreter) (h : Host) :
  let prefix32 := default "" (getenv h "MINGW32_PREFIX") in
  let prefix64 := default "" (getenv h "MINGW64_PREFIX") in
  let result := (is_mingw py h).1 in
  let commands := (is_mingw py h).2 in
  (os_name py <> "nt" \/ is_Some (getenv h "DISTUTILS_USE_SDK") \/
   is_Some (getenv h "MSSdk") ->
   is_mingw py h = (false, [])) /\
  (os_name py = "nt" -> getenv h "DISTUTILS_USE_SDK" = None ->
   getenv h "MSSdk" = None ->
   exists rest, commands = gcc_test :: rest) /\
  (exists rest,
      [gcc_test; prefix32 ++ gcc_test; prefix64 ++ gcc_test]
      = (commands ++ rest)%list) /\
  (result = true <->
   exists before cmd,
     commands = (before ++ [cmd])%list /\ system py before cmd = 0) /\
  (forall before cmd after,
      commands = (before ++ cmd :: after)%list -> after <> [] ->
      system py before cmd <> 0).
Proof.
  cbv zeta.
  assert (H32 : (if truthy (getenv h "MINGW32_PREFIX")
                 then default "" (getenv h "MINGW32_PREFIX") else "")
                = default "" (getenv h "MINGW32_PREFIX")).
  { destruct (getenv h "MINGW32_PREFIX") as [[|c v]|]; reflexivity. }
  assert (H64 : (if truthy (getenv h "MINGW64_PREFIX")
                 then default "" (getenv h "MINGW64_PREFIX") else "")
                = default "" (getenv h "MINGW64_PREFIX")).
  { destruct (getenv h "MINGW64_PREFIX") as [[|c v]|]; reflexivity. }
  unfold is_mingw. cbv zeta. rewrite H32, H64.
  set (p32 := default "" (getenv h "MINGW32_PREFIX")).
  set (p64 := default "" (getenv h "MINGW64_PREFIX")).
  assert (Hnil : forall P : Prop, P ->
            (P -> (false, @nil string) = (false, [])) /\
            (os_name py = "nt" -> getenv h "DISTUTILS_USE_SDK" = None ->
             getenv h "MSSdk" = None -> ~ P ->
             exists rest, @nil string = gcc_test :: rest) /\
            (exists rest,
                [gcc_test; p32 ++ gcc_test; p64 ++ gcc_test]
                = ([] ++ rest)%list) /\
            (false = true <->
             exists before cmd,
               [] = (before ++ [cmd])%list /\ system py before cmd = 0) /\
            (forall before cmd after,
                [] = (before ++ cmd :: after)%list -> after <> [] ->
                system py before cmd <> 0)).
  { intros P HP. split; [reflexivity|]. split; [intros; contradiction|].
    split; [now exists [gcc_test; p32 ++ gcc_test; p64 ++ gcc_test]|].
    split.
    - split; [discriminate|]. intros (before & cmd & Hc & _). now destruct before.
    - intros before cmd after Hc. now destruct before. }
  destruct (String.eqb_spec (os_name py) "nt") as [Hnt|Hnt]; cbn [negb].
  2:{ destruct (Hnil (os_name py <> "nt") Hnt) as (_ & _ & H3 & H4 & H5).
      cbn [fst snd]. split; [reflexivity|]. split; [intros; contradiction|].
      auto. }
  destruct (getenv h "DISTUTILS_USE_SDK") as [v|] eqn:Hsdk; cbn [is_some orb].
  { destruct (Hnil True I) as (_ & _ & H3 & H4 & H5).
    cbn [fst snd]. split; [reflexivity|]. split; [discriminate|]. auto. }
  destruct (getenv h "MSSdk") as [v|] eqn:Hms; cbn [is_some].
  { destruct (Hnil True I) as (_ & _ & H3 & H4 & H5).
    cbn [fst snd]. split; [reflexivity|]. split; [discriminate|]. auto. }
  clear Hnil.
  assert (Hno : ~ (os_name py <> "nt" \/ is_Some (@None string) \/
                   is_Some (@None string))).
  { intros [H | [[x H] | [x H]]]; [contradiction | discriminate | discriminate]. }
  destruct (Z.eqb_spec (system py [] gcc_test) 0) as [E1|E1].
  { cbn [fst snd]. split; [intros H; now destruct Hno|].
    split; [intros _ _ _; now exists []|].
    split; [now exists [p32 ++ gcc_test; p64 ++ gcc_test]|].
    split.
    - split; [|reflexivity]. intros _. now exists [], gcc_test.
    - intros before cmd after Hc Ha.
      destruct before as [|b [|b' before]]; destruct after; try discriminate;
        congruence. }
  destruct (Z.eqb_spec (system py [gcc_test] (p32 ++ gcc_test)) 0) as [E2|E2].
  { cbn [fst snd]. split; [intros H; now destruct Hno|].
    split; [intros _ _ _; now eexists|].
    split; [now exists [p64 ++ gcc_test]|].
    split.
    - split; [|reflexivity]. intros _. now exists [gcc_test], (p32 ++ gcc_test).
    - intros before cmd after Hc Ha.
      destruct before as [|b [|b' [|b'' before]]];
        destruct after as [|a [|a' after]];
        try discriminate; try congruence;
        injection Hc; intros; subst; congruence. }
  destruct (Z.eqb_spec (system py [gcc_test; p32 ++ gcc_test] (p64 ++ gcc_test)) 0)
    as [E3|E3].
  { cbn [fst snd]. split; [intros H; now destruct Hno|].
    split; [intros _ _ _; now eexists|].
    split; [now exists []|].
    split.
    - split; [|reflexivity]. intros _.
      now exists [gcc_test; p32 ++ gcc_test], (p64 ++ gcc_test).
    - intros before cmd after Hc Ha.
      destruct before as [|b [|b' [|b'' [|b3 before]]]];
        destruct after as [|a [|a' [|a'' after]]];
        try discriminate; try congruence;
        injection Hc; intros; subst; congruence. }
  cbn [fst snd]. split; [intros H; now destruct Hno|].
  split; [intros _ _ _; now eexists|].
  split; [now exists []|].
  split.
  - split; [discriminate|]. intros (before & cmd & Hc & H0).
    destruct before as [|b [|b' [|b'' [|b3 before]]]]; try discriminate;
      injection Hc; intros; subst; congruence.
  - intros before cmd after Hc Ha.
    destruct before as [|b [|b' [|b'' [|b3 before]]]];
      destruct after as [|a [|a' [|a'' after]]];
      try discriminate; try congruence;
      injection Hc; intros; subst; congruence.
Qed.

Lemma is_mingw_commands_witness :
  is_mingw python_on_windows host_win64_mingw
  = (true, [gcc_test; gcc_test; "C:\mingw64\bin\gcc --version > NUL 2>&1"]) /\
  is_mingw python_on_windows host_win_mssdk = (false, []).
Proof.
  split; [vm_compute; reflexivity|].
  refine (proj1 (is_mingw_commands python_on_windows host_win_mssdk) _).
  right. right. vm_compute. eauto.
Defined.

(** X18: Importing the module on Windows without PROCESSOR_ARCHITECTURE fails
    with [KeyError] before the gcc test is run.  When the import
    succeeds, at most one of [is_linux], [is_mac] and [is_win] is set;
    [is_win64] and [is_msvc] are set only on Windows; on Python 3
    [is_msvc] is [is_win], so it says nothing about the compiler and can
    hold together with [is_mingw]; and [is_mingw] is the answer of the gcc
    test. *)
Theorem module_flags_consistent (py : Interpreter) (h : Host) :
  (is_win h = true -> environ h !! "PROCESSOR_ARCHITECTURE" = None ->
   module_flags py h = inl (KeyError "PROCESSOR_ARCHITECTURE")) /\
  (forall f commands,
      module_flags py h = inr (f, commands) ->
      (flag_linux f, flag_mac f, flag_win f) = (is_linux h, is_mac h, is_win h) /\
      (flag_win f = true -> flag_linux f = false /\ flag_mac f = false) /\
      (flag_mac f = true -> flag_linux f = false) /\
      (flag_win64 f = true ->
       flag_win f = true /\
       environ h !! "PROCESSOR_ARCHITECTURE" = Some "AMD64") /\
      (flag_msvc f = true -> flag_win f = true) /\
      (version_major py = 3 -> flag_msvc f = flag_win f) /\
      (flag_mingw f, commands) = is_mingw py h).
Proof.
  unfold module_flags. fold (is_win h) (is_mac h) (is_linux h).
  split.
  - intros Hw Ha. now rewrite Hw, Ha.
  - intros f commands H.
    pose proof (win_not_mac h) as Hwm. pose proof (win_not_linux h) as Hwl.
    pose proof (mac_not_linux h) as Hml.
    destruct (is_mingw py h) as [mingw cmds].
    destruct (is_win h) eqn:Hw.
    + destruct (environ h !! "PROCESSOR_ARCHITECTURE") as [a|] eqn:Ha;
        [|discriminate].
      injection H as <- <-.
      cbn [flag_linux flag_mac flag_win flag_win64 flag_msvc flag_mingw andb].
      rewrite (Hwm eq_refl), (Hwl eq_refl).
      split; [reflexivity|]. split; [auto|]. split; [discriminate|].
      split; [|split; [auto|split; [|reflexivity]]].
      * intros He. apply String.eqb_eq in He. now subst.
      * intros ->. reflexivity.
    + injection H as <- <-.
      cbn [flag_linux flag_mac flag_win flag_win64 flag_msvc flag_mingw andb].
      split; [reflexivity|]. split; [discriminate|]. split; [exact Hml|].
      split; [discriminate|]. split; [discriminate|]. split; reflexivity.
Qed.

Lemma module_flags_consistent_witness :
  module_flags python_on_windows host_win_no_arch
  = inl (KeyError "PROCESSOR_ARCHITECTURE").
Proof.
  refine (proj1 (module_flags_consistent python_on_windows host_win_no_arch) _ _);
    reflexivity.
Defined.

(** ** What an extraction keeps *)

Lemma grows_keeps {A} (m : M A) : grows m -> keeps_entries m.
Proof.
  intros H s. split.
  - intros p Hp. now apply H.
  - intros p c Hp. exists c. now apply H.
Qed.

Lemma keeps_bind {A B} (m : M A) (k : A -> M B) :
  keeps_entries m -> (forall a, keeps_entries (k a)) -> keeps_entries (bind m k).
Proof.
  intros Hm Hk s. unfold bind. destruct (Hm s) as [Hd Hf].
  destruct (m s) as [[e|a] s1]; cbn [snd] in *; [now split|].
  destruct (Hk a s1) as [Hd1 Hf1]. split; [auto|].
  intros p c Hp. destruct (Hf p c Hp) as [c1 Hc1]. eauto.
Qed.

Lemma keeps_for_each {X} (xs : list X) (body : X -> M unit) :
  (forall x, keeps_entries (body x)) -> keeps_entries (for_each xs body).
Proof.
  intros Hb. induction xs as [|x xs IH]; cbn [for_each].
  - apply grows_keeps, grows_pure. reflexivity.
  - apply keeps_bind; [apply Hb | intros _; exact IH].
Qed.

Lemma keeps_put_file (s : State) (p : string) (c : bytes) (tr : list Event) :
  fs s !! p <> Some Dir ->
  (forall q, fs s !! q = Some Dir -> <[p := File c]> (fs s) !! q = Some Dir) /\
  (forall q c0, fs s !! q = Some (File c0) ->
                exists c', <[p := File c]> (fs s) !! q = Some (File c')).
Proof.
  intros Hp. split.
  - intros q Hq. rewrite lookup_insert_ne; [exact Hq|]. intros ->. contradiction.
  - intros q c0 Hq. destruct (decide (p = q)) as [->|Hne].
    + rewrite lookup_insert_eq. eauto.
    + rewrite lookup_insert_ne by exact Hne. eauto.
Qed.

Lemma keeps_same (s : State) :
  (forall q, fs s !! q = Some Dir -> fs s !! q = Some Dir) /\
  (forall q c0, fs s !! q = Some (File c0) ->
                exists c', fs s !! q = Some (File c')).
Proof. split; eauto. Qed.

Lemma keeps_open_wb (h : Host) (p : string) : keeps_entries (Fs.open_wb h p).
Proof.
  intros s. unfold Fs.open_wb, bind, gets, raise, set_fs, log, modify.
  cbn [fst snd].
  destruct (negb (PyStr.nonempty (OsPath.basename (os_path h) p)));
    [apply keeps_same|].
  destruct (Fs.is_dir_node (fs s !! p)) eqn:Hd; [apply keeps_same|].
  destruct (negb (Fs.parent_ok h (fs s) p)); [apply keeps_same|].
  cbn [fs snd]. apply (keeps_put_file s p [] []).
  intros Hp. rewrite Hp in Hd. discriminate.
Qed.

Lemma keeps_write (p : string) (c : bytes) : keeps_entries (Fs.write p c).
Proof.
  intros s. unfold Fs.write, bind, gets, raise, set_fs, log, modify.
  cbn [fst snd].
  destruct (fs s !! p) as [[|c0]|] eqn:Hp; [apply keeps_same| |apply keeps_same].
  cbn [fs snd]. apply (keeps_put_file s p _ []). congruence.
Qed.

Lemma keeps_extract_member (h : Host) (target : string) (m : ZipMember) :
  keeps_entries (Zip.extract_member h target m).
Proof.
  unfold Zip.extract_member.
  apply keeps_bind; [apply grows_keeps, grows_pure; reflexivity|]. intros ex.
  apply keeps_bind.
  { unfold when. destruct (_ && _).
    - apply grows_keeps, grows_makedirs_go.
    - apply grows_keeps, grows_pure. reflexivity. }
  intros _. destruct (Zip.is_dir m).
  - apply keeps_bind; [apply grows_keeps, grows_pure; reflexivity|]. intros d.
    unfold when. destruct (negb d).
    + apply grows_keeps, grows_mkdir.
    + apply grows_keeps, grows_pure. reflexivity.
  - apply keeps_bind; [apply keeps_open_wb | intros _; apply keeps_write].
Qed.

(** X19: An extraction only adds and overwrites: every entry that existed is
    still there afterwards, a directory is still a directory and a regular
    file still a regular file.  A member can replace the content of a
    file; it never replaces a directory and never removes anything. *)
Theorem extract_zip_keeps_entries (h : Host) (zip_path extract_to_path : string)
    (s : State) :
  let s' := (extract_zip h zip_path extract_to_path s).2 in
  (forall p, fs s !! p = Some Dir -> fs s' !! p = Some Dir) /\
  (forall p c, fs s !! p = Some (File c) ->
               exists c', fs s' !! p = Some (File c')) /\
  (forall p, fs s' !! p = None -> fs s !! p = None).
Proof.
  cbv zeta.
  assert (H : keeps_entries (extract_zip h zip_path extract_to_path)).
  { unfold extract_zip, Zip.extract_zip.
    apply keeps_bind.
    - apply grows_keeps, grows_pure. intros s0. unfold Fs.read, bind, gets.
      cbn [fst snd]. now destruct (fs s0 !! zip_path) as [[|c]|].
    - intros c. destruct (unzip h c) as [members|].
      + apply keeps_for_each. intros m. apply keeps_extract_member.
      + apply grows_keeps, grows_pure. reflexivity. }
  destruct (H s) as [Hd Hf]. split; [exact Hd|]. split; [exact Hf|].
  intros p Hp. destruct (fs s !! p) as [[|c]|] eqn:Hs; [| |reflexivity].
  - rewrite (Hd p Hs) in Hp. discriminate.
  - destruct (Hf p c Hs) as [c' Hc']. rewrite Hc' in Hp. discriminate.
Qed.

(** ** Lookups that only read *)

(** X20: With JAVA_HOME set, [find_javahome] returns it and
    [find_jre_bin_jdk_so] only reads: no request, no download, the state
    is the one before.  The same holds of [find_jdk] when JDK_HOME is set,
    and off Windows when JAVA_HOME is set.  On Windows without JDK_HOME
    [find_jdk] does not look at JAVA_HOME: its result is that of
    [download_jdk].  On a platform that is none of the three it returns
    [None]. *)
Theorem lookups_read_environment_first (h : Host) (s : State) :
  (forall v, environ h !! "JAVA_HOME" = Some v ->
     find_javahome h s = (inr v, s) /\
     (find_jre_bin_jdk_so h s).2 = s /\
     (is_win h = false ->
      (find_jdk h s).2 = s /\ exists r, (find_jdk h s).1 = inr r)) /\
  (forall v, environ h !! "JDK_HOME" = Some v ->
     find_jdk h s = (inr (Some v), s)) /\
  (environ h !! "JDK_HOME" = None ->
   (is_win h = true -> find_jdk h s = on_result Some (download_jdk h s)) /\
   (is_win h = false -> is_linux h = false -> is_mac h = false ->
    find_jdk h s = (inr None, s))).
Proof.
  split; [|split].
  - intros v Hv.
    assert (Hhome : find_javahome h s = (inr v, s)).
    { unfold find_javahome. now rewrite Hv. }
    split; [exact Hhome|]. split.
    + destruct (find_jre_bin_jdk_so_result h s s v Hhome) as (bin & so & -> & _).
      reflexivity.
    + intros Hw. unfold find_jdk.
      destruct (environ h !! "JDK_HOME"); [cbn; eauto|].
      rewrite Hw. destruct (is_linux h).
      * rewrite (bind_ok _ _ _ _ _ Hhome). cbn. eauto.
      * destruct (is_mac h); [|cbn; eauto].
        rewrite (bind_ok _ _ _ _ _ Hhome). cbn. eauto.
  - intros v Hv. unfold find_jdk. now rewrite Hv.
  - intros Hj. unfold find_jdk. rewrite Hj. split.
    + intros Hw. rewrite Hw, (win_not_linux h Hw), (win_not_mac h Hw).
      unfold bind, on_result. now destruct (download_jdk h s) as [[e|p] s'].
    + intros -> -> ->. reflexivity.
Qed.

Lemma lookups_read_environment_first_witness :
  (find_jre_bin_jdk_so host_linux_with_java_home state_with_jvm).2
  = state_with_jvm.
Proof.
  refine (proj1 (proj2 (proj1 (lookups_read_environment_first
                                 host_linux_with_java_home state_with_jvm)
                          "/opt/java/jre" _))).
  reflexivity.
Defined.
